(* ===== verification/_CoqProject ===== *)
-Q . S2P
Prelude.v
Uuid.v
Store.v
Schemas.v
Body.v
Like.v
AtletaController.v
CentroController.v
CategoriaController.v
Fixtures.v
AtletaTheory.v
Responses.v
Api.v
CentroTheory.v
Routing.v
