(* ===== verification/Prelude.v ===== *)
(** * A verification development of the Workout API (DIO-WorkoutAPI)

    ** The program

    A FastAPI service over PostgreSQL with three routers. The athlete
    router ([src/workout_api/atleta/controller.py]) has [post], [query],
    [get], [patch] and [delete]; the training-centre router
    ([src/workout_api/centro_treinamento/controller.py]) has [post], [query]
    and [get]; the category router ([categorias/controller.py]) is not under
    src/. A handler reads rows through an async SQLAlchemy session, builds
    pydantic models ([src/workout_api/atleta/schemas.py]), adds or changes
    rows and commits, and turns failures into [HTTPException]s in [except]
    clauses that classify [str(e).lower()]. The handlers share no state but
    the database. Before a handler runs, FastAPI routes the request by
    method and path and validates its parameters: the path's [id: UUID4],
    the query's [Query(None)] and the JSON body against the input model.

    ** Files, in dependency order

    - [Prelude] (this file): the scope [workout_scope] and the notation of
      the Python-exception state monad [Py S A := S -> (exc + A) * S]
      ([ret], [bind], [raise], [gets], [try_except]); the exceptions [exc]
      ([HTTPException], [IntegrityError], [DataError], [Exception]);
      [str.lower] and the [in] operator on strings; [first], the model of
      [.scalars().first()]; the 32-bit bounds of an [INTEGER] column; the
      hint databases [workout] and [workout_rw]; the combinator [preserves]
      (every outcome keeps a state predicate) with its tactic.
    - [Uuid]: the [id: UUID4] path parameter: [uuid_parse] (the [uuid]
      crate's [parse_str], which pydantic calls: 32 digits, hyphenated,
      braced or [urn:uuid:], either case), [uuid4_validate] (version 4) and
      [uuid_str] ([str(UUID)]), with the proof that printing and parsing
      are inverse ([uuid_parse_str]).
    - [Store]: the database, the library the handlers call. The rows of the
      three tables ([models.py] is not under src/: rows follow the spec),
      the key sequences, and the atomic commits [insert_atleta],
      [update_atleta], [delete_atleta], [insert_centro] and
      [insert_categoria]. The commits make PostgreSQL's checks: NOT NULL,
      UNIQUE on id, nome and cpf, FOREIGN KEY, and a 32-bit [INTEGER] whose
      overflow is a [DataError] raised before the sequence is drawn. A
      refused row still spends a sequence value. [update_atleta] is given
      the columns of the UPDATE: with none, no UPDATE is sent and the
      commit succeeds. The error text is the [Driver] class;
      [sqlalchemy_psycopg] renders it as SQLAlchemy does, quoting the
      failed statement. [wf] is the store invariant, with its decision
      procedure; every commit preserves it.
    - [Schemas]: the pydantic models as records; the three states of an
      [AtletaUpdate] field; [model_dump(exclude_unset=True)]; and the
      construction [AtletaOut(id=uuid4(), ..., **atleta_in.model_dump())].
      Its validation is the [Validator] class: a [str] field given a Python
      value, and the required id of a nested output model. [pydantic_v2] is
      pydantic 2's instance; [coercing] accepts what the handler builds.
      [atleta_out_from_attributes] is [BaseSchema]'s [from_attributes]:
      [AtletaOut] validated from a row and the rows its relationships load.
      [PaginatedResponse] is a record no handler builds.
    - [Body]: the JSON request bodies ([json]) validated into [AtletaIn]
      (every field required), [AtletaUpdate] (every field [X | None =
      None]: absent, [null] or a value) and the nested name models; the
      scalar coercions of pydantic's lax mode are the class [JsonLax], with
      [JsonLaxLaws] and the instance [strict_json].
    - [Like]: the [LIKE]/[ILIKE] matcher of the store ([%], [_], backslash
      escape), proved to decide an inductive matching relation written rule
      by rule; [ILIKE '%n%'] is a case-insensitive substring test when [n]
      has no wildcard, and [ILIKE '%n_%'] finds [n] followed by any
      character.
    - [AtletaController]: one definition per handler, split where the code
      has a [try]. [post] is [post_prechecks] (lines 30-75) followed by
      [post_insert] (77-120), whose [except] clauses are [post_error].
      [query] is built from [query_filter] and [atleta_list_out].
      [get]/[delete] use [find_atleta]. [patch] is the [setattr] loop
      ([setattrs]), the commit ([update_atleta] of [changed_columns]: the
      attributes whose value differs from the loaded row, or set to
      [None], as SQLAlchemy's flush compares them) and [patch_error], whose
      CPF branch reads [atleta.cpf] from the object the failed commit
      expired and so raises [expired_read]. [serve] is FastAPI's boundary:
      a value gets the route's status, an [HTTPException] its own status,
      anything else a bare 500. [serve_model] adds a route's
      [response_model]: the returned value is validated after the handler,
      and a refused one is answered 500; [render_atleta] is the [AtletaOut]
      of [get] and [patch], through the relationships [categoria_of] and
      [centro_of]. [Env] holds what a request reads besides the database:
      [uuid4()], [datetime.now()], and whether the commit fails.
    - [CentroController]: [centro_post], [centro_query], [centro_get].
    - [CategoriaController]: the category handlers, modelled from spec
      section 4.4 in the shape of the centre handlers.
    - [Fixtures]: sample rows, requests and environments for the witnesses.
    - [AtletaTheory]: the theorems about the athlete handlers.
    - [Responses]: the response model of [get] and [patch] under pydantic 2.
    - [Api]: [request] has one constructor per route; [handle_atleta_post],
      ..., [handle_centro_get] are the decorators (status code and response
      model) over their handlers; [handle] selects the route of a request;
      [run] serves a sequence of requests.
    - [CentroTheory]: the theorems about the training-centre handlers.
    - [Routing]: the route tables of the three routers, one [route] per
      decorator with its function's parameters ([atleta_routes] and
      [centro_routes] from the code, [categoria_routes] from the spec);
      [dispatch], Starlette's router (first full match, 405 when only the
      path matches, 307 trailing-slash redirect, 404); and [serve_http],
      the dispatch, the validation (422 on failure) and the route's
      [handle_*] composed.

    ** What is proved

    - The athlete [post]: a duplicate CPF answers 303 (C1), a missing
      category 400 (C2), the store unchanged. With SQLAlchemy's text every
      refused insert is reported as a duplicate CPF (C7). Under a validator
      that requires the nested ids (C8) or refuses the [UUID] for the [str]
      id (C9), as pydantic 2 does both, no athlete is ever created.
    - [get], [patch], [delete]: unknown ids answer 404 (C5); [delete] then
      [get] answers 204 then 404 and removes exactly the row (C3).
    - [patch]: a nested category answers 500 (C6). Under pydantic 2 a valid
      update commits and answers 500 (C10), as does every [get] (C11).
      Setting the CPF to [null] (C12) or to another athlete's CPF (C13)
      answers a bare 500: the CPF branch of the [except] clause reads the
      expired object. A name clash that keeps the CPF answers the generic
      303, because the UPDATE lists only the changed columns (C14). An age
      outside 32 bits is a [DataError] answered 500 (C15).
    - [query]: on a consistent store a summary names the rows the foreign
      keys designate (C16); plain filters are case-insensitive substring
      tests (C4); a [_] in the filter is a wildcard (C17).
    - Training centres: creation (C18), every refusal reported as a
      duplicate name (C19), and a [get] after a [post] (C20).
    - Routing and validation: an id that is not a version-4 UUID is
      answered 422 before the handler (C21); every accepted spelling of an
      id, the 32 bare digits included, is served as its canonical text
      (C22); under pydantic 2, [PATCH {"idade": n}] through the whole stack
      commits the new age and answers 500 (C23); a method no route of
      ['/{id}'] declares is answered 405 (C24); the fields a [PATCH] writes
      are the declared keys its body sends (C25).
    - The findings these show are listed in PROJECT.json.

    ** Modelling choices and bounds

    There is no fuel. Every function is structurally recursive: the
    matcher recurses on the pattern and the text, the UUID parser and
    printer on the text and the digits, [dispatch] on the route list, and
    [run] on the list of requests. So every definition is total, the
    theorems state results, and no termination argument is needed: the
    code has no loop but the [setattr] loop over a finite dict and the row
    loop of [query], both structural here.
    The age is a [Z] checked against [-2^31, 2^31-1], as the column is
    (C15). Keys are [nat]s drawn from the sequences. Weights and heights are
    [SpecFloat]s, only stored, compared structurally. [str.lower] is
    modelled on ASCII; the classification only searches the ASCII words
    [cpf], [nome] and [unique]. The error text leaves out PostgreSQL's
    DETAIL line and the statement's parameters. Reads ([SELECT]s through
    [gets]) do not fail: a lost connection is outside the model, while
    commits may fail ([Env.commit_fault]). A handler runs to its end
    before the next request; a commit is atomic. The [id] column holds the
    id's text and [created_at] a [datetime] (the [models.py] files are not
    under src/; this is what the spec's "generated identifier" and
    "creation timestamp" are stored as).

    ** Not modelled

    [main.py], [routers.py] (the prefixes), the configuration and the
    session dependency are not under src/ and are framework glue: paths
    are modelled below each router's prefix, and the session is the store
    handed to the handler. Pagination is commented out in the source.
    pydantic's lax coercions (e.g. the text "25" for an [int]) are left to
    the [JsonLax] instance; JSON decoding of the raw bytes is the
    framework's, a body that is not JSON is [None]. The [print] of the
    generic [except] is logging. [db_session.refresh] re-reads the
    committed row. The lines of the three files under src/ that no
    definition translates are imports, blank lines and the commented-out
    pagination imports. The response models of the centre routes
    ([CentroTreinamentoOut], whose id takes the id's text) always accept
    and are folded into [centro_out]. JSON encoding of a validated model is
    the framework's. Concurrent requests, cancellation and timeouts are not
    modelled. *)

From Stdlib Require Import ZArith Ascii SpecFloat.
From stdpp Require Import base list strings option.

Declare Scope workout_scope.
Delimit Scope workout_scope with workout.

Create HintDb workout.
Create Rewrite HintDb workout_rw.

(** ** Python strings: [str.lower] and the [in] operator *)

(** [str.lower] on the ASCII range: 'A'..'Z' become 'a'..'z'. *)
Definition ascii_lower (c : ascii) : ascii :=
  let n := nat_of_ascii c in
  if (65 <=? n)%nat && (n <=? 90)%nat then ascii_of_nat (n + 32) else c.

Fixpoint lower (s : string) : string :=
  match s with
  | EmptyString => EmptyString
  | String c s' => String (ascii_lower c) (lower s')
  end.

(** [starts_with p s]: [s.startswith(p)]. *)
Fixpoint starts_with (p s : string) : bool :=
  match p, s with
  | EmptyString, _ => true
  | String c p', String d s' => bool_decide (c = d) && starts_with p' s'
  | String _ _, EmptyString => false
  end.

(** [contains needle hay]: Python's [needle in hay] on [str]. *)
Fixpoint contains (needle hay : string) : bool :=
  starts_with needle hay ||
  match hay with
  | EmptyString => false
  | String _ hay' => contains needle hay'
  end.

(** ** Python exceptions and a state/exception monad *)

(** The exceptions the handlers raise or catch: FastAPI's [HTTPException],
    SQLAlchemy's [IntegrityError] and [DataError] (both carry the driver's
    message, [str(e)]), and any other [Exception]. *)
Inductive exc : Type :=
  | HTTPException (status_code : Z) (detail : string)
  | IntegrityError (msg : string)
  | DataError (msg : string)
  | Exception (msg : string).

(** A computation over a state [S] (the database session) that returns an
    [A] or raises; the state reached when raising is kept, since work done
    before the raise (a sequence value drawn, say) is not undone. *)
Definition Py (S A : Type) : Type := S -> (exc + A) * S.

Definition ret {S A} (a : A) : Py S A := fun s => (inr a, s).
Definition bind {S A B} (m : Py S A) (k : A -> Py S B) : Py S B :=
  fun s => match m s with
           | (inl e, s') => (inl e, s')
           | (inr a, s') => k a s'
           end.
Definition raise {S A} (e : exc) : Py S A := fun s => (inl e, s).
Definition gets {S A} (f : S -> A) : Py S A := fun s => (inr (f s), s).

(** [try: m except e: h e]. *)
Definition try_except {S A} (m : Py S A) (h : exc -> Py S A) : Py S A :=
  fun s => match m s with
           | (inl e, s') => h e s'
           | r => r
           end.

Notation "x <- m ;; k" := (bind m (fun x => k))
  (at level 100, m at next level, right associativity) : workout_scope.
Notation "m ;; k" := (bind m (fun _ => k))
  (at level 100, right associativity) : workout_scope.

Open Scope workout_scope.

(** Raising unless a condition holds: [if not c: raise e]. *)
Definition ensure {S} (c : bool) (e : exc) : Py S unit :=
  if c then ret tt else raise e.

(** ** SQL's [.first()] on a list of rows *)

Definition first {A} (P : A -> Prop) `{!forall x, Decision (P x)} (l : list A)
  : option A := snd <$> list_find P l.

(** ** Python [float]s: IEEE binary64 values as data *)

Abbreviation float := spec_float.

#[export] Instance float_eq_dec : EqDecision float.
Proof. solve_decision. Defined.

(** ** 32-bit SQL [INTEGER] *)

Definition INT32_MIN : Z := - 2 ^ 31.
Definition INT32_MAX : Z := 2 ^ 31 - 1.
Definition in_int32 (z : Z) : bool := (INT32_MIN <=? z)%Z && (z <=? INT32_MAX)%Z.

(** ** Tactics *)

(** Unfold the monad and compute the branches of a handler. *)
Ltac py_unfold :=
  unfold bind, ret, raise, gets, try_except, ensure in *.

(** Close a decidable goal on concrete data by evaluation. *)
Ltac decide_by_eval :=
  match goal with |- ?P => apply (bool_decide_unpack P); vm_compute; reflexivity end.

(** ** Generic lemmas *)

Section strings.

(** stdpp makes [String.append] opaque to [simpl]; these two equations
    are its computation rules. *)
Lemma string_app_nil_l (a : string) : EmptyString +:+ a = a.
Proof. reflexivity. Qed.

Lemma string_app_cons (x : ascii) (a b : string) : String x a +:+ b = String x (a +:+ b).
Proof. reflexivity. Qed.

Lemma string_app_assoc (a b c : string) : (a +:+ b) +:+ c = a +:+ (b +:+ c).
Proof. induction a as [|x a IH]; [done|]. by rewrite !string_app_cons, IH. Qed.

Lemma string_app_nil_r (a : string) : a +:+ EmptyString = a.
Proof. induction a as [|x a IH]; [done|]. by rewrite string_app_cons, IH. Qed.

Lemma starts_with_spec (p s : string) :
  starts_with p s = true <-> exists r, s = p +:+ r.
Proof.
  revert s; induction p as [|c p IH]; intros [|d s]; simpl.
  - split; eauto.
  - split; eauto.
  - split; [done|]. intros [r Hr]. discriminate.
  - rewrite andb_true_iff, bool_decide_eq_true, IH. split.
    + intros [-> [r ->]]. eauto.
    + intros [r Hr]. injection Hr as -> ->. eauto.
Qed.

Lemma contains_spec (n h : string) :
  contains n h = true <-> exists a b, h = a +:+ n +:+ b.
Proof.
  induction h as [|c h IH]; simpl; rewrite orb_true_iff, starts_with_spec.
  - split.
    + intros [[r Hr] | ?]; [|done]. exists EmptyString, r. done.
    + intros [[|??] [b Hb]]; [left; eauto | discriminate].
  - rewrite IH. split.
    + intros [[r Hr] | [a [b ->]]].
      * exists EmptyString, r. done.
      * exists (String c a), b. done.
    + intros [[|d a] [b Hb]].
      * left. eauto.
      * right. injection Hb as -> ->. eauto.
Qed.

Lemma contains_app (n a b : string) :
  contains n b = true -> contains n (a +:+ b) = true.
Proof.
  rewrite !contains_spec. intros (x & y & ->).
  exists (a +:+ x), y. by rewrite string_app_assoc.
Qed.

Lemma contains_app_l (n a b : string) :
  contains n a = true -> contains n (a +:+ b) = true.
Proof.
  rewrite !contains_spec. intros (x & y & ->).
  exists x, (y +:+ b). by rewrite !string_app_assoc.
Qed.

Lemma contains_refl (n : string) : contains n n = true.
Proof. apply contains_spec. exists EmptyString, EmptyString. by rewrite string_app_nil_r. Qed.

Lemma lower_app (a b : string) : lower (a +:+ b) = lower a +:+ lower b.
Proof. induction a as [|c a IH]; [done|]. rewrite string_app_cons. simpl. by rewrite IH. Qed.

End strings.

#[export] Hint Resolve contains_app contains_app_l contains_refl : workout.
#[export] Hint Rewrite string_app_nil_l string_app_cons lower_app : workout_rw.

Section first.
Context {A : Type} (P : A -> Prop) `{!forall x, Decision (P x)}.

Lemma first_None (l : list A) :
  first P l = None <-> Forall (fun x => ~ P x) l.
Proof. unfold first. rewrite fmap_None. apply list_find_None. Qed.

Lemma first_None_not_elem (l : list A) (x : A) :
  first P l = None -> x ∈ l -> ~ P x.
Proof. rewrite first_None, list.Forall_forall. intros Hall Hx. exact (Hall x Hx). Qed.

(** Past a prefix with no match, [first] looks at what follows. *)
Lemma first_app_None (l1 l2 : list A) :
  first P l1 = None -> first P (l1 ++ l2) = first P l2.
Proof.
  induction l1 as [|x l1 IH]; [done|]. unfold first in *. simpl.
  case_decide; [done|]. intros Hn. destruct (list_find P l1) eqn:E; [done|].
  specialize (IH eq_refl). destruct (list_find P (l1 ++ l2)) as [[]|], (list_find P l2) as [[]|];
    simplify_eq/=; done.
Qed.

Lemma first_singleton (x : A) : P x -> first P [x] = Some x.
Proof. intros HP. unfold first. simpl. by case_decide. Qed.

End first.

(** Looking a row up by the value of one of its columns. *)
Section first_key.
Context {A B : Type} `{!EqDecision B} (f : A -> B).

Lemma first_key_None (v : B) (l : list A) :
  first (fun x => f x = v) l = None <-> v ∉ f <$> l.
Proof.
  rewrite first_None, list.Forall_forall, list_elem_of_fmap. split.
  - intros Hall (x & -> & Hx). by apply (Hall x).
  - intros Hn x Hx Heq. apply Hn. eauto.
Qed.

Lemma first_key_is_Some (v : B) (l : list A) :
  is_Some (first (fun x => f x = v) l) <-> v ∈ f <$> l.
Proof.
  rewrite <-not_eq_None_Some, first_key_None.
  split; [|tauto]. intros Hn. by apply dec_stable.
Qed.

End first_key.

Section first_unique.
Context {A B : Type} `{!EqDecision B} (f : A -> B).

(** Under a uniqueness constraint, [.first()] finds the one row. *)
Lemma first_key_unique (l : list A) (x : A) (v : B) :
  NoDup (f <$> l) -> x ∈ l -> f x = v -> first (fun y => f y = v) l = Some x.
Proof.
  intros Hnd Hx <-. induction l as [|y l IH]; [by apply elem_of_nil in Hx|].
  rewrite fmap_cons in Hnd. apply list.NoDup_cons in Hnd as [Hy Hnd].
  unfold first in *. simpl. case_decide as Hfy.
  - apply elem_of_cons in Hx as [->|Hx]; [done|].
    exfalso. apply Hy. rewrite Hfy. by apply list_elem_of_fmap_2.
  - apply elem_of_cons in Hx as [->|Hx]; [done|].
    rewrite <-(IH Hnd Hx). by destruct (list_find _ l) as [[]|].
Qed.

End first_unique.

(** ** Computations that keep a property of the state *)

Definition preserves {S A} (P : S -> Prop) (m : Py S A) : Prop :=
  forall s, P s -> P (m s).2.

Section preserves.
Context {S : Type} (P : S -> Prop).

Lemma preserves_ret {A} (a : A) : preserves P (ret a).
Proof. by intros s Hs. Qed.

Lemma preserves_raise {A} (e : exc) : preserves P (raise (A:=A) e).
Proof. by intros s Hs. Qed.

Lemma preserves_gets {A} (f : S -> A) : preserves P (gets f).
Proof. by intros s Hs. Qed.

Lemma preserves_bind {A B} (m : Py S A) (k : A -> Py S B) :
  preserves P m -> (forall a, preserves P (k a)) -> preserves P (bind m k).
Proof.
  intros Hm Hk s Hs. unfold bind. specialize (Hm s Hs).
  destruct (m s) as [[e|a] s']; [done|]. by apply Hk.
Qed.

Lemma preserves_try {A} (m : Py S A) (h : exc -> Py S A) :
  preserves P m -> (forall e, preserves P (h e)) -> preserves P (try_except m h).
Proof.
  intros Hm Hh s Hs. unfold try_except. specialize (Hm s Hs).
  destruct (m s) as [[e|a] s']; [by apply Hh|done].
Qed.

End preserves.

#[export] Hint Resolve preserves_ret preserves_raise preserves_gets : workout.

(** Split a handler into its steps and discharge the steps that only read
    or raise; what is left are the state-changing statements. *)
Ltac preserves_step :=
  first
    [ apply preserves_bind; [|intros ?]
    | apply preserves_try; [|intros ?]
    | apply preserves_ret | apply preserves_raise | apply preserves_gets
    | progress case_match ].

Ltac preserves_tac := repeat preserves_step.

(** A column with distinct values identifies the row. *)
Lemma nodup_fmap_elem_inj {A B} (f : A -> B) (l : list A) (x y : A) :
  NoDup (f <$> l) -> x ∈ l -> y ∈ l -> f x = f y -> x = y.
Proof.
  induction l as [|z l IH]; intros Hnd Hx Hy Hf; [by apply elem_of_nil in Hx|].
  rewrite fmap_cons in Hnd. apply list.NoDup_cons in Hnd as [Hz Hnd].
  apply elem_of_cons in Hx as [->|Hx]; apply elem_of_cons in Hy as [->|Hy]; [done| | |by apply IH].
  - exfalso. apply Hz. rewrite Hf. by apply list_elem_of_fmap_2.
  - exfalso. apply Hz. rewrite <-Hf. by apply list_elem_of_fmap_2.
Qed.

