(* ===== verification/Uuid.v ===== *)
(** * The [UUID4] path parameter

    The routes [GET], [PATCH] and [DELETE /{id}] declare [id: UUID4]:
    before a handler runs, FastAPI validates the path segment with pydantic,
    which reads it as a UUID (pydantic-core calls the [uuid] crate's
    [Uuid::parse_str]) and then requires version 4. The handler receives the
    [UUID] object; [filter_by(id=id)] and the f-string of the not-found
    detail use its text, [str(id)]: lower-case hexadecimal, hyphenated.

    [uuid_parse] is [parse_str]: 32 hexadecimal digits, the hyphenated form
    (hyphens at positions 8, 13, 18 and 23), the hyphenated form in braces,
    or after [urn:uuid:]; digits in either case. [uuid4_validate] adds the
    version check (the 13th digit is 4). [uuid_str] is [str(UUID)]. A UUID
    is its 32 digits, in lower case. *)

From Stdlib Require Import Ascii.
From stdpp Require Import base list strings option.
From S2P Require Import Prelude.

Open Scope workout_scope.

(** The 32 hexadecimal digits of a UUID, in lower case. *)
Definition uuid := list ascii.

Definition is_hex (c : ascii) : bool :=
  let n := nat_of_ascii c in
  ((48 <=? n) && (n <=? 57)) || ((97 <=? n) && (n <=? 102)) || ((65 <=? n) && (n <=? 70)).

Definition is_lower_hex (c : ascii) : bool := is_hex c && bool_decide (ascii_lower c = c).

Definition uuid_wf (u : uuid) : Prop := length u = 32 /\ Forall (fun c => is_lower_hex c = true) u.

#[export] Instance uuid_wf_dec (u : uuid) : Decision (uuid_wf u).
Proof. unfold uuid_wf. apply _. Defined.

(** ** Parsing ([Uuid::parse_str]) *)

(** A run of hexadecimal digits, read case-insensitively. *)
Fixpoint hex_digits (s : string) : option uuid :=
  match s with
  | EmptyString => Some []
  | String c s' => if is_hex c then (ascii_lower c ::.) <$> hex_digits s' else None
  end.

(** The positions of the hyphens in the hyphenated form, and the digits
    [str(UUID)] puts a hyphen before. *)
Definition hyphen_positions : list nat := [8; 13; 18; 23]%nat.
Definition hyphen_digits : list nat := [8; 12; 16; 20]%nat.

(** The hyphenated form from position [i] on: a hyphen where one is due,
    a hexadecimal digit elsewhere. *)
Fixpoint hyphenated (i : nat) (s : string) : option uuid :=
  match s with
  | EmptyString => Some []
  | String c s' =>
    if bool_decide (i ∈ hyphen_positions) then
      if bool_decide (c = "-"%char) then hyphenated (S i) s' else None
    else if is_hex c then (ascii_lower c ::.) <$> hyphenated (S i) s' else None
  end.

Definition urn_prefix : string := "urn:uuid:".

(** [Uuid::parse_str]: the four shapes, told apart by their length. *)
Definition uuid_parse (s : string) : option uuid :=
  let n := String.length s in
  if bool_decide (n = 32) then hex_digits s
  else if bool_decide (n = 36) then hyphenated 0 s
  else if bool_decide (n = 38) then
    match s with
    | String c r =>
      if bool_decide (c = "{"%char /\ String.get 36 r = Some "}"%char)
      then hyphenated 0 (String.substring 0 36 r) else None
    | EmptyString => None
    end
  else if bool_decide (n = 45) then
    if starts_with urn_prefix s then hyphenated 0 (String.substring 9 36 s) else None
  else None.

(** The version of a UUID: its 13th digit. *)
Definition uuid_version (u : uuid) : option ascii := u !! 12%nat.

(** pydantic's [UUID4]: a UUID whose version is 4. *)
Definition uuid4_validate (s : string) : option uuid :=
  u ← uuid_parse s;
  if bool_decide (uuid_version u = Some "4"%char) then Some u else None.

(** ** Printing ([str(UUID)]) *)

Fixpoint hyphenate (i : nat) (u : uuid) : string :=
  match u with
  | [] => EmptyString
  | c :: u' =>
    if bool_decide (i ∈ hyphen_digits) then String "-" (String c (hyphenate (S i) u'))
    else String c (hyphenate (S i) u')
  end.

Definition uuid_str (u : uuid) : string := hyphenate 0 u.

(** [UUID.hex]: the 32 digits without hyphens. *)
Fixpoint uuid_hex (u : uuid) : string :=
  match u with [] => EmptyString | c :: u' => String c (uuid_hex u') end.

(** ** Character facts, by evaluation over the 256 characters *)

Section chars.

Lemma is_hex_lower (c : ascii) : is_hex (ascii_lower c) = is_hex c.
Proof. destruct c as [[][][][][][][][]]; reflexivity. Qed.

Lemma ascii_lower_idem (c : ascii) : ascii_lower (ascii_lower c) = ascii_lower c.
Proof. destruct c as [[][][][][][][][]]; reflexivity. Qed.

Lemma ascii_lower_dash (c : ascii) : ascii_lower c = "-"%char <-> c = "-"%char.
Proof. split; [|by intros ->]. destruct c as [[][][][][][][][]]; done. Qed.

Lemma is_lower_hex_lower (c : ascii) : is_hex c = true -> is_lower_hex (ascii_lower c) = true.
Proof.
  intros H. unfold is_lower_hex. rewrite is_hex_lower, H, ascii_lower_idem. by rewrite bool_decide_eq_true_2.
Qed.

Lemma is_lower_hex_inv (c : ascii) : is_lower_hex c = true -> is_hex c = true /\ ascii_lower c = c.
Proof. unfold is_lower_hex. by rewrite andb_true_iff, bool_decide_eq_true. Qed.

End chars.

(** ** Positions in the printed text *)

(** The position in [str(UUID)] of digit [i]: [i], plus the hyphens
    printed before it. *)
Definition pos (i : nat) : nat := i + length (filter (fun k => k < i)%nat hyphen_digits).

(** How many of the positions [l] fall in [i .. i + n - 1]. *)
Definition count_in (l : list nat) (i n : nat) : nat :=
  length (filter (fun p => i <= p < i + n)%nat l).

Ltac hyphen_arith :=
  unfold pos, count_in, hyphen_digits, hyphen_positions in *;
  rewrite ?filter_cons, ?filter_nil in *; rewrite ?elem_of_cons, ?elem_of_nil in *;
  repeat case_decide; simpl in *; lia.

Lemma pos_hyphen (i : nat) :
  i ∈ hyphen_digits -> pos i ∈ hyphen_positions /\ S (pos i) ∉ hyphen_positions /\ pos (S i) = S (S (pos i)).
Proof. intros Hi. split_and!; hyphen_arith. Qed.

Lemma pos_digit (i : nat) :
  i ∉ hyphen_digits -> pos i ∉ hyphen_positions /\ pos (S i) = S (pos i).
Proof. intros Hi. split; hyphen_arith. Qed.

Lemma count_positions_S (i n : nat) :
  count_in hyphen_positions i (S n) =
  (if bool_decide (i ∈ hyphen_positions) then 1 else 0) + count_in hyphen_positions (S i) n.
Proof. case_bool_decide; hyphen_arith. Qed.

Lemma count_digits_S (i n : nat) :
  count_in hyphen_digits i (S n) =
  (if bool_decide (i ∈ hyphen_digits) then 1 else 0) + count_in hyphen_digits (S i) n.
Proof. case_bool_decide; hyphen_arith. Qed.

Lemma count_in_0 (l : list nat) (i : nat) : count_in l i 0 = 0.
Proof. unfold count_in. induction l; rewrite ?filter_cons; [done|]. case_decide; simpl; [lia|done]. Qed.

(** ** Strings *)

Section strings.

Lemma string_length_app (a b : string) : String.length (a +:+ b) = String.length a + String.length b.
Proof. induction a as [|c a IH]; [done|]. rewrite string_app_cons. simpl. by rewrite IH. Qed.

Lemma string_get_app_length (a b : string) (c : ascii) :
  String.get (String.length a) (a +:+ String c b) = Some c.
Proof. induction a as [|d a IH]; [done|]. by rewrite string_app_cons. Qed.

Lemma substring_app_length (a b : string) : String.substring 0 (String.length a) (a +:+ b) = a.
Proof. induction a as [|d a IH]; [by destruct b|]. rewrite string_app_cons. simpl. by rewrite IH. Qed.

Lemma substring_full (a : string) : String.substring 0 (String.length a) a = a.
Proof. rewrite <- (string_app_nil_r a) at 2. apply substring_app_length. Qed.

Lemma substring_length_0 (n : nat) (a : string) :
  n <= String.length a -> String.length (String.substring 0 n a) = n.
Proof.
  revert a; induction n as [|n IH]; intros [|c a] Hle; simpl in *; [done|done|lia|].
  f_equal. apply IH. lia.
Qed.

Lemma substring_length (m n : nat) (a : string) :
  m + n <= String.length a -> String.length (String.substring m n a) = n.
Proof.
  revert a; induction m as [|m IHm]; intros a Hle; [by apply substring_length_0|].
  destruct a as [|c a]; simpl in *; [lia|]. apply IHm. lia.
Qed.

Lemma length_lower (a : string) : String.length (lower a) = String.length a.
Proof. induction a as [|c a IH]; simpl; by f_equal. Qed.

End strings.

(** ** Parsing inverts printing *)

Section parse_print.

Lemma hyphenate_parse (i : nat) (u : uuid) :
  Forall (fun c => is_lower_hex c = true) u -> hyphenated (pos i) (hyphenate i u) = Some u.
Proof.
  revert i; induction u as [|c u IH]; intros i Hu; [done|].
  apply list.Forall_cons in Hu as [[Hx Hl]%is_lower_hex_inv Hu]. simpl. case_bool_decide as Hi.
  - destruct (pos_hyphen i Hi) as (H1 & H2 & H3). simpl.
    rewrite !bool_decide_eq_true_2 by done. rewrite bool_decide_eq_false_2 by done.
    by rewrite Hx, Hl, <- H3, IH.
  - destruct (pos_digit i Hi) as [H1 H2]. simpl.
    rewrite bool_decide_eq_false_2 by done. by rewrite Hx, Hl, <- H2, IH.
Qed.

Lemma hex_digits_hex (u : uuid) :
  Forall (fun c => is_lower_hex c = true) u -> hex_digits (uuid_hex u) = Some u.
Proof. induction 1 as [|c u [Hx Hl]%is_lower_hex_inv _ IH]; [done|]. simpl. by rewrite Hx, Hl, IH. Qed.

Lemma hyphenated_lower (i : nat) (t : string) : hyphenated i (lower t) = hyphenated i t.
Proof.
  revert i; induction t as [|c t IH]; intros i; [done|]. simpl.
  by rewrite IH, is_hex_lower, ascii_lower_idem, (bool_decide_ext _ _ (ascii_lower_dash c)).
Qed.

Lemma hex_digits_lower (t : string) : hex_digits (lower t) = hex_digits t.
Proof. induction t as [|c t IH]; [done|]. simpl. by rewrite IH, is_hex_lower, ascii_lower_idem. Qed.

Lemma hex_digits_wf (s : string) (u : uuid) :
  hex_digits s = Some u -> Forall (fun c => is_lower_hex c = true) u /\ length u = String.length s.
Proof.
  revert u; induction s as [|c s IH]; intros u; simpl; [by intros [= <-]|].
  case_match eqn:Hc; [|done]. intros (u' & [Hf Hl]%IH & ->)%fmap_Some.
  split; [constructor; [by apply is_lower_hex_lower|done] | simpl; lia].
Qed.

Lemma hyphenated_wf (i : nat) (s : string) (u : uuid) :
  hyphenated i s = Some u ->
  Forall (fun c => is_lower_hex c = true) u /\
  length u + count_in hyphen_positions i (String.length s) = String.length s.
Proof.
  revert i u; induction s as [|c s IH]; intros i u; simpl.
  - intros [= <-]. by rewrite count_in_0.
  - rewrite count_positions_S. case_bool_decide.
    + case_bool_decide; [|done]. intros [Hf Hl]%IH. split; [done|lia].
    + case_match eqn:Hc; [|done]. intros (u' & [Hf Hl]%IH & ->)%fmap_Some.
      split; [constructor; [by apply is_lower_hex_lower|done] | simpl; lia].
Qed.

Lemma hyphenated_36 (s : string) (u : uuid) :
  String.length s = 36 -> hyphenated 0 s = Some u -> uuid_wf u.
Proof.
  intros Hn [Hf Hl]%hyphenated_wf. rewrite Hn in Hl. split; [|done].
  assert (count_in hyphen_positions 0 36 = 4) by reflexivity. lia.
Qed.

Lemma hyphenate_length (i : nat) (u : uuid) :
  String.length (hyphenate i u) = length u + count_in hyphen_digits i (length u).
Proof.
  revert i; induction u as [|c u IH]; intros i; simpl; [by rewrite count_in_0|].
  rewrite count_digits_S. case_bool_decide; simpl; rewrite IH; lia.
Qed.

Lemma uuid_hex_length (u : uuid) : String.length (uuid_hex u) = length u.
Proof. induction u as [|c u IH]; simpl; by f_equal. Qed.

Lemma uuid_str_length (u : uuid) : uuid_wf u -> String.length (uuid_str u) = 36.
Proof. intros [Hl _]. unfold uuid_str. by rewrite hyphenate_length, Hl. Qed.

(** What [parse_str] accepts is a UUID: 32 lower-case digits. *)
Lemma uuid_parse_wf (s : string) (u : uuid) : uuid_parse s = Some u -> uuid_wf u.
Proof.
  unfold uuid_parse. repeat case_bool_decide; try done.
  - intros [Hf Hl]%hex_digits_wf. split; [lia|done].
  - by apply hyphenated_36.
  - destruct s as [|c r]; [done|]. case_bool_decide; [|done].
    apply hyphenated_36, substring_length. simpl in *. lia.
  - case_match; [|done]. apply hyphenated_36, substring_length. lia.
Qed.

Lemma lower_hyphenate (i : nat) (u : uuid) :
  Forall (fun c => is_lower_hex c = true) u -> lower (hyphenate i u) = hyphenate i u.
Proof.
  revert i; induction u as [|c u IH]; intros i Hu; [done|].
  apply list.Forall_cons in Hu as [[_ Hl]%is_lower_hex_inv Hu]. simpl.
  case_bool_decide; simpl; by rewrite Hl, IH.
Qed.

Lemma lower_uuid_str (u : uuid) : Forall (fun c => is_lower_hex c = true) u -> lower (uuid_str u) = uuid_str u.
Proof. apply lower_hyphenate. Qed.

(** A spelling of the hyphenated form, in any case, is read as the UUID
    whose text it spells. *)
Lemma hyphenated_spelling (u : uuid) (t : string) :
  uuid_wf u -> lower t = uuid_str u -> String.length t = 36 /\ hyphenated 0 t = Some u.
Proof.
  intros Hwf Ht. split.
  - by rewrite <- length_lower, Ht, uuid_str_length.
  - rewrite <- hyphenated_lower, Ht. exact (hyphenate_parse 0 u (proj2 Hwf)).
Qed.

End parse_print.

(** ** The text a handler receives *)

(** [str(UUID)] and [Uuid::parse_str] are inverse: the text of a
    UUID parses back to it, and a list of digits is the parse of its own
    text exactly when it is a UUID, 32 lower-case hexadecimal digits. *)
Theorem uuid_parse_str (u : uuid) : uuid_parse (uuid_str u) = Some u <-> uuid_wf u.
Proof.
  split; [apply uuid_parse_wf|]. intros Hwf.
  destruct (hyphenated_spelling u (uuid_str u) Hwf) as [Hn Hp].
  - apply lower_uuid_str, Hwf.
  - unfold uuid_parse. by rewrite Hn.
Qed.

(** Every spelling of the hyphenated form of a UUID that [parse_str]
    accepts denotes that UUID: in any mix of cases, in braces or after
    [urn:uuid:] (which must itself be in lower case), or bare. *)
Lemma uuid_parse_spellings (u : uuid) (t seg : string) :
  uuid_wf u -> lower t = uuid_str u -> seg ∈ ["{" +:+ t +:+ "}"; urn_prefix +:+ t; t] ->
  uuid_parse seg = Some u.
Proof.
  intros Hwf Ht Hseg. destruct (hyphenated_spelling u t Hwf Ht) as [Hn Hp].
  rewrite !elem_of_cons, elem_of_nil in Hseg. unfold uuid_parse. destruct Hseg as [->|[->|[->|[]]]].
  - rewrite string_app_cons, string_app_nil_l. cbn [String.length]. rewrite string_length_app, Hn. simpl.
    rewrite bool_decide_eq_true_2; [|split; [done|rewrite <- Hn; apply string_get_app_length]].
    by rewrite <- Hn, substring_app_length.
  - rewrite (proj2 (starts_with_spec urn_prefix (urn_prefix +:+ t))) by eauto.
    rewrite string_length_app, Hn. simpl.
    by rewrite string_app_nil_l, <- Hn, substring_full.
  - by rewrite Hn.
Qed.

(** The 32 digits, in any mix of cases, denote the UUID too. *)
Lemma uuid_parse_hex_spelling (u : uuid) (h : string) :
  uuid_wf u -> lower h = uuid_hex u -> uuid_parse h = Some u.
Proof.
  intros [Hl Hf] Hh. unfold uuid_parse.
  assert (String.length h = 32) as Hhn by (by rewrite <- length_lower, Hh, uuid_hex_length).
  rewrite Hhn. simpl. by rewrite <- hex_digits_lower, Hh, hex_digits_hex.
Qed.
