(* ===== verification/Store.v ===== *)
(** * The relational store behind the handlers

    The row types of the three tables ([AtletaModel], [CategoriaModel],
    [CentroTreinamentoModel]: the [models.py] files of the repository, which
    are not under src/ and are modelled from the spec), the database state a
    session commits to, and the three statements the handlers commit
    (INSERT, UPDATE, DELETE), each atomic and each enforcing the store's
    constraints: 32-bit [INTEGER] columns, NOT NULL, UNIQUE and FOREIGN KEY.
    The driver's error text is an interface ([Driver]); the handlers only
    see it through [str(e)]. *)

From Stdlib Require Import ZArith.
From stdpp Require Import base list strings option.
From S2P Require Import Prelude.

Open Scope workout_scope.

(** ** Rows *)

Module CategoriaModel.
Record t := mk { pk_id : nat; id : string; nome : string }.
#[global] Instance eq_dec : EqDecision t.
Proof. solve_decision. Defined.
End CategoriaModel.

Module CentroTreinamentoModel.
Record t := mk { pk_id : nat; id : string; nome : string }.
#[global] Instance eq_dec : EqDecision t.
Proof. solve_decision. Defined.
End CentroTreinamentoModel.

Module AtletaModel.
Record t := mk {
  pk_id : nat;
  id : string;
  nome : string;
  cpf : string;
  idade : Z;
  peso : float;
  altura : float;
  sexo : string;
  created_at : string;
  categoria_id : nat;
  centro_treinamento_id : nat
}.

#[global] Instance eq_dec : EqDecision t.
Proof. solve_decision. Defined.

Definition with_pk (r : t) (pk : nat) : t :=
  mk pk (id r) (nome r) (cpf r) (idade r) (peso r) (altura r) (sexo r)
     (created_at r) (categoria_id r) (centro_treinamento_id r).
End AtletaModel.

(** ** The database *)

Record db := mkdb {
  categorias : list CategoriaModel.t;
  centros_treinamento : list CentroTreinamentoModel.t;
  atletas : list AtletaModel.t;
  seq_categorias : nat;
  seq_centros_treinamento : nat;
  seq_atletas : nat
}.

Definition set_atletas (s : db) (l : list AtletaModel.t) (seq : nat) : db :=
  mkdb (categorias s) (centros_treinamento s) l
       (seq_categorias s) (seq_centros_treinamento s) seq.

Definition set_centros (s : db) (l : list CentroTreinamentoModel.t) (seq : nat) : db :=
  mkdb (categorias s) l (atletas s)
       (seq_categorias s) seq (seq_atletas s).

Definition set_categorias (s : db) (l : list CategoriaModel.t) (seq : nat) : db :=
  mkdb l (centros_treinamento s) (atletas s)
       seq (seq_centros_treinamento s) (seq_atletas s).

(** ** Statements and constraint violations, as the driver reports them *)

Inductive table := atletas_t | categorias_t | centros_treinamento_t.

Inductive statement :=
  | Insert (t : table) (cols : list string)
  | Update (t : table) (cols : list string)
  | Delete (t : table).

Inductive violation :=
  | UniqueViolation (t : table) (col : string)
  | NotNullViolation (t : table) (col : string)
  | ForeignKeyViolation (t : table) (col : string).

(** What [str(e)] of the raised [IntegrityError] / [DataError] reads. *)
Class Driver := {
  integrity_message : violation -> statement -> string;
  data_message : string -> statement -> string
}.

(** What a client of the driver may rely on: the text of a uniqueness
    violation says so (psycopg's class name and PostgreSQL's message both
    carry the word). *)
Class DriverLaws `{Driver} := {
  unique_message_unique (t : table) (c : string) (st : statement) :
    contains "unique" (lower (integrity_message (UniqueViolation t c) st)) = true
}.

(** The columns SQLAlchemy lists in the INSERT of each model. *)
Definition atleta_insert_cols : list string :=
  ["id"; "nome"; "cpf"; "idade"; "peso"; "altura"; "sexo"; "created_at";
   "categoria_id"; "centro_treinamento_id"].

Definition centro_insert_cols : list string := ["id"; "nome"].

Definition categoria_insert_cols : list string := ["id"; "nome"].

(** ** Tables keyed by a primary key *)

Section table.
Context {R : Type} (key : R -> nat).

(** The rows after an UPDATE of the row with key [k] to [r]. *)
Definition replace_row (k : nat) (r : R) (rows : list R) : list R :=
  (fun x => if decide (key x = k) then r else x) <$> rows.

(** The rows other than the one with key [k] (after its DELETE). *)
Definition others (k : nat) (rows : list R) : list R :=
  filter (fun x => key x <> k) rows.

(** Primary keys are distinct and below the sequence's next value. *)
Definition keyed (seq : nat) (rows : list R) : Prop :=
  NoDup (key <$> rows) /\ Forall (fun x => key x < seq) rows.

End table.

Section commits.
Context `{Driver}.

(** The first UNIQUE or FOREIGN KEY constraint a row [r] would break among
    the other rows [rows] of [atletas], in the order the store checks them:
    unique indexes in column order, then the foreign keys. *)
Definition atleta_violation (s : db) (rows : list AtletaModel.t) (r : AtletaModel.t)
  : option violation :=
  if decide (is_Some (first (fun x => AtletaModel.id x = AtletaModel.id r) rows))
  then Some (UniqueViolation atletas_t "id") else
  if decide (is_Some (first (fun x => AtletaModel.nome x = AtletaModel.nome r) rows))
  then Some (UniqueViolation atletas_t "nome") else
  if decide (is_Some (first (fun x => AtletaModel.cpf x = AtletaModel.cpf r) rows))
  then Some (UniqueViolation atletas_t "cpf") else
  if decide (is_Some (first (fun c => CategoriaModel.pk_id c = AtletaModel.categoria_id r)
                        (categorias s)))
  then if decide (is_Some (first (fun c => CentroTreinamentoModel.pk_id c =
                                              AtletaModel.centro_treinamento_id r)
                             (centros_treinamento s)))
       then None
       else Some (ForeignKeyViolation atletas_t "centro_treinamento_id")
  else Some (ForeignKeyViolation atletas_t "categoria_id").

(** [session.add(r); await session.commit()] for an athlete: an operational
    failure [fault] raises a plain exception; an out-of-range [idade] is a
    [DataError] before any row is touched; otherwise the next value of the
    [pk_id] sequence is drawn (and stays drawn, as SQL sequences are not
    rolled back) and the row is appended unless a constraint fails. *)
Definition insert_atleta (fault : option string) (r : AtletaModel.t) : Py db AtletaModel.t :=
  fun s =>
  let st := Insert atletas_t atleta_insert_cols in
  match fault with
  | Some m => (inl (Exception m), s)
  | None =>
    if negb (in_int32 (AtletaModel.idade r))
    then (inl (DataError (data_message "integer out of range" st)), s)
    else
      let pk := seq_atletas s in
      let r' := AtletaModel.with_pk r pk in
      match atleta_violation s (atletas s) r' with
      | Some v => (inl (IntegrityError (integrity_message v st)),
                   set_atletas s (atletas s) (S pk))
      | None => (inr r', set_atletas s (atletas s ++ [r']) (S pk))
      end
  end.

(** [await session.commit()] after attributes of a loaded athlete were set:
    the UPDATE of the columns [cols]; [nulls] are the columns that were set
    to [None]. With no column to write SQLAlchemy sends no UPDATE and the
    COMMIT succeeds. An [idade] outside the 32-bit [INTEGER] column is
    refused; the loaded value is always in range, so only a new one can
    be. An UPDATE that matches no row (the row was deleted
    meanwhile) is SQLAlchemy's [StaleDataError], a plain exception. *)
Definition update_atleta (fault : option string) (cols nulls : list string)
    (r : AtletaModel.t) : Py db AtletaModel.t :=
  fun s =>
  let st := Update atletas_t cols in
  match fault with
  | Some m => (inl (Exception m), s)
  | None =>
    if bool_decide (cols = []) then (inr r, s)
    else if negb (in_int32 (AtletaModel.idade r))
    then (inl (DataError (data_message "integer out of range" st)), s)
    else if decide (AtletaModel.pk_id r ∉ AtletaModel.pk_id <$> atletas s)
    then (inl (Exception "StaleDataError: UPDATE statement on table 'atletas' expected to update 1 row(s); 0 were matched."), s)
    else match nulls with
    | c :: _ => (inl (IntegrityError (integrity_message (NotNullViolation atletas_t c) st)), s)
    | [] =>
      let pk := AtletaModel.pk_id r in
      match atleta_violation s (others AtletaModel.pk_id pk (atletas s)) r with
      | Some v => (inl (IntegrityError (integrity_message v st)), s)
      | None => (inr r, set_atletas s (replace_row AtletaModel.pk_id pk r (atletas s))
                                    (seq_atletas s))
      end
    end
  end.

(** [await session.delete(r); await session.commit()]. *)
Definition delete_atleta (fault : option string) (pk : nat) : Py db unit :=
  fun s =>
  match fault with
  | Some m => (inl (Exception m), s)
  | None => (inr tt, set_atletas s (others AtletaModel.pk_id pk (atletas s)) (seq_atletas s))
  end.

(** [session.add(c); await session.commit()] for a training centre. *)
Definition insert_centro (fault : option string) (c : CentroTreinamentoModel.t)
  : Py db CentroTreinamentoModel.t :=
  fun s =>
  let st := Insert centros_treinamento_t centro_insert_cols in
  match fault with
  | Some m => (inl (Exception m), s)
  | None =>
    let pk := seq_centros_treinamento s in
    let c' := CentroTreinamentoModel.mk pk (CentroTreinamentoModel.id c)
                                        (CentroTreinamentoModel.nome c) in
    let rows := centros_treinamento s in
    if decide (is_Some (first (fun x => CentroTreinamentoModel.id x = CentroTreinamentoModel.id c) rows))
    then (inl (IntegrityError (integrity_message (UniqueViolation centros_treinamento_t "id") st)),
          set_centros s rows (S pk))
    else if decide (is_Some (first (fun x => CentroTreinamentoModel.nome x = CentroTreinamentoModel.nome c) rows))
    then (inl (IntegrityError (integrity_message (UniqueViolation centros_treinamento_t "nome") st)),
          set_centros s rows (S pk))
    else (inr c', set_centros s (rows ++ [c']) (S pk))
  end.

(** [session.add(c); await session.commit()] for a category. *)
Definition insert_categoria (fault : option string) (c : CategoriaModel.t)
  : Py db CategoriaModel.t :=
  fun s =>
  let st := Insert categorias_t categoria_insert_cols in
  match fault with
  | Some m => (inl (Exception m), s)
  | None =>
    let pk := seq_categorias s in
    let c' := CategoriaModel.mk pk (CategoriaModel.id c) (CategoriaModel.nome c) in
    let rows := categorias s in
    if decide (is_Some (first (fun x => CategoriaModel.id x = CategoriaModel.id c) rows))
    then (inl (IntegrityError (integrity_message (UniqueViolation categorias_t "id") st)),
          set_categorias s rows (S pk))
    else if decide (is_Some (first (fun x => CategoriaModel.nome x = CategoriaModel.nome c) rows))
    then (inl (IntegrityError (integrity_message (UniqueViolation categorias_t "nome") st)),
          set_categorias s rows (S pk))
    else (inr c', set_categorias s (rows ++ [c']) (S pk))
  end.

End commits.

(** ** Lemmas on keyed tables *)

Section table_lemmas.
Context {R : Type} (key : R -> nat).

Lemma replace_row_cons (k : nat) (r x : R) (rows : list R) :
  replace_row key k r (x :: rows) =
  (if decide (key x = k) then r else x) :: replace_row key k r rows.
Proof. reflexivity. Qed.

Lemma others_cons (k : nat) (x : R) (rows : list R) :
  others key k (x :: rows) =
  if decide (key x <> k) then x :: others key k rows else others key k rows.
Proof. reflexivity. Qed.

Lemma others_notin (k : nat) (rows : list R) :
  k ∉ key <$> rows -> others key k rows = rows.
Proof.
  induction rows as [|x rows IH]; [done|]. rewrite fmap_cons, elem_of_cons.
  intros Hk. rewrite others_cons, IH by tauto.
  case_decide; [done|]. exfalso. apply Hk. left. lia.
Qed.

Lemma replace_row_notin (k : nat) (r : R) (rows : list R) :
  k ∉ key <$> rows -> replace_row key k r rows = rows.
Proof.
  induction rows as [|x rows IH]; [done|]. rewrite fmap_cons, elem_of_cons.
  intros Hk. rewrite replace_row_cons, IH by tauto.
  case_decide; [|done]. exfalso. apply Hk. by left.
Qed.

(** Writing back a stored row unchanged leaves the table as it was. *)
Lemma replace_row_same (r : R) (rows : list R) :
  NoDup (key <$> rows) -> r ∈ rows -> replace_row key (key r) r rows = rows.
Proof.
  induction rows as [|x rows IH]; intros Hnd Hr; [done|].
  rewrite fmap_cons in Hnd. apply list.NoDup_cons in Hnd as [Hx Hnd].
  rewrite replace_row_cons. apply elem_of_cons in Hr as [->|Hr].
  - rewrite decide_True by done. by rewrite replace_row_notin.
  - rewrite decide_False; [by rewrite IH|].
    intros Heq. apply Hx. rewrite Heq. by apply list_elem_of_fmap_2.
Qed.

Lemma replace_row_perm (k : nat) (r : R) (rows : list R) :
  NoDup (key <$> rows) -> k ∈ key <$> rows ->
  replace_row key k r rows ≡ₚ r :: others key k rows.
Proof.
  induction rows as [|x rows IH]; [intros _ Hk; by apply elem_of_nil in Hk|].
  intros Hnd Hk. rewrite fmap_cons in Hnd, Hk.
  apply list.NoDup_cons in Hnd as [Hx Hnd]. apply elem_of_cons in Hk.
  rewrite replace_row_cons, others_cons.
  destruct (decide (key x = k)) as [<-|Hne].
  - destruct (decide (key x = key x)); [|congruence].
    case_decide; [congruence|].
    by rewrite (replace_row_notin _ _ _ Hx), (others_notin _ _ Hx).
  - destruct (decide (key x = k)); [congruence|].
    case_decide; [|congruence]. destruct Hk as [->|Hk]; [done|].
    rewrite IH by done. apply Permutation_swap.
Qed.

Lemma keyed_snoc (seq : nat) (rows : list R) (r : R) :
  keyed key seq rows -> key r = seq -> keyed key (S seq) (rows ++ [r]).
Proof.
  intros [Hnd Hlt] Hr. split.
  - rewrite fmap_app, list.NoDup_app. simpl. split_and!; [done| |by apply NoDup_singleton].
    intros k Hk. rewrite list_elem_of_singleton. intros ->.
    apply list_elem_of_fmap in Hk as (x & Hx & Hin).
    eapply list.Forall_forall in Hlt; [|done]. lia.
  - apply list.Forall_app. split; [|constructor; [lia|done]].
    eapply Forall_impl; [|exact Hlt]. intros; simpl in *; lia.
Qed.

Lemma nodup_snoc {B} (f : R -> B) (rows : list R) (r : R) :
  NoDup (f <$> rows) -> f r ∉ f <$> rows -> NoDup (f <$> rows ++ [r]).
Proof.
  intros Hnd Hr. rewrite fmap_app, list.NoDup_app. simpl. split_and!; [done| |by apply NoDup_singleton].
  intros k Hk. rewrite list_elem_of_singleton. by intros ->.
Qed.

Lemma others_sublist (k : nat) (rows : list R) : others key k rows `sublist_of` rows.
Proof. apply sublist_filter. Qed.

Lemma nodup_others {B} (f : R -> B) (k : nat) (rows : list R) :
  NoDup (f <$> rows) -> NoDup (f <$> others key k rows).
Proof. intros Hnd. eapply sublist_NoDup; [done|]. by apply fmap_sublist, others_sublist. Qed.

Lemma forall_others (P : R -> Prop) (k : nat) (rows : list R) :
  Forall P rows -> Forall P (others key k rows).
Proof.
  rewrite !list.Forall_forall. intros Hall x Hx.
  apply Hall. by eapply list_elem_of_filter.
Qed.

Lemma keyed_others (seq k : nat) (rows : list R) :
  keyed key seq rows -> keyed key seq (others key k rows).
Proof. intros [Hnd Hlt]. split; [by apply nodup_others|by apply forall_others]. Qed.

Lemma others_key_notin (k : nat) (rows : list R) : k ∉ key <$> others key k rows.
Proof.
  intros (x & Hx & Hin)%list_elem_of_fmap. apply list_elem_of_filter in Hin as [Hne _].
  by apply Hne.
Qed.

Lemma keyed_mono (seq seq' : nat) (rows : list R) :
  seq <= seq' -> keyed key seq rows -> keyed key seq' rows.
Proof.
  intros Hle [Hnd Hlt]. split; [done|].
  eapply Forall_impl; [|exact Hlt]. intros; simpl in *; lia.
Qed.

Lemma forall_replace (P : R -> Prop) (k : nat) (r : R) (rows : list R) :
  Forall P rows -> P r -> Forall P (replace_row key k r rows).
Proof.
  intros Hall Hr. induction Hall as [|x rows Hx Hall IH]; [constructor|].
  rewrite replace_row_cons. constructor; [|done]. by case_decide.
Qed.

Section replace.
Context (k : nat) (r : R) (rows : list R).
Hypothesis (Hnd : NoDup (key <$> rows)) (Hk : k ∈ key <$> rows).

Lemma nodup_replace {B} (f : R -> B) :
  NoDup (f <$> rows) -> f r ∉ f <$> others key k rows ->
  NoDup (f <$> replace_row key k r rows).
Proof.
  intros Hf Hr. rewrite (replace_row_perm _ _ _ Hnd Hk), fmap_cons, list.NoDup_cons.
  split; [done|]. by apply nodup_others.
Qed.

Lemma keyed_replace (seq : nat) :
  keyed key seq rows -> key r = k -> keyed key seq (replace_row key k r rows).
Proof.
  intros [_ Hlt] Hr. split.
  - apply nodup_replace; [done|]. rewrite Hr. apply others_key_notin.
  - apply forall_replace; [done|]. apply list_elem_of_fmap in Hk as (x & -> & Hx).
    rewrite Hr. by eapply list.Forall_forall in Hlt.
Qed.

End replace.

End table_lemmas.

#[export] Hint Resolve keyed_snoc nodup_snoc nodup_others forall_others keyed_others : workout.

#[export] Hint Resolve keyed_mono forall_replace nodup_replace keyed_replace others_key_notin : workout.

(** ** The store invariant *)

(** An athlete's foreign keys point at existing rows. *)
Definition fk_ok (s : db) (a : AtletaModel.t) : Prop :=
  AtletaModel.categoria_id a ∈ CategoriaModel.pk_id <$> categorias s /\
  AtletaModel.centro_treinamento_id a ∈ CentroTreinamentoModel.pk_id <$> centros_treinamento s.

(** What the store's constraints guarantee of every committed state. *)
Record wf (s : db) : Prop := {
  wf_categorias_keyed : keyed CategoriaModel.pk_id (seq_categorias s) (categorias s);
  wf_categorias_id : NoDup (CategoriaModel.id <$> categorias s);
  wf_categorias_nome : NoDup (CategoriaModel.nome <$> categorias s);
  wf_centros_keyed : keyed CentroTreinamentoModel.pk_id (seq_centros_treinamento s)
                           (centros_treinamento s);
  wf_centros_id : NoDup (CentroTreinamentoModel.id <$> centros_treinamento s);
  wf_centros_nome : NoDup (CentroTreinamentoModel.nome <$> centros_treinamento s);
  wf_atletas_keyed : keyed AtletaModel.pk_id (seq_atletas s) (atletas s);
  wf_atletas_id : NoDup (AtletaModel.id <$> atletas s);
  wf_atletas_nome : NoDup (AtletaModel.nome <$> atletas s);
  wf_atletas_cpf : NoDup (AtletaModel.cpf <$> atletas s);
  wf_atletas_fk : Forall (fk_ok s) (atletas s);
  wf_atletas_idade : Forall (fun a => in_int32 (AtletaModel.idade a) = true) (atletas s)
}.

#[export] Hint Constructors wf : workout.

Definition empty_db : db := mkdb [] [] [] 0 0 0.

Section commit_lemmas.
Context `{Driver}.

Lemma atleta_violation_None (s : db) (rows : list AtletaModel.t) (r : AtletaModel.t) :
  atleta_violation s rows r = None <->
  (AtletaModel.id r ∉ AtletaModel.id <$> rows) /\
  (AtletaModel.nome r ∉ AtletaModel.nome <$> rows) /\
  (AtletaModel.cpf r ∉ AtletaModel.cpf <$> rows) /\ fk_ok s r.
Proof.
  unfold atleta_violation, fk_ok.
  repeat destruct (decide _); rewrite ?first_key_is_Some in *; naive_solver.
Qed.

(** A row removed by key is gone, and with a unique column no other row
    has its value there. *)
Lemma others_col_gone {B} (f : AtletaModel.t -> B) (rows : list AtletaModel.t) (a : AtletaModel.t) :
  NoDup (f <$> rows) -> a ∈ rows ->
  f a ∉ f <$> others AtletaModel.pk_id (AtletaModel.pk_id a) rows.
Proof.
  intros Hnd Ha (x & Hx & Hin)%list_elem_of_fmap.
  apply list_elem_of_filter in Hin as [Hpk Hin]. apply Hpk.
  by rewrite (nodup_fmap_elem_inj _ _ _ _ Hnd Hin Ha (eq_sym Hx)).
Qed.

Lemma others_id_gone (rows : list AtletaModel.t) (a : AtletaModel.t) :
  NoDup (AtletaModel.id <$> rows) -> a ∈ rows ->
  AtletaModel.id a ∉ AtletaModel.id <$> others AtletaModel.pk_id (AtletaModel.pk_id a) rows.
Proof. apply others_col_gone. Qed.

(** Adding or changing rows of the parent tables keeps the foreign keys. *)
Lemma fk_ok_centros (s : db) (l : list CentroTreinamentoModel.t) (seq : nat) a :
  centros_treinamento s `sublist_of` l -> fk_ok s a -> fk_ok (set_centros s l seq) a.
Proof.
  intros Hsub [Hc Hct]. split; [done|]. simpl.
  eapply elem_of_submseteq; [done|]. by apply sublist_submseteq, fmap_sublist.
Qed.

Lemma fk_ok_categorias (s : db) (l : list CategoriaModel.t) (seq : nat) a :
  categorias s `sublist_of` l -> fk_ok s a -> fk_ok (set_categorias s l seq) a.
Proof.
  intros Hsub [Hc Hct]. split; [|done]. simpl.
  eapply elem_of_submseteq; [done|]. by apply sublist_submseteq, fmap_sublist.
Qed.

Lemma keyed_succ {R} (key : R -> nat) (seq : nat) (rows : list R) :
  keyed key seq rows -> keyed key (S seq) rows.
Proof. apply keyed_mono. lia. Qed.

Lemma forall_snoc {A} (P : A -> Prop) (l : list A) (x : A) :
  Forall P l -> P x -> Forall P (l ++ [x]).
Proof. intros Hl Hx. apply list.Forall_app. split; [done|]. by constructor. Qed.

End commit_lemmas.

#[export] Hint Resolve keyed_succ forall_snoc : workout.

(** ** Every commit keeps the invariant *)

Section commit_wf.
Context `{Driver}.

Theorem insert_atleta_wf (fault : option string) (r : AtletaModel.t) :
  preserves wf (insert_atleta fault r).
Proof.
  intros s Hwf. unfold insert_atleta. destruct fault; [done|].
  destruct (in_int32 _) eqn:Hi; simpl; [|done].
  destruct (atleta_violation _ _ _) eqn:Hv; [destruct Hwf; constructor; simpl; eauto with workout|].
  apply atleta_violation_None in Hv as (Hid & Hn & Hc & Hfk).
  destruct Hwf; constructor; simpl; eauto with workout.
Qed.

Theorem update_atleta_wf (fault : option string) (cols nulls : list string)
    (r : AtletaModel.t) :
  preserves wf (update_atleta fault cols nulls r).
Proof.
  intros s Hwf. unfold update_atleta. destruct fault; [done|].
  case_bool_decide; [done|].
  destruct (in_int32 _) eqn:Hi; simpl; [|done].
  case_decide as Hin; [done|].
  destruct nulls; [|done].
  destruct (atleta_violation _ _ _) eqn:Hv; [done|].
  apply atleta_violation_None in Hv as (Hid & Hn & Hc & Hfk).
  pose proof (wf_atletas_keyed s Hwf) as [Hnd _].
  destruct Hwf; constructor; simpl; eauto with workout.
Qed.

Theorem delete_atleta_wf (fault : option string) (pk : nat) :
  preserves wf (delete_atleta fault pk).
Proof.
  intros s Hwf. unfold delete_atleta. destruct fault; [done|].
  destruct Hwf; constructor; simpl; eauto with workout.
Qed.

Lemma fk_ok_centros_snoc (s : db) (c : CentroTreinamentoModel.t) (seq : nat) :
  Forall (fk_ok s) (atletas s) ->
  Forall (fk_ok (set_centros s (centros_treinamento s ++ [c]) seq)) (atletas s).
Proof.
  intros Hall. eapply Forall_impl; [|exact Hall]. intros a.
  apply fk_ok_centros, sublist_inserts_r. done.
Qed.

Lemma fk_ok_categorias_snoc (s : db) (c : CategoriaModel.t) (seq : nat) :
  Forall (fk_ok s) (atletas s) ->
  Forall (fk_ok (set_categorias s (categorias s ++ [c]) seq)) (atletas s).
Proof.
  intros Hall. eapply Forall_impl; [|exact Hall]. intros a.
  apply fk_ok_categorias, sublist_inserts_r. done.
Qed.

#[local] Hint Resolve fk_ok_centros_snoc fk_ok_categorias_snoc : workout.

Theorem insert_centro_wf (fault : option string) (c : CentroTreinamentoModel.t) :
  preserves wf (insert_centro fault c).
Proof.
  intros s Hwf. unfold insert_centro. destruct fault; [done|].
  repeat case_decide; simpl; rewrite ?first_key_is_Some in *;
    destruct Hwf; constructor; simpl; eauto with workout.
Qed.

Theorem insert_categoria_wf (fault : option string) (c : CategoriaModel.t) :
  preserves wf (insert_categoria fault c).
Proof.
  intros s Hwf. unfold insert_categoria. destruct fault; [done|].
  repeat case_decide; simpl; rewrite ?first_key_is_Some in *;
    destruct Hwf; constructor; simpl; eauto with workout.
Qed.

End commit_wf.

#[export] Hint Resolve insert_atleta_wf update_atleta_wf delete_atleta_wf
  insert_centro_wf insert_categoria_wf : workout.

(** ** One driver: SQLAlchemy over psycopg

    [str(e)] of a SQLAlchemy [IntegrityError] is the driver's message
    followed by the statement that failed ([[SQL: ...]]); the parameters
    are left out here. Quotes are written as single quotes. *)

Definition table_name (t : table) : string :=
  match t with
  | atletas_t => "atletas"
  | categorias_t => "categorias"
  | centros_treinamento_t => "centros_treinamento"
  end.

Definition render_statement (st : statement) : string :=
  match st with
  | Insert t cols => "INSERT INTO " +:+ table_name t +:+ " (" +:+ String.concat ", " cols
                     +:+ ") VALUES (...)"
  | Update t cols => "UPDATE " +:+ table_name t +:+ " SET "
                     +:+ String.concat ", " ((fun c => c +:+ "=%(" +:+ c +:+ ")s") <$> cols)
                     +:+ " WHERE " +:+ table_name t +:+ ".pk_id = %(pk_id_1)s"
  | Delete t => "DELETE FROM " +:+ table_name t +:+ " WHERE " +:+ table_name t
                +:+ ".pk_id = %(pk_id)s"
  end.

Definition render_violation (v : violation) : string :=
  match v with
  | UniqueViolation t c =>
    "(psycopg2.errors.UniqueViolation) duplicate key value violates unique constraint '"
    +:+ table_name t +:+ "_" +:+ c +:+ "_key'"
  | NotNullViolation t c =>
    "(psycopg2.errors.NotNullViolation) null value in column '" +:+ c +:+ "' of relation '"
    +:+ table_name t +:+ "' violates not-null constraint"
  | ForeignKeyViolation t c =>
    "(psycopg2.errors.ForeignKeyViolation) insert or update on table '" +:+ table_name t
    +:+ "' violates foreign key constraint '" +:+ table_name t +:+ "_" +:+ c +:+ "_fkey'"
  end.

Definition sqlalchemy_psycopg : Driver := {|
  integrity_message v st := render_violation v +:+ " [SQL: " +:+ render_statement st +:+ "]";
  data_message m st := "(psycopg2.errors.NumericValueOutOfRange) " +:+ m
                       +:+ " [SQL: " +:+ render_statement st +:+ "]"
|}.

#[global] Instance sqlalchemy_psycopg_laws : @DriverLaws sqlalchemy_psycopg.
Proof.
  constructor. intros t c st. cbn [integrity_message sqlalchemy_psycopg render_violation].
  rewrite !lower_app. do 2 apply contains_app_l. vm_compute. reflexivity.
Qed.

(** ** Deciding the invariant *)

#[export] Instance keyed_dec {R} (key : R -> nat) (seq : nat) (rows : list R) :
  Decision (keyed key seq rows).
Proof. unfold keyed. apply _. Defined.

#[export] Instance fk_ok_dec (s : db) (a : AtletaModel.t) : Decision (fk_ok s a).
Proof. unfold fk_ok. apply _. Defined.

Lemma wf_iff (s : db) :
  wf s <->
  (keyed CategoriaModel.pk_id (seq_categorias s) (categorias s) /\
   NoDup (CategoriaModel.id <$> categorias s) /\
   NoDup (CategoriaModel.nome <$> categorias s) /\
   keyed CentroTreinamentoModel.pk_id (seq_centros_treinamento s) (centros_treinamento s) /\
   NoDup (CentroTreinamentoModel.id <$> centros_treinamento s) /\
   NoDup (CentroTreinamentoModel.nome <$> centros_treinamento s) /\
   keyed AtletaModel.pk_id (seq_atletas s) (atletas s) /\
   NoDup (AtletaModel.id <$> atletas s) /\
   NoDup (AtletaModel.nome <$> atletas s) /\
   NoDup (AtletaModel.cpf <$> atletas s) /\
   Forall (fk_ok s) (atletas s) /\
   Forall (fun a => in_int32 (AtletaModel.idade a) = true) (atletas s)).
Proof. split; [intros []; tauto | intros; destruct_and!; by constructor]. Qed.

#[export] Instance wf_dec (s : db) : Decision (wf s).
Proof.
  pose proof (wf_iff s) as Hiff.
  match type of Hiff with
  | _ <-> ?Q => destruct (decide Q) as [Hw|Hw]; [left|right]; rewrite Hiff; exact Hw
  end.
Defined.
