(* ===== verification/Schemas.v ===== *)
(** * Request and response shapes ([atleta/schemas.py])

    The pydantic models of the athlete API as records, the nested
    [CategoriaIn] / [CentroTreinamentoIn] / [CategoriaOut] /
    [CentroTreinamentoOut] shapes (whose files are not under src/ and are
    modelled from the spec: a name, and an id on output), the
    partial-update payload with pydantic's three states of a field (not
    sent, sent as [null], sent with a value), its
    [model_dump(exclude_unset=True)], and the construction of [AtletaOut] in
    [post] with its validation as an interface ([Validator]: a [str] field
    given a Python value, the required [id] of a nested output model), with
    pydantic 2's instance and a coercing one. *)

From Stdlib Require Import ZArith.
From stdpp Require Import base list strings option.
From S2P Require Import Prelude Store.

Open Scope workout_scope.

(** ** Nested shapes (spec: a category and a training centre are named) *)

Module CategoriaIn.
Record t := mk { nome : string }.
End CategoriaIn.

Module CentroTreinamentoIn.
Record t := mk { nome : string }.
End CentroTreinamentoIn.

Module CentroTreinamentoOut.
Record t := mk { id : string; nome : string }.
End CentroTreinamentoOut.

Module CategoriaOut.
Record t := mk { id : string; nome : string }.
End CategoriaOut.

(** ** Athlete shapes *)

Module AtletaIn.
Record t := mk {
  nome : string;
  cpf : string;
  idade : Z;
  peso : float;
  altura : float;
  sexo : string;
  categoria : CategoriaIn.t;
  centro_treinamento : CentroTreinamentoIn.t
}.
End AtletaIn.

(** [AtletaOut]: [id] and [created_at] are declared [str]; the category
    and the centre are the output models [CategoriaOut] and
    [CentroTreinamentoOut], each with its id. *)
Module AtletaOut.
Record t := mk {
  id : string;
  nome : string;
  cpf : string;
  idade : Z;
  peso : float;
  altura : float;
  sexo : string;
  created_at : string;
  categoria : CategoriaOut.t;
  centro_treinamento : CentroTreinamentoOut.t
}.
End AtletaOut.

(** A field of [AtletaUpdate]: [None] when not sent, [Some None] when sent
    as [null], [Some (Some v)] when sent with a value. *)
Module AtletaUpdate.
Record t := mk {
  nome : option (option string);
  cpf : option (option string);
  idade : option (option Z);
  peso : option (option float);
  altura : option (option float);
  sexo : option (option string);
  categoria : option (option CategoriaIn.t);
  centro_treinamento : option (option CentroTreinamentoIn.t)
}.
End AtletaUpdate.

Module AtletaListOut.
Record t := mk { nome : string; centro_treinamento : string; categoria : string }.
End AtletaListOut.

(** The paginated answer the list route would give; pagination is
    commented out in [query] (TEMPORARIAMENTE SEM PAGINAÇÃO), so no handler
    builds one. *)
Module PaginatedResponse.
Record t := mk {
  items : list AtletaListOut.t;
  total : Z;
  page : Z;
  size : Z;
  pages : Z;
  has_next : bool;
  has_prev : bool
}.
End PaginatedResponse.

(** ** [model_dump(exclude_unset=True)] of an update *)

(** The values of the dumped dict: nested models are dumped to dicts,
    of which only the name matters. *)
Inductive value :=
  | VStr (s : string)
  | VInt (z : Z)
  | VFloat (f : float)
  | VDict (nome : string)
  | VNone.

Definition dump_field {A} (k : string) (f : A -> value) (o : option (option A))
  : list (string * value) :=
  match o with
  | None => []
  | Some None => [(k, VNone)]
  | Some (Some v) => [(k, f v)]
  end.

(** The dict, in the order the fields are declared. *)
Definition model_dump_exclude_unset (u : AtletaUpdate.t) : list (string * value) :=
  dump_field "nome" VStr (AtletaUpdate.nome u) ++
  dump_field "cpf" VStr (AtletaUpdate.cpf u) ++
  dump_field "idade" VInt (AtletaUpdate.idade u) ++
  dump_field "peso" VFloat (AtletaUpdate.peso u) ++
  dump_field "altura" VFloat (AtletaUpdate.altura u) ++
  dump_field "sexo" VStr (AtletaUpdate.sexo u) ++
  dump_field "categoria" (fun c => VDict (CategoriaIn.nome c)) (AtletaUpdate.categoria u) ++
  dump_field "centro_treinamento" (fun c => VDict (CentroTreinamentoIn.nome c))
             (AtletaUpdate.centro_treinamento u).

(** ** Validation of a [str] field *)

(** The Python values handed to a [str] field: a string, the [UUID] object
    of [uuid4()] or the [datetime] of [datetime.now()] (by their text). *)
Inductive pyval := PyStr (s : string) | PyUUID (u : string) | PyDatetime (iso : string).

(** How pydantic validates the fields [AtletaOut] is built with:
    [validate_str] a [str] field, [Some] the string or [None] for a
    [ValidationError]; [validate_ref_id] the [id] field of a nested output
    model ([CategoriaOut], [CentroTreinamentoOut]), given the value under
    the key ["id"] of the dict it is built from, or [None] when the dict has
    no such key. *)
Class Validator := {
  validate_str : pyval -> option string;
  validate_ref_id : option pyval -> option string
}.

(** Pydantic 2's lax mode takes only [str] for a [str] field. *)
Definition pydantic_v2_validate (v : pyval) : option string :=
  match v with PyStr s => Some s | _ => None end.

(** A required [id] of a nested model: a missing key is a [ValidationError]
    ("Field required"); a [UUID] or its text is taken. *)
Definition pydantic_v2_ref_id (v : option pyval) : option string :=
  match v with Some (PyUUID u) | Some (PyStr u) => Some u | _ => None end.

(** The [AtletaOut] built from the input's fields, with the given id,
    creation time and nested ids. *)
Definition atleta_out_build (i c cat_id ct_id : string) (a : AtletaIn.t) : AtletaOut.t :=
  AtletaOut.mk i (AtletaIn.nome a) (AtletaIn.cpf a) (AtletaIn.idade a)
               (AtletaIn.peso a) (AtletaIn.altura a) (AtletaIn.sexo a) c
               (CategoriaOut.mk cat_id (CategoriaIn.nome (AtletaIn.categoria a)))
               (CentroTreinamentoOut.mk ct_id
                  (CentroTreinamentoIn.nome (AtletaIn.centro_treinamento a))).

(** [AtletaOut(id=uuid4(), created_at=datetime.now(timezone.utc),
    **atleta_in.model_dump())]: the nested [categoria] and
    [centro_treinamento] are the dicts [{"nome": ...}] of the input, with no
    ["id"] key. *)
Definition atleta_out_of `{Validator} (id created_at : pyval) (a : AtletaIn.t)
  : option AtletaOut.t :=
  i ← validate_str id;
  c ← validate_str created_at;
  cat_id ← validate_ref_id None;
  ct_id ← validate_ref_id None;
  Some (atleta_out_build i c cat_id ct_id a).

(** [AtletaModel( **atleta_out.model_dump(exclude={'categoria',
    'centro_treinamento'}))] with [categoria_id] and [centro_treinamento_id]
    then set to the resolved rows' keys; [pk_id] is left to the sequence. *)
Definition atleta_model_of (o : AtletaOut.t) (categoria_id centro_id : nat) : AtletaModel.t :=
  AtletaModel.mk 0 (AtletaOut.id o) (AtletaOut.nome o) (AtletaOut.cpf o)
                 (AtletaOut.idade o) (AtletaOut.peso o) (AtletaOut.altura o)
                 (AtletaOut.sexo o) (AtletaOut.created_at o) categoria_id centro_id.

Definition pydantic_v2 : Validator :=
  {| validate_str := pydantic_v2_validate; validate_ref_id := pydantic_v2_ref_id |}.

(** A validator under which the construction the handler writes succeeds:
    a [str] field takes the text of a [UUID] or [datetime], and a nested
    model's missing id is taken as empty. *)
Definition coerce_str (v : pyval) : option string :=
  match v with PyStr s | PyUUID s | PyDatetime s => Some s end.

Definition coerce_ref_id (v : option pyval) : option string :=
  match v with Some v => coerce_str v | None => Some "" end.

Definition coercing : Validator := {| validate_str := coerce_str; validate_ref_id := coerce_ref_id |}.

(** ** [response_model=AtletaOut] over an ORM object

    [BaseSchema]'s [from_attributes = True] lets FastAPI validate the row a
    route returns against [AtletaOut], field by field from its attributes:
    the [id] column holds the id's text, the [created_at] column a
    [datetime]; [categoria] and [centro_treinamento] are the rows the two
    relationships load ([None] when there is none, which a required field
    refuses), validated as [CategoriaOut] / [CentroTreinamentoOut] from
    their own attributes. *)
Definition atleta_out_from_attributes `{Validator} (a : AtletaModel.t)
    (cat : option CategoriaModel.t) (ct : option CentroTreinamentoModel.t) : option AtletaOut.t :=
  i ← validate_str (PyStr (AtletaModel.id a));
  c ← validate_str (PyDatetime (AtletaModel.created_at a));
  cat ← cat;
  ct ← ct;
  cat_id ← validate_ref_id (Some (PyStr (CategoriaModel.id cat)));
  ct_id ← validate_ref_id (Some (PyStr (CentroTreinamentoModel.id ct)));
  Some (AtletaOut.mk i (AtletaModel.nome a) (AtletaModel.cpf a) (AtletaModel.idade a)
                     (AtletaModel.peso a) (AtletaModel.altura a) (AtletaModel.sexo a) c
                     (CategoriaOut.mk cat_id (CategoriaModel.nome cat))
                     (CentroTreinamentoOut.mk ct_id (CentroTreinamentoModel.nome ct))).

(** What the handlers' code takes for granted of the validation: a [str]
    field takes a string, and the text of a [datetime]; a nested id takes
    the text of an id. Pydantic 2 refuses the [datetime]. *)
Class ValidatorLaws `{Validator} := {
  validate_str_text (x : string) : validate_str (PyStr x) = Some x;
  validate_str_datetime (d : string) : validate_str (PyDatetime d) = Some d;
  validate_ref_id_text (u : string) : validate_ref_id (Some (PyStr u)) = Some u
}.

#[global] Instance coercing_laws : @ValidatorLaws coercing.
Proof. by constructor. Qed.

(** A row whose relationships load is rendered by a lawful validator. *)
Lemma atleta_out_from_attributes_ok `{ValidatorLaws} (a : AtletaModel.t)
    (cat : CategoriaModel.t) (ct : CentroTreinamentoModel.t) :
  atleta_out_from_attributes a (Some cat) (Some ct) =
  Some (AtletaOut.mk (AtletaModel.id a) (AtletaModel.nome a) (AtletaModel.cpf a)
          (AtletaModel.idade a) (AtletaModel.peso a) (AtletaModel.altura a) (AtletaModel.sexo a)
          (AtletaModel.created_at a)
          (CategoriaOut.mk (CategoriaModel.id cat) (CategoriaModel.nome cat))
          (CentroTreinamentoOut.mk (CentroTreinamentoModel.id ct) (CentroTreinamentoModel.nome ct))).
Proof.
  unfold atleta_out_from_attributes.
  rewrite validate_str_text, validate_str_datetime. simpl. by rewrite !validate_ref_id_text.
Qed.

(** Pydantic 2 refuses every row: [created_at] holds a [datetime]. *)
Lemma atleta_out_from_attributes_pydantic_v2 (a : AtletaModel.t) cat ct :
  @atleta_out_from_attributes pydantic_v2 a cat ct = None.
Proof. reflexivity. Qed.
