(* ===== verification/Body.v ===== *)
(** * Request bodies: JSON validated into the input models

    [post] and [patch] declare a body parameter ([atleta_in: AtletaIn =
    Body(...)], [atleta_up: AtletaUpdate = Body(...)]), as does the centre's
    [post]. FastAPI decodes the JSON ([json.loads]: an integer literal is
    an [int], another number a [float], a repeated key keeps its last
    value) and validates it against the model: a required field must be
    present, a field declared [X | None = None] may be absent (it is then
    not set, and [model_dump(exclude_unset=True)] leaves it out), [null]
    (it is then set to [None]) or an [X]; keys the model does not declare
    are ignored. A body that is absent, not JSON or not valid is answered
    422 before the handler runs.

    The coercions of a scalar field in pydantic's lax mode ([str], [int],
    [float]) are the interface [JsonLax]; [JsonLaxLaws] states the cases the
    proofs use, which every mode satisfies: a JSON value of the field's
    type is taken as it is, and [null] is refused. *)

From Stdlib Require Import ZArith.
From stdpp Require Import base list strings option.
From S2P Require Import Prelude Store Schemas.

Open Scope workout_scope.

(** The values [json.loads] returns. *)
Inductive json :=
  | JNull
  | JBool (b : bool)
  | JInt (z : Z)
  | JFloat (f : float)
  | JStr (s : string)
  | JArr (l : list json)
  | JObj (kvs : list (string * json)).

(** The value of a key of a decoded object: the last one given. *)
Definition jfield (k : string) (kvs : list (string * json)) : option json :=
  foldl (fun acc kv => if bool_decide (kv.1 = k) then Some kv.2 else acc) None kvs.

Class JsonLax := {
  lax_str : json -> option string;
  lax_int : json -> option Z;
  lax_float : json -> option float
}.

Class JsonLaxLaws `{JsonLax} := {
  lax_str_str (s : string) : lax_str (JStr s) = Some s;
  lax_int_int (z : Z) : lax_int (JInt z) = Some z;
  lax_float_float (f : float) : lax_float (JFloat f) = Some f;
  lax_str_null : lax_str JNull = None;
  lax_int_null : lax_int JNull = None;
  lax_float_null : lax_float JNull = None
}.

(** Strict mode: only a value of the field's own type. *)
Definition strict_json : JsonLax := {|
  lax_str j := match j with JStr s => Some s | _ => None end;
  lax_int j := match j with JInt z => Some z | _ => None end;
  lax_float j := match j with JFloat f => Some f | _ => None end
|}.

#[global] Instance strict_json_laws : @JsonLaxLaws strict_json.
Proof. by constructor. Qed.

Section models.
Context `{JsonLax}.

(** A required field: present and valid. *)
Definition required {A} (k : string) (v : json -> option A) (kvs : list (string * json)) : option A :=
  j ← jfield k kvs; v j.

(** A field [X | None = None]: not set when absent ([None]), [None] when
    [null], otherwise a valid [X]; the outer option is the validation. *)
Definition optional {A} (k : string) (v : json -> option A) (kvs : list (string * json))
  : option (option (option A)) :=
  match jfield k kvs with
  | None => Some None
  | Some JNull => Some (Some None)
  | Some j => (fun x => Some (Some x)) <$> v j
  end.

(** A nested model given as an object. *)
Definition nested {A} (v : list (string * json) -> option A) (j : json) : option A :=
  match j with JObj kvs => v kvs | _ => None end.

Definition categoria_in_of_json : json -> option CategoriaIn.t :=
  nested (fun kvs => CategoriaIn.mk <$> required "nome" lax_str kvs).

Definition centro_in_of_json : json -> option CentroTreinamentoIn.t :=
  nested (fun kvs => CentroTreinamentoIn.mk <$> required "nome" lax_str kvs).

(** [class AtletaIn(BaseSchema)]: every field required. *)
Definition atleta_in_of_json : json -> option AtletaIn.t :=
  nested (fun kvs =>
    nome ← required "nome" lax_str kvs;
    cpf ← required "cpf" lax_str kvs;
    idade ← required "idade" lax_int kvs;
    peso ← required "peso" lax_float kvs;
    altura ← required "altura" lax_float kvs;
    sexo ← required "sexo" lax_str kvs;
    categoria ← required "categoria" categoria_in_of_json kvs;
    centro_treinamento ← required "centro_treinamento" centro_in_of_json kvs;
    Some (AtletaIn.mk nome cpf idade peso altura sexo categoria centro_treinamento)).

(** [class AtletaUpdate(BaseSchema)]: every field [X | None = None]. *)
Definition atleta_update_of_json : json -> option AtletaUpdate.t :=
  nested (fun kvs =>
    nome ← optional "nome" lax_str kvs;
    cpf ← optional "cpf" lax_str kvs;
    idade ← optional "idade" lax_int kvs;
    peso ← optional "peso" lax_float kvs;
    altura ← optional "altura" lax_float kvs;
    sexo ← optional "sexo" lax_str kvs;
    categoria ← optional "categoria" categoria_in_of_json kvs;
    centro_treinamento ← optional "centro_treinamento" centro_in_of_json kvs;
    Some (AtletaUpdate.mk nome cpf idade peso altura sexo categoria centro_treinamento)).

End models.

(** ** The fields an update sets *)

(** The keys [AtletaUpdate] declares, in their order. *)
Definition atleta_update_keys : list string :=
  ["nome"; "cpf"; "idade"; "peso"; "altura"; "sexo"; "categoria"; "centro_treinamento"].

Section body_theory.
Context `{JsonLax}.

Lemma filter_cons_app {A} (P : A -> Prop) `{!forall x, Decision (P x)} (x : A) (l : list A) :
  filter P (x :: l) = (if bool_decide (P x) then [x] else []) ++ filter P l.
Proof. rewrite filter_cons. by case_bool_decide; case_decide. Qed.

Lemma dump_field_keys {A} (k : string) (f : A -> value) (o : option (option A)) :
  (dump_field k f o).*1 = if bool_decide (is_Some o) then [k] else [].
Proof.
  destruct o as [o|].
  - rewrite bool_decide_eq_true_2 by eauto. by destruct o.
  - rewrite bool_decide_eq_false_2; [done|]. by intros [].
Qed.

(** A field is set exactly when its key was sent. *)
Lemma optional_set {A} (k : string) (v : json -> option A) (kvs : list (string * json))
    (o : option (option A)) :
  optional k v kvs = Some o -> bool_decide (is_Some o) = bool_decide (is_Some (jfield k kvs)).
Proof.
  unfold optional. intros Hk. apply bool_decide_ext.
  destruct (jfield k kvs) as [[]|]; simplify_option_eq; split; intros; eauto; done.
Qed.

End body_theory.

Section update_keys.
Context `{JsonLax}.

(** C25: the fields [patch]'s [setattr] loop writes, the keys of
    [atleta_up.model_dump(exclude_unset=True)], are exactly the keys
    [AtletaUpdate] declares that the body sends, in the order of the
    declaration: a field the client leaves out is not touched, whatever the
    model's default, and an undeclared key is ignored. *)
Theorem atleta_update_sets_sent (kvs : list (string * json)) (u : AtletaUpdate.t) :
  atleta_update_of_json (JObj kvs) = Some u ->
  (model_dump_exclude_unset u).*1 = filter (fun k => is_Some (jfield k kvs)) atleta_update_keys.
Proof.
  unfold atleta_update_of_json, nested. intros Hu. simplify_option_eq.
  unfold model_dump_exclude_unset, atleta_update_keys.
  rewrite !fmap_app, !dump_field_keys, !filter_cons_app, filter_nil, app_nil_r. simpl.
  repeat match goal with Ho : optional _ _ _ = Some _ |- _ => rewrite (optional_set _ _ _ _ Ho); clear Ho end.
  reflexivity.
Qed.

End update_keys.

(** The body [{"idade": n}]. *)
Lemma atleta_update_of_json_idade `{JsonLaxLaws} (n : Z) :
  atleta_update_of_json (JObj [("idade", JInt n)]) =
  Some (AtletaUpdate.mk None None (Some (Some n)) None None None None None).
Proof. unfold atleta_update_of_json, nested, optional. cbn.
  rewrite !bool_decide_eq_false_2 by done. rewrite bool_decide_eq_true_2 by done. simpl.
  by rewrite lax_int_int.
Qed.

(** ** Witnesses *)

Definition idade_26_body : list (string * json) := [("idade", JInt 26); ("apelido", JStr "Jo")].

Lemma atleta_update_sets_sent_witness :
  @atleta_update_of_json strict_json (JObj idade_26_body) =
    Some (AtletaUpdate.mk None None (Some (Some 26%Z)) None None None None None) /\
  (model_dump_exclude_unset (AtletaUpdate.mk None None (Some (Some 26%Z)) None None None None None)).*1 =
    filter (fun k => is_Some (jfield k idade_26_body)) atleta_update_keys.
Proof. split; [reflexivity|]. apply (@atleta_update_sets_sent strict_json). reflexivity. Defined.
