(* ===== verification/Like.v ===== *)
(** * The store's [LIKE] / [ILIKE] pattern matching

    [Atleta.query] filters with [AtletaModel.nome.ilike(f'%{nome}%')]:
    the store matches the column against a pattern in which ['%'] stands for
    any sequence of characters, ['_'] for any one character and ['\'] makes
    the next character literal; [ILIKE] compares both sides in lower case
    (ASCII here). The handler does not escape the user's text, so its
    wildcards keep their meaning. This file holds the executable matcher
    [like], the rule-by-rule relation [matches] it decides ([like_spec],
    by induction on the pattern's length for soundness and on the
    derivation for completeness), and the relation of a "contains" pattern
    to Python's substring test [Prelude.contains]. *)

From Stdlib Require Import ZArith Ascii Wf_nat.
From stdpp Require Import base list strings option.
From S2P Require Import Prelude.

Open Scope workout_scope.

Definition pct : ascii := "%"%char.
Definition usc : ascii := "_"%char.
Definition esc : ascii := "\"%char.

(** [like p s]: whether [s LIKE p]. A pattern ending in a lone escape is an
    error in the store; the handler's patterns end in ['%'], so it does not
    arise, and it matches nothing here. *)
Fixpoint like (p s : string) {struct p} : bool :=
  match p with
  | EmptyString => match s with EmptyString => true | String _ _ => false end
  | String c p' =>
    if decide (c = pct) then
      (fix go (s : string) : bool :=
         like p' s || match s with EmptyString => false | String _ s' => go s' end) s
    else if decide (c = usc) then
      match s with EmptyString => false | String _ s' => like p' s' end
    else if decide (c = esc) then
      match p', s with
      | String c' p'', String d s' => bool_decide (c' = d) && like p'' s'
      | _, _ => false
      end
    else
      match s with
      | String d s' => bool_decide (c = d) && like p' s'
      | EmptyString => false
      end
  end.

Definition ilike (p s : string) : bool := like (lower p) (lower s).

(** The pattern of a "contains" filter: [f'%{x}%']. *)
Definition contains_pattern (x : string) : string := String pct (x +:+ String pct EmptyString).

(** A text with no wildcard and no escape character. *)
Fixpoint plain (x : string) : bool :=
  match x with
  | EmptyString => true
  | String c x' => negb (bool_decide (c = pct) || bool_decide (c = usc) || bool_decide (c = esc))
                   && plain x'
  end.

(** The matching relation of SQL's [LIKE], rule by rule: [%] matches any
    sequence (skip it, or eat one character and stay), [_] any one
    character, [\c] exactly [c], and any other character itself. *)
Inductive matches : string -> string -> Prop :=
  | m_nil : matches EmptyString EmptyString
  | m_pct_skip p s : matches p s -> matches (String pct p) s
  | m_pct_eat p d s : matches (String pct p) s -> matches (String pct p) (String d s)
  | m_usc p d s : matches p s -> matches (String usc p) (String d s)
  | m_esc p d s : matches p s -> matches (String esc (String d p)) (String d s)
  | m_lit c p s : c <> pct -> c <> usc -> c <> esc -> matches p s -> matches (String c p) (String c s).

(** ** Computation rules *)

Lemma like_pct (p s : string) :
  like (String pct p) s =
  like p s || match s with EmptyString => false | String _ s' => like (String pct p) s' end.
Proof. destruct s; reflexivity. Qed.

Lemma like_pct_any (s : string) : like (String pct EmptyString) s = true.
Proof.
  induction s as [|d s IH]; [done|]. rewrite like_pct, IH. apply orb_true_r.
Qed.

Lemma like_plain_cons (c : ascii) (p s : string) :
  c <> pct -> c <> usc -> c <> esc ->
  like (String c p) s =
  match s with String d s' => bool_decide (c = d) && like p s' | EmptyString => false end.
Proof. intros H1 H2 H3. simpl. by rewrite !decide_False. Qed.

(** ** A plain text between two ['%'] is a substring test *)

Lemma like_plain_prefix (x s : string) :
  plain x = true -> like (x +:+ String pct EmptyString) s = starts_with x s.
Proof.
  revert s. induction x as [|c x IH]; intros s Hx.
  - apply like_pct_any.
  - simpl in Hx. apply andb_true_iff in Hx as [Hc Hx].
    rewrite !negb_true_iff, !orb_false_iff, !bool_decide_eq_false in Hc.
    destruct Hc as [[H1 H2] H3]. rewrite string_app_cons, like_plain_cons by done.
    destruct s as [|d s]; [done|]. simpl. by rewrite IH.
Qed.

Lemma like_contains_pattern (x s : string) :
  plain x = true -> like (contains_pattern x) s = contains x s.
Proof.
  intros Hx. unfold contains_pattern.
  induction s as [|d s IH]; rewrite like_pct, like_plain_prefix by done.
  - simpl. by rewrite orb_false_r.
  - rewrite IH. reflexivity.
Qed.

(** [ILIKE] against a "contains" pattern of a plain text is a substring test
    on the lower-cased texts. *)
Lemma lower_contains_pattern (x : string) : lower (contains_pattern x) = contains_pattern (lower x).
Proof.
  unfold contains_pattern. cbn [lower]. rewrite lower_app. reflexivity.
Qed.

Lemma ilike_contains_pattern (x s : string) :
  plain (lower x) = true -> ilike (contains_pattern x) s = contains (lower x) (lower s).
Proof. intros Hx. unfold ilike. rewrite lower_contains_pattern. by apply like_contains_pattern. Qed.

(** ** A plain text followed by ['_'] between two ['%']

    The pattern of the filter text [x_] for a plain [x]: the ['_'] is the
    store's any-one-character, so it matches [x] followed by any
    character. *)

(** [x] is a prefix of [s] and at least one character follows it. *)
Fixpoint starts_with_then (x s : string) : bool :=
  match x, s with
  | EmptyString, String _ _ => true
  | EmptyString, EmptyString => false
  | String c x', String d s' => bool_decide (c = d) && starts_with_then x' s'
  | String _ _, EmptyString => false
  end.

(** [x] occurs in [s] with at least one character after it. *)
Fixpoint contains_then (x s : string) : bool :=
  starts_with_then x s || match s with EmptyString => false | String _ s' => contains_then x s' end.

Lemma like_plain_usc_prefix (x s : string) :
  plain x = true -> like (x +:+ String usc (String pct EmptyString)) s = starts_with_then x s.
Proof.
  revert s. induction x as [|c x IH]; intros s Hx.
  - destruct s as [|d s]; [done|]. apply like_pct_any.
  - simpl in Hx. apply andb_true_iff in Hx as [Hc Hx].
    rewrite !negb_true_iff, !orb_false_iff, !bool_decide_eq_false in Hc.
    destruct Hc as [[H1 H2] H3]. rewrite string_app_cons, like_plain_cons by done.
    destruct s as [|d s]; [done|]. simpl. by rewrite IH.
Qed.

Lemma like_contains_usc_pattern (x s : string) :
  plain x = true ->
  like (contains_pattern (x +:+ String usc EmptyString)) s = contains_then x s.
Proof.
  intros Hx. unfold contains_pattern.
  rewrite string_app_assoc, string_app_cons, string_app_nil_l.
  induction s as [|d s IH]; rewrite like_pct, like_plain_usc_prefix by done.
  - simpl. by rewrite orb_false_r.
  - rewrite IH. reflexivity.
Qed.

(** [ILIKE] against the pattern of [x_], [x] plain once lower-cased. *)
Lemma ilike_contains_usc_pattern (x s : string) :
  plain (lower x) = true ->
  ilike (contains_pattern (x +:+ "_")) s = contains_then (lower x) (lower s).
Proof.
  intros Hx. unfold ilike. rewrite lower_contains_pattern, lower_app.
  by apply like_contains_usc_pattern.
Qed.

(** ** The matcher decides the relation *)

Lemma like_matches_complete (p s : string) : matches p s -> like p s = true.
Proof.
  induction 1 as [| | |p d s _ IH|p d s _ IH|c p s H1 H2 H3 _ IH].
  - done.
  - rewrite like_pct. by apply orb_true_iff; left.
  - rewrite like_pct. by apply orb_true_iff; right.
  - exact IH.
  - simpl. by rewrite bool_decide_true.
  - rewrite like_plain_cons by done. by rewrite bool_decide_true.
Qed.

Lemma like_matches_sound (p : string) : forall s, like p s = true -> matches p s.
Proof.
  induction p as [p IH] using (induction_ltof1 _ String.length). unfold ltof in IH.
  intros s Hl. destruct p as [|c p']; [destruct s; [constructor|done]|].
  assert (IH' : forall s', like p' s' = true -> matches p' s') by (apply IH; simpl; lia).
  destruct (decide (c = pct)) as [->|Hp].
  - induction s as [|d s IHs]; rewrite like_pct in Hl; apply orb_true_iff in Hl as [Hl|Hl].
    + by constructor; apply IH'.
    + done.
    + by constructor; apply IH'.
    + by apply m_pct_eat, IHs.
  - destruct (decide (c = usc)) as [->|Hu].
    + destruct s as [|d s]; [done|]. simpl in Hl. constructor. by apply IH'.
    + destruct (decide (c = esc)) as [->|He].
      * destruct p' as [|c' p'']; [by destruct s|]. destruct s as [|d s]; [done|].
        simpl in Hl. apply andb_true_iff in Hl as [->%bool_decide_eq_true Hl].
        constructor. apply IH; [simpl; lia|done].
      * rewrite like_plain_cons in Hl by done. destruct s as [|d s]; [done|].
        apply andb_true_iff in Hl as [->%bool_decide_eq_true Hl]. constructor; auto.
Qed.

(** [like] is the matching relation of SQL's [LIKE]. *)
Lemma like_spec (p s : string) : like p s = true <-> matches p s.
Proof. split; [apply like_matches_sound|apply like_matches_complete]. Qed.
