(* ===== verification/AtletaController.v ===== *)
(** * The athlete handlers ([atleta/controller.py])

    One definition per handler, composed as the code composes them: the
    lookups of [db_session.execute(select(...)).scalars().first()] are
    [gets] of [first] on the committed tables, every [raise HTTPException]
    is a [raise], the [try]/[except IntegrityError]/[except Exception]
    blocks are [try_except] with the classification of [str(e).lower()],
    and [add]+[commit] (or [delete]+[commit], or [setattr]s+[commit]) are the
    atomic statements of [Store]. A request also reads its environment:
    the value of [uuid4()], of [datetime.now(timezone.utc)], and whether the
    commit fails for an operational reason. *)

From Stdlib Require Import ZArith.
From stdpp Require Import base list strings option.
From S2P Require Import Prelude Store Schemas Like.

Open Scope workout_scope.

(** ** Status codes and the request environment *)

Definition HTTP_200_OK : Z := 200.
Definition HTTP_201_CREATED : Z := 201.
Definition HTTP_204_NO_CONTENT : Z := 204.
Definition HTTP_303_SEE_OTHER : Z := 303.
Definition HTTP_400_BAD_REQUEST : Z := 400.
Definition HTTP_404_NOT_FOUND : Z := 404.
Definition HTTP_500_INTERNAL_SERVER_ERROR : Z := 500.

Record Env := mkenv {
  uuid4 : string;
  now_utc : string;
  commit_fault : option string
}.

(** The response FastAPI sends: the handler's value with the route's status
    code, the status and detail of an [HTTPException], or a bare 500 for
    any other exception that escapes the handler. *)
Inductive response (A : Type) :=
  | Ok (status : Z) (body : A)
  | Err (status : Z) (detail : string).
Arguments Ok {A}. Arguments Err {A}.

Definition serve {A} (status : Z) (m : Py db A) (s : db) : response A * db :=
  match m s with
  | (inr a, s') => (Ok status a, s')
  | (inl (HTTPException c d), s') => (Err c d, s')
  | (inl _, s') => (Err HTTP_500_INTERNAL_SERVER_ERROR "Internal Server Error", s')
  end.

(** A route with a [response_model] over what the handler returns: the
    model validates the value, and a refused value is a
    [ResponseValidationError], answered 500 after the handler (and its
    commit) has run. *)
Definition serve_model {A B} (status : Z) (render : db -> A -> option B) (m : Py db A) (s : db)
  : response B * db :=
  match m s with
  | (inr a, s') =>
    match render s' a with
    | Some b => (Ok status b, s')
    | None => (Err HTTP_500_INTERNAL_SERVER_ERROR "Internal Server Error", s')
    end
  | (inl (HTTPException c d), s') => (Err c d, s')
  | (inl _, s') => (Err HTTP_500_INTERNAL_SERVER_ERROR "Internal Server Error", s')
  end.

Definition status_of {A} (r : response A) : Z :=
  match r with Ok c _ | Err c _ => c end.

Section handlers.
Context `{Driver} `{Validator}.

(** ** [post]: lines 30-75, the checks before the insert *)

Definition msg_cpf_existente (cpf : string) : string :=
  "Já existe um atleta cadastrado com o CPF: " +:+ cpf.
Definition msg_nome_existente (nome : string) : string :=
  "Já existe um atleta cadastrado com o nome: " +:+ nome.

Definition post_prechecks (atleta_in : AtletaIn.t)
  : Py db (CategoriaModel.t * CentroTreinamentoModel.t) :=
  let categoria_nome := CategoriaIn.nome (AtletaIn.categoria atleta_in) in
  let centro_treinamento_nome := CentroTreinamentoIn.nome (AtletaIn.centro_treinamento atleta_in) in
  categoria <- gets (fun s => first (fun c => CategoriaModel.nome c = categoria_nome) (categorias s)) ;;
  match categoria with
  | None => raise (HTTPException HTTP_400_BAD_REQUEST
                     ("A categoria " +:+ categoria_nome +:+ " não foi encontrada."))
  | Some categoria =>
  centro_treinamento <- gets (fun s => first (fun c => CentroTreinamentoModel.nome c =
                                                    centro_treinamento_nome)
                                             (centros_treinamento s)) ;;
  match centro_treinamento with
  | None => raise (HTTPException HTTP_400_BAD_REQUEST
                     ("O centro de treinamento " +:+ centro_treinamento_nome +:+ " não foi encontrado."))
  | Some centro_treinamento =>
  cpf_existente <- gets (fun s => first (fun x => AtletaModel.cpf x = AtletaIn.cpf atleta_in)
                                        (atletas s)) ;;
  match cpf_existente with
  | Some _ => raise (HTTPException HTTP_303_SEE_OTHER (msg_cpf_existente (AtletaIn.cpf atleta_in)))
  | None =>
  nome_existente <- gets (fun s => first (fun x => AtletaModel.nome x = AtletaIn.nome atleta_in)
                                         (atletas s)) ;;
  match nome_existente with
  | Some _ => raise (HTTPException HTTP_303_SEE_OTHER (msg_nome_existente (AtletaIn.nome atleta_in)))
  | None => ret (categoria, centro_treinamento)
  end end end end.

(** ** [post]: lines 77-120, the insert and its [except] clauses *)

Definition msg_duplicado_post : string :=
  "Já existe um atleta com dados duplicados. Verifique se o CPF ou nome já não foram cadastrados.".
Definition msg_interno_post : string :=
  "Erro interno do servidor. Entre em contato com o suporte técnico.".

(** The [except IntegrityError] / [except Exception] clauses of [post]. *)
Definition post_error (atleta_in : AtletaIn.t) (e : exc) : exc :=
  match e with
  | IntegrityError msg =>
    let error_message := lower msg in
    if contains "cpf" error_message
    then HTTPException HTTP_303_SEE_OTHER (msg_cpf_existente (AtletaIn.cpf atleta_in))
    else if contains "nome" error_message
    then HTTPException HTTP_303_SEE_OTHER (msg_nome_existente (AtletaIn.nome atleta_in))
    else if contains "unique" error_message
    then HTTPException HTTP_303_SEE_OTHER msg_duplicado_post
    else HTTPException HTTP_400_BAD_REQUEST ("Erro de validação: " +:+ msg)
  | _ => HTTPException HTTP_500_INTERNAL_SERVER_ERROR msg_interno_post
  end.

Definition post_insert (env : Env) (atleta_in : AtletaIn.t)
    (categoria : CategoriaModel.t) (centro_treinamento : CentroTreinamentoModel.t)
  : Py db AtletaOut.t :=
  try_except
    (match atleta_out_of (PyUUID (uuid4 env)) (PyDatetime (now_utc env)) atleta_in with
     | None => raise (Exception "ValidationError")
     | Some atleta_out =>
       insert_atleta (commit_fault env)
         (atleta_model_of atleta_out (CategoriaModel.pk_id categoria)
                          (CentroTreinamentoModel.pk_id centro_treinamento)) ;;
       ret atleta_out
     end)
    (fun e => raise (post_error atleta_in e)).

Definition post (env : Env) (atleta_in : AtletaIn.t) : Py db AtletaOut.t :=
  rel <- post_prechecks atleta_in ;;
  post_insert env atleta_in (fst rel) (snd rel).

(** ** [query]: lines 129-156 *)

(** Python's truth value of an optional query string. *)
Definition truthy (o : option string) : option string :=
  match o with Some (String c s) => Some (String c s) | _ => None end.

Definition query_filter (nome cpf : option string) (a : AtletaModel.t) : bool :=
  match truthy nome with
  | Some n => ilike (contains_pattern n) (AtletaModel.nome a)
  | None => true
  end &&
  match truthy cpf with
  | Some c => ilike (contains_pattern c) (AtletaModel.cpf a)
  | None => true
  end.

(** [atleta.categoria] and [atleta.centro_treinamento]: the rows the
    foreign keys designate, if any. *)
Definition categoria_of (s : db) (a : AtletaModel.t) : option CategoriaModel.t :=
  first (fun c => CategoriaModel.pk_id c = AtletaModel.categoria_id a) (categorias s).

Definition centro_of (s : db) (a : AtletaModel.t) : option CentroTreinamentoModel.t :=
  first (fun c => CentroTreinamentoModel.pk_id c = AtletaModel.centro_treinamento_id a)
        (centros_treinamento s).

(** The summary of one row, through its two relationships. *)
Definition atleta_list_out (s : db) (a : AtletaModel.t) : AtletaListOut.t :=
  AtletaListOut.mk (AtletaModel.nome a)
    (match centro_of s a with Some c => CentroTreinamentoModel.nome c | None => "" end)
    (match categoria_of s a with Some c => CategoriaModel.nome c | None => "" end).

Definition query (nome cpf : option string) : Py db (list AtletaListOut.t) :=
  gets (fun s => atleta_list_out s <$> filter (fun a => query_filter nome cpf a = true) (atletas s)).

(** ** [get]: lines 165-176 *)

Definition msg_nao_encontrado (id : string) : string := "Atleta não encontrado no id: " +:+ id.

Definition find_atleta (id : string) : Py db (option AtletaModel.t) :=
  gets (fun s => first (fun x => AtletaModel.id x = id) (atletas s)).

Definition get (id : string) : Py db AtletaModel.t :=
  atleta <- find_atleta id ;;
  match atleta with
  | None => raise (HTTPException HTTP_404_NOT_FOUND (msg_nao_encontrado id))
  | Some atleta => ret atleta
  end.

(** [response_model=AtletaOut] of [get] and [patch] (lines 163, 183): the
    returned row validated by attributes, its relationships loaded from the
    committed state. *)
Definition render_atleta (s : db) (a : AtletaModel.t) : option AtletaOut.t :=
  atleta_out_from_attributes a (categoria_of s a) (centro_of s a).

(** ** [patch]: lines 185-232 *)

(** [setattr(atleta, key, value)] on the loaded row; the second component
    lists the columns set to [None]. Assigning the dumped dict of a nested
    model to a relationship attribute raises (SQLAlchemy expects a mapped
    instance there); assigning [None] to it nulls the foreign key. *)
Definition setattr (p : AtletaModel.t * list string) (kv : string * value)
  : exc + (AtletaModel.t * list string) :=
  let '(a, nulls) := p in
  let '(k, v) := kv in
  let upd (a' : AtletaModel.t) := inr (a', nulls) in
  let null (c : string) := inr (a, nulls ++ [c]) in
  let set_nome x := AtletaModel.mk (AtletaModel.pk_id a) (AtletaModel.id a) x (AtletaModel.cpf a)
        (AtletaModel.idade a) (AtletaModel.peso a) (AtletaModel.altura a) (AtletaModel.sexo a)
        (AtletaModel.created_at a) (AtletaModel.categoria_id a) (AtletaModel.centro_treinamento_id a) in
  let set_cpf x := AtletaModel.mk (AtletaModel.pk_id a) (AtletaModel.id a) (AtletaModel.nome a) x
        (AtletaModel.idade a) (AtletaModel.peso a) (AtletaModel.altura a) (AtletaModel.sexo a)
        (AtletaModel.created_at a) (AtletaModel.categoria_id a) (AtletaModel.centro_treinamento_id a) in
  let set_idade x := AtletaModel.mk (AtletaModel.pk_id a) (AtletaModel.id a) (AtletaModel.nome a)
        (AtletaModel.cpf a) x (AtletaModel.peso a) (AtletaModel.altura a) (AtletaModel.sexo a)
        (AtletaModel.created_at a) (AtletaModel.categoria_id a) (AtletaModel.centro_treinamento_id a) in
  let set_peso x := AtletaModel.mk (AtletaModel.pk_id a) (AtletaModel.id a) (AtletaModel.nome a)
        (AtletaModel.cpf a) (AtletaModel.idade a) x (AtletaModel.altura a) (AtletaModel.sexo a)
        (AtletaModel.created_at a) (AtletaModel.categoria_id a) (AtletaModel.centro_treinamento_id a) in
  let set_altura x := AtletaModel.mk (AtletaModel.pk_id a) (AtletaModel.id a) (AtletaModel.nome a)
        (AtletaModel.cpf a) (AtletaModel.idade a) (AtletaModel.peso a) x (AtletaModel.sexo a)
        (AtletaModel.created_at a) (AtletaModel.categoria_id a) (AtletaModel.centro_treinamento_id a) in
  let set_sexo x := AtletaModel.mk (AtletaModel.pk_id a) (AtletaModel.id a) (AtletaModel.nome a)
        (AtletaModel.cpf a) (AtletaModel.idade a) (AtletaModel.peso a) (AtletaModel.altura a) x
        (AtletaModel.created_at a) (AtletaModel.categoria_id a) (AtletaModel.centro_treinamento_id a) in
  match k, v with
  | "nome", VStr x => upd (set_nome x)
  | "cpf", VStr x => upd (set_cpf x)
  | "idade", VInt x => upd (set_idade x)
  | "peso", VFloat x => upd (set_peso x)
  | "altura", VFloat x => upd (set_altura x)
  | "sexo", VStr x => upd (set_sexo x)
  | "categoria", VNone => null "categoria_id"
  | "centro_treinamento", VNone => null "centro_treinamento_id"
  | ("categoria" | "centro_treinamento"), VDict _ =>
      inl (Exception "'dict' object has no attribute '_sa_instance_state'")
  | _, VNone => null k
  | _, _ => inr p
  end%string.

(** [for key, value in atleta_update.items(): setattr(atleta, key, value)]. *)
Fixpoint setattrs (p : AtletaModel.t * list string) (kvs : list (string * value))
  : exc + (AtletaModel.t * list string) :=
  match kvs with
  | [] => inr p
  | kv :: kvs' =>
    match setattr p kv with
    | inl e => inl e
    | inr p' => setattrs p' kvs'
    end
  end.

(** The columns of the table [atletas] a payload can write, in the
    table's order, each with whether its value differs between the loaded
    row and the row after the [setattr]s (which never give a foreign key
    a value: a relationship is only ever set to [None]). *)
Definition column_changes (old new : AtletaModel.t) : list (string * bool) :=
  [("nome", bool_decide (AtletaModel.nome old <> AtletaModel.nome new));
   ("cpf", bool_decide (AtletaModel.cpf old <> AtletaModel.cpf new));
   ("idade", bool_decide (AtletaModel.idade old <> AtletaModel.idade new));
   ("peso", bool_decide (AtletaModel.peso old <> AtletaModel.peso new));
   ("altura", bool_decide (AtletaModel.altura old <> AtletaModel.altura new));
   ("sexo", bool_decide (AtletaModel.sexo old <> AtletaModel.sexo new));
   ("categoria_id", false); ("centro_treinamento_id", false)].

(** The columns of the UPDATE that [await db_session.commit()] (line 201)
    flushes: SQLAlchemy writes only the attributes whose value differs
    from the loaded one, and those set to [None], in the table's column
    order; when there is none it sends no UPDATE at all. *)
Definition changed_columns (old new : AtletaModel.t) (nulls : list string) : list string :=
  fst <$> filter (fun cb => cb.1 ∈ nulls \/ cb.2 = true) (column_changes old new).

Definition msg_duplicado_patch : string :=
  "Já existe um atleta com dados duplicados. Verifique se o CPF já não foi cadastrado.".
Definition msg_interno : string :=
  "Ocorreu um erro interno ao processar a solicitação. Tente novamente mais tarde.".

(** [f'...{atleta.cpf}'] (line 211) inside [except IntegrityError]: the
    failed commit rolled the session back and expired every loaded
    object, so reading [atleta.cpf] has to load it again, and the session
    refuses until it is rolled back: the read raises, and its exception is
    not an [HTTPException]. *)
Definition expired_read : exc :=
  Exception "PendingRollbackError: This Session's transaction has been rolled back due to a previous exception during flush.".

(** The [except IntegrityError] / [except Exception] clauses of [patch]
    (lines 204-230): the exception the handler raises for the exception
    [e] of the [try]. *)
Definition patch_error (e : exc) : exc :=
  match e with
  | IntegrityError msg =>
    let error_message := lower msg in
    if contains "cpf" error_message
    then expired_read
    else if contains "unique" error_message
    then HTTPException HTTP_303_SEE_OTHER msg_duplicado_patch
    else HTTPException HTTP_400_BAD_REQUEST ("Erro de validação: " +:+ msg)
  | _ => HTTPException HTTP_500_INTERNAL_SERVER_ERROR msg_interno
  end.

(** The body of the [try] (lines 196-202): the [setattr]s, then [commit]
    (the UPDATE of the changed columns) and [refresh]. *)
Definition patch (env : Env) (id : string) (atleta_up : AtletaUpdate.t) : Py db AtletaModel.t :=
  atleta <- find_atleta id ;;
  match atleta with
  | None => raise (HTTPException HTTP_404_NOT_FOUND (msg_nao_encontrado id))
  | Some atleta =>
    let atleta_update := model_dump_exclude_unset atleta_up in
    match setattrs (atleta, []) atleta_update with
    | inl e => raise (patch_error e)
    | inr (atleta', nulls) =>
      try_except
        (update_atleta (commit_fault env) (changed_columns atleta atleta' nulls) nulls atleta')
        (fun e => raise (patch_error e))
    end
  end.

(** ** [delete]: lines 240-260 *)

Definition delete (env : Env) (id : string) : Py db unit :=
  atleta <- find_atleta id ;;
  match atleta with
  | None => raise (HTTPException HTTP_404_NOT_FOUND (msg_nao_encontrado id))
  | Some atleta =>
    try_except (delete_atleta (commit_fault env) (AtletaModel.pk_id atleta))
               (fun _ => raise (HTTPException HTTP_500_INTERNAL_SERVER_ERROR msg_interno))
  end.

End handlers.
