(* ===== verification/CentroController.v ===== *)
(** * The training-centre handlers ([centro_treinamento/controller.py])

    [post] builds the output and the row from the input, adds and commits
    it inside a [try] whose [except] clauses classify [str(e).lower()];
    [query] lists every row; [get] looks one up by its id. The shapes
    [CentroTreinamentoIn] / [CentroTreinamentoOut] are not under src/ and
    follow the spec: a name, and an id on output. *)

From Stdlib Require Import ZArith.
From stdpp Require Import base list strings option.
From S2P Require Import Prelude Store Schemas AtletaController.

Open Scope workout_scope.

Section handlers.
Context `{Driver}.

Definition msg_centro_nome_existente (nome : string) : string :=
  "Já existe um centro de treinamento cadastrado com o nome: " +:+ nome.
Definition msg_centro_duplicado : string :=
  "Já existe um centro de treinamento com dados duplicados. Verifique se o nome já não foi cadastrado.".

(** The [except IntegrityError] / [except Exception] clauses of [post]. *)
Definition centro_post_error (centro_treinamento_in : CentroTreinamentoIn.t) (e : exc) : exc :=
  match e with
  | IntegrityError msg =>
    let error_message := lower msg in
    if contains "nome" error_message
    then HTTPException HTTP_303_SEE_OTHER
                       (msg_centro_nome_existente (CentroTreinamentoIn.nome centro_treinamento_in))
    else if contains "unique" error_message
    then HTTPException HTTP_303_SEE_OTHER msg_centro_duplicado
    else HTTPException HTTP_400_BAD_REQUEST ("Erro de validação: " +:+ msg)
  | _ => HTTPException HTTP_500_INTERNAL_SERVER_ERROR msg_interno
  end.

(** [CentroTreinamentoOut(id=uuid4(), **centro_treinamento_in.model_dump())]
    then [CentroTreinamentoModel( **centro_treinamento_out.model_dump())],
    [add] and [commit]. *)
Definition centro_post (env : Env) (centro_treinamento_in : CentroTreinamentoIn.t)
  : Py db CentroTreinamentoOut.t :=
  try_except
    (let centro_treinamento_out :=
       CentroTreinamentoOut.mk (uuid4 env) (CentroTreinamentoIn.nome centro_treinamento_in) in
     insert_centro (commit_fault env)
       (CentroTreinamentoModel.mk 0 (CentroTreinamentoOut.id centro_treinamento_out)
                                    (CentroTreinamentoOut.nome centro_treinamento_out)) ;;
     ret centro_treinamento_out)
    (fun e => raise (centro_post_error centro_treinamento_in e)).

Definition centro_out (c : CentroTreinamentoModel.t) : CentroTreinamentoOut.t :=
  CentroTreinamentoOut.mk (CentroTreinamentoModel.id c) (CentroTreinamentoModel.nome c).

Definition centro_query : Py db (list CentroTreinamentoOut.t) :=
  gets (fun s => centro_out <$> centros_treinamento s).

Definition centro_get (id : string) : Py db CentroTreinamentoOut.t :=
  centro <- gets (fun s => first (fun c => CentroTreinamentoModel.id c = id) (centros_treinamento s)) ;;
  match centro with
  | None => raise (HTTPException HTTP_404_NOT_FOUND
                     ("Centro de treinamento não encontrado no id: " +:+ id))
  | Some c => ret (centro_out c)
  end.

End handlers.
