(* ===== verification/CategoriaController.v ===== *)
(** * The category handlers (spec, section 4.4)

    [categorias/controller.py] is not under src/: these handlers follow the
    spec's description of the category workflow, in the shape of the
    training-centre handlers the repository does show: create (insert and
    commit; a uniqueness violation by name is the duplicate signal 303,
    another integrity failure 400, anything else 500), list every row, get
    one by id (404 when absent). The details' wording is not known and is
    written here in the style of the other handlers. *)

From Stdlib Require Import ZArith.
From stdpp Require Import base list strings option.
From S2P Require Import Prelude Store Schemas AtletaController.

Open Scope workout_scope.

Section handlers.
Context `{Driver}.

Definition categoria_post_error (categoria_in : CategoriaIn.t) (e : exc) : exc :=
  match e with
  | IntegrityError msg =>
    let error_message := lower msg in
    if contains "nome" error_message || contains "unique" error_message
    then HTTPException HTTP_303_SEE_OTHER
                       ("Já existe uma categoria cadastrada com o nome: " +:+ CategoriaIn.nome categoria_in)
    else HTTPException HTTP_400_BAD_REQUEST ("Erro de validação: " +:+ msg)
  | _ => HTTPException HTTP_500_INTERNAL_SERVER_ERROR msg_interno
  end.

Definition categoria_post (env : Env) (categoria_in : CategoriaIn.t) : Py db CategoriaOut.t :=
  try_except
    (let categoria_out := CategoriaOut.mk (uuid4 env) (CategoriaIn.nome categoria_in) in
     insert_categoria (commit_fault env)
       (CategoriaModel.mk 0 (CategoriaOut.id categoria_out) (CategoriaOut.nome categoria_out)) ;;
     ret categoria_out)
    (fun e => raise (categoria_post_error categoria_in e)).

Definition categoria_out (c : CategoriaModel.t) : CategoriaOut.t :=
  CategoriaOut.mk (CategoriaModel.id c) (CategoriaModel.nome c).

Definition categoria_query : Py db (list CategoriaOut.t) :=
  gets (fun s => categoria_out <$> categorias s).

Definition categoria_get (id : string) : Py db CategoriaOut.t :=
  categoria <- gets (fun s => first (fun c => CategoriaModel.id c = id) (categorias s)) ;;
  match categoria with
  | None => raise (HTTPException HTTP_404_NOT_FOUND ("Categoria não encontrada no id: " +:+ id))
  | Some c => ret (categoria_out c)
  end.

End handlers.
