(* ===== verification/Fixtures.v ===== *)
(** * Sample data for the concrete runs

    A store with one category and one training centre, sample requests and
    request environments; the witnesses evaluate the handlers on them. *)

From Stdlib Require Import ZArith SpecFloat.
From stdpp Require Import base list strings option.
From S2P Require Import Prelude Store Schemas AtletaController.

Open Scope workout_scope.

Definition cat_scale : CategoriaModel.t := CategoriaModel.mk 0 "c-0001" "Scale".
Definition ct_king : CentroTreinamentoModel.t := CentroTreinamentoModel.mk 0 "t-0001" "CT King".

(** The store before any athlete. *)
Definition s0 : db := mkdb [cat_scale] [ct_king] [] 1 1 0.

(** 75.5 and 1.75 as binary64 values. *)
Definition f75_5 : float := S754_finite false 151 (-1).
Definition f1_75 : float := S754_finite false 7 (-2).

Definition joao : AtletaIn.t :=
  AtletaIn.mk "Joao" "12345678901" 25 f75_5 f1_75 "M"
              (CategoriaIn.mk "Scale") (CentroTreinamentoIn.mk "CT King").

Definition env1 : Env := mkenv "a-0001" "2024-05-01T10:00:00+00:00" None.
Definition env2 : Env := mkenv "a-0002" "2024-05-01T10:05:00+00:00" None.

(** The row [post] stores for [joao] in [s0]. *)
Definition joao_row : AtletaModel.t :=
  AtletaModel.mk 0 "a-0001" "Joao" "12345678901" 25 f75_5 f1_75 "M"
                 "2024-05-01T10:00:00+00:00" 0 0.

(** The store after [joao] was created. *)
Definition s1 : db := mkdb [cat_scale] [ct_king] [joao_row] 1 1 1.

(** Joao's CPF under another name; and an athlete of an unknown category. *)
Definition joao_cpf_again : AtletaIn.t :=
  AtletaIn.mk "Joao Pedro" "12345678901" 27 f75_5 f1_75 "M"
              (CategoriaIn.mk "Scale") (CentroTreinamentoIn.mk "CT King").

Definition ana_rx : AtletaIn.t :=
  AtletaIn.mk "Ana" "11122233344" 22 f75_5 f1_75 "F"
              (CategoriaIn.mk "RX") (CentroTreinamentoIn.mk "CT King").

(** [{"idade": 26}], [{"categoria": {"nome": "RX"}}]. *)
Definition idade_26 : AtletaUpdate.t := AtletaUpdate.mk None None (Some (Some 26%Z)) None None None None None.
Definition categoria_rx : AtletaUpdate.t :=
  AtletaUpdate.mk None None None None None None (Some (Some (CategoriaIn.mk "RX"))) None.

(** The store after Joao and Maria are created. *)
Definition maria_row : AtletaModel.t :=
  AtletaModel.mk 1 "a-0002" "Maria" "98765432100" 31 f75_5 f1_75 "F"
                 "2024-05-01T10:05:00+00:00" 0 0.

Definition s2 : db := mkdb [cat_scale] [ct_king] [joao_row; maria_row] 1 1 2.

(** The payload [{"nome": "Joao", "cpf": "98765432100"}]: Maria's own CPF. *)
Definition nome_joao_cpf_maria : AtletaUpdate.t :=
  AtletaUpdate.mk (Some (Some "Joao")) (Some (Some "98765432100")) None None None None None None.
