(* ===== verification/AtletaTheory.v ===== *)
(** * What the athlete handlers do

    Branch by branch behaviour of [post], [get], [patch], [delete] and
    [query] on a committed state, the store invariant kept by each of them,
    the columns of [patch]'s UPDATE, and the findings the model shows (the
    classification of [str(e)] and the read of the expired object in
    [patch]'s CPF branch, the unescaped [ILIKE] pattern, the validation of
    [AtletaOut]: its [str] fields and its nested output models). *)

From Stdlib Require Import ZArith.
From stdpp Require Import base list strings option.
From S2P Require Import Prelude Store Schemas Like AtletaController Fixtures.

Open Scope workout_scope.

(** Rewrite an [atleta_violation] of the goal to [None], leaving its
    premises (fresh id, name, CPF; existing foreign keys). *)
Ltac no_violation :=
  match goal with
  | |- context [atleta_violation ?s ?rows ?r] =>
    rewrite (proj2 (atleta_violation_None s rows r))
  end.

(** ** What a partial update means

    The row with every field the payload sends replaced by the value sent,
    the others untouched: spec 4.2, "apply only the fields explicitly
    present". *)
Definition upd_or {A} (old : A) (o : option (option A)) : A :=
  match o with Some (Some v) => v | _ => old end.

Definition merge (a : AtletaModel.t) (u : AtletaUpdate.t) : AtletaModel.t :=
  AtletaModel.mk (AtletaModel.pk_id a) (AtletaModel.id a)
    (upd_or (AtletaModel.nome a) (AtletaUpdate.nome u))
    (upd_or (AtletaModel.cpf a) (AtletaUpdate.cpf u))
    (upd_or (AtletaModel.idade a) (AtletaUpdate.idade u))
    (upd_or (AtletaModel.peso a) (AtletaUpdate.peso u))
    (upd_or (AtletaModel.altura a) (AtletaUpdate.altura u))
    (upd_or (AtletaModel.sexo a) (AtletaUpdate.sexo u))
    (AtletaModel.created_at a) (AtletaModel.categoria_id a)
    (AtletaModel.centro_treinamento_id a).

(** A payload that sends no [null] and no nested category or centre. *)
Definition scalar_update (u : AtletaUpdate.t) : Prop :=
  AtletaUpdate.nome u <> Some None /\ AtletaUpdate.cpf u <> Some None /\
  AtletaUpdate.idade u <> Some None /\ AtletaUpdate.peso u <> Some None /\
  AtletaUpdate.altura u <> Some None /\ AtletaUpdate.sexo u <> Some None /\
  AtletaUpdate.categoria u = None /\ AtletaUpdate.centro_treinamento u = None.

(** ** What a filter of the list means (spec 4.3)

    An optional query text filters when Python finds it true (present and
    not empty): the column then contains it, ignoring case. A filter is
    [plain] when its text holds no [LIKE] wildcard or escape. *)
Definition filter_holds (o : option string) (x : string) : Prop :=
  match truthy o with Some n => contains (lower n) (lower x) = true | None => True end.

#[global] Instance filter_holds_dec o x : Decision (filter_holds o x).
Proof. unfold filter_holds. destruct (truthy o); apply _. Defined.

Definition plain_filter (o : option string) : Prop :=
  match o with Some n => plain (lower n) = true | None => True end.

Section post.
Context `{Driver} `{Validator}.

(** The four ways the pre-checks refuse, in their order. *)
Lemma post_prechecks_no_categoria (a : AtletaIn.t) (s : db) :
  CategoriaIn.nome (AtletaIn.categoria a) ∉ CategoriaModel.nome <$> categorias s ->
  post_prechecks a s =
  (inl (HTTPException HTTP_400_BAD_REQUEST
          ("A categoria " +:+ CategoriaIn.nome (AtletaIn.categoria a) +:+ " não foi encontrada.")), s).
Proof. intros Hc%first_key_None. unfold post_prechecks. py_unfold. by rewrite Hc. Qed.

Lemma post_prechecks_dup_cpf (a : AtletaIn.t) (s : db) :
  CategoriaIn.nome (AtletaIn.categoria a) ∈ CategoriaModel.nome <$> categorias s ->
  CentroTreinamentoIn.nome (AtletaIn.centro_treinamento a) ∈
    CentroTreinamentoModel.nome <$> centros_treinamento s ->
  AtletaIn.cpf a ∈ AtletaModel.cpf <$> atletas s ->
  post_prechecks a s =
  (inl (HTTPException HTTP_303_SEE_OTHER (msg_cpf_existente (AtletaIn.cpf a))), s).
Proof.
  intros [c Hc]%first_key_is_Some [t Ht]%first_key_is_Some [x Hx]%first_key_is_Some.
  unfold post_prechecks. py_unfold. by rewrite Hc, Ht, Hx.
Qed.

(** C2: an athlete whose category name does not exist is refused with 400,
    the detail naming that category, and the store is left as it was. *)
Theorem post_missing_categoria (env : Env) (a : AtletaIn.t) (s : db) :
  CategoriaIn.nome (AtletaIn.categoria a) ∉ CategoriaModel.nome <$> categorias s ->
  serve HTTP_201_CREATED (post env a) s =
  (Err HTTP_400_BAD_REQUEST
       ("A categoria " +:+ CategoriaIn.nome (AtletaIn.categoria a) +:+ " não foi encontrada."),
   s).
Proof. intros Hc. unfold serve, post, bind. by rewrite post_prechecks_no_categoria. Qed.

(** C1: an athlete whose CPF is already stored (with an existing category
    and centre) is refused with 303 citing that CPF, and no row is added:
    the store is left as it was. *)
Theorem post_duplicate_cpf (env : Env) (a : AtletaIn.t) (s : db) :
  CategoriaIn.nome (AtletaIn.categoria a) ∈ CategoriaModel.nome <$> categorias s ->
  CentroTreinamentoIn.nome (AtletaIn.centro_treinamento a) ∈
    CentroTreinamentoModel.nome <$> centros_treinamento s ->
  AtletaIn.cpf a ∈ AtletaModel.cpf <$> atletas s ->
  serve HTTP_201_CREATED (post env a) s =
  (Err HTTP_303_SEE_OTHER (msg_cpf_existente (AtletaIn.cpf a)), s).
Proof. intros Hc Ht Hx. unfold serve, post, bind. by rewrite post_prechecks_dup_cpf. Qed.

End post.

Section patch.
Context `{Driver}.

(** The [setattr] loop applies a payload of plain values field by field:
    its result is [merge]. *)
Lemma setattrs_merge (a : AtletaModel.t) (u : AtletaUpdate.t) :
  scalar_update u -> setattrs (a, []) (model_dump_exclude_unset u) = inr (merge a u, []).
Proof.
  destruct a, u as [n c i p al sx cat ct]. unfold scalar_update. simpl.
  intros (Hn & Hc & Hi & Hp & Hal & Hsx & -> & ->).
  destruct n as [[n|]|], c as [[c|]|], i as [[i|]|], p as [[p|]|], al as [[al|]|],
    sx as [[sx|]|]; first [congruence | reflexivity].
Qed.

(** A column a stored row and its copy agree on is not written. *)
Lemma bool_decide_neq_refl {A} `{EqDecision A} (x : A) : bool_decide (x <> x) = false.
Proof. apply bool_decide_eq_false_2. tauto. Qed.

(** With no column set to [None], a column whose value differs is in the
    UPDATE, so an empty UPDATE means no value differs. *)
Lemma changed_columns_nil_elem (old new : AtletaModel.t) (c : string) (b : bool) :
  changed_columns old new [] = [] -> (c, b) ∈ column_changes old new -> b = false.
Proof.
  intros Hnil%fmap_nil_inv Hin. destruct b; [|done]. exfalso.
  by eapply (filter_nil_not_elem_of _ _ (c, true) Hnil); [right|].
Qed.

Lemma changed_columns_nil (old new : AtletaModel.t) :
  changed_columns old new [] = [] ->
  AtletaModel.nome old = AtletaModel.nome new /\ AtletaModel.cpf old = AtletaModel.cpf new /\
  AtletaModel.idade old = AtletaModel.idade new /\ AtletaModel.peso old = AtletaModel.peso new /\
  AtletaModel.altura old = AtletaModel.altura new /\ AtletaModel.sexo old = AtletaModel.sexo new.
Proof.
  intros Hnil. pose proof (fun c b => changed_columns_nil_elem old new c b Hnil) as Hf.
  unfold column_changes in Hf.
  split_and!; apply dec_stable, (proj1 (bool_decide_eq_false _)); eapply Hf;
    repeat first [apply list_elem_of_here | apply list_elem_of_further].
Qed.

(** A payload that changes nothing leaves the merged row equal to the
    stored one. *)
Lemma merge_unchanged (a : AtletaModel.t) (u : AtletaUpdate.t) :
  changed_columns a (merge a u) [] = [] -> merge a u = a.
Proof.
  intros Hnil%changed_columns_nil. destruct a. unfold merge in *. cbn in *.
  destruct_and!. f_equal; congruence.
Qed.

(** The commit of a [patch] of plain values that breaks no constraint: the
    row is written back (when nothing changed no UPDATE is sent, and the
    table is as it was). *)
Lemma patch_ok (env : Env) (s : db) (a : AtletaModel.t) (u : AtletaUpdate.t) :
  wf s -> a ∈ atletas s -> scalar_update u -> commit_fault env = None ->
  in_int32 (AtletaModel.idade (merge a u)) = true ->
  AtletaModel.nome (merge a u) ∉
    AtletaModel.nome <$> others AtletaModel.pk_id (AtletaModel.pk_id a) (atletas s) ->
  AtletaModel.cpf (merge a u) ∉
    AtletaModel.cpf <$> others AtletaModel.pk_id (AtletaModel.pk_id a) (atletas s) ->
  patch env (AtletaModel.id a) u s =
  (inr (merge a u),
   set_atletas s (replace_row AtletaModel.pk_id (AtletaModel.pk_id a) (merge a u) (atletas s))
               (seq_atletas s)).
Proof.
  intros Hwf Ha Hu Hf Hi Hn Hc.
  pose proof (first_key_unique _ _ _ _ (wf_atletas_id s Hwf) Ha eq_refl) as Hfind.
  pose proof (wf_atletas_fk s Hwf) as Hfk. eapply list.Forall_forall in Hfk; [|exact Ha].
  unfold patch, find_atleta. py_unfold. rewrite Hfind, (setattrs_merge a u Hu).
  unfold update_atleta. rewrite Hf. case_bool_decide as Hnil.
  - rewrite (merge_unchanged a u Hnil), replace_row_same; [by destruct s| |done].
    exact (proj1 (wf_atletas_keyed s Hwf)).
  - rewrite Hi. simpl.
    rewrite decide_False by (intros []; by eapply list_elem_of_fmap_2').
    no_violation; [done|]. split_and!; try done.
    exact (others_id_gone _ _ (wf_atletas_id s Hwf) Ha).
Qed.

(** C5: [get], [patch] and [delete] of an id no stored athlete has answer
    404 with the id in the detail, and leave the store as it was. *)
Theorem unknown_id_404 (env : Env) (id : string) (u : AtletaUpdate.t) (s : db) :
  id ∉ AtletaModel.id <$> atletas s ->
  serve HTTP_200_OK (get id) s = (Err HTTP_404_NOT_FOUND (msg_nao_encontrado id), s) /\
  serve HTTP_200_OK (patch env id u) s = (Err HTTP_404_NOT_FOUND (msg_nao_encontrado id), s) /\
  serve HTTP_204_NO_CONTENT (delete env id) s = (Err HTTP_404_NOT_FOUND (msg_nao_encontrado id), s).
Proof.
  intros Hid%first_key_None.
  split_and!; unfold serve, get, patch, delete, find_atleta; py_unfold; by rewrite Hid.
Qed.

(** Assigning the dumped dict of a nested category to the relationship
    raises, whatever the plain fields before it. *)
Lemma setattrs_nested_categoria (a : AtletaModel.t) (u : AtletaUpdate.t) (c : CategoriaIn.t) :
  AtletaUpdate.categoria u = Some (Some c) ->
  setattrs (a, []) (model_dump_exclude_unset u) =
  inl (Exception "'dict' object has no attribute '_sa_instance_state'").
Proof.
  destruct a, u as [n cp i p al sx cat ct]. simpl. intros ->.
  destruct n as [[n|]|], cp as [[cp|]|], i as [[i|]|], p as [[p|]|], al as [[al|]|],
    sx as [[sx|]|]; reflexivity.
Qed.

(** C6: a [patch] that sends a category (spec 4.2 lets a partial update
    carry any field of [AtletaUpdate]) answers 500: the [setattr] of the
    dumped dict on the relationship raises inside the [try], and
    [except Exception] answers with the opaque internal error; the store is
    left as it was. *)
Theorem patch_nested_categoria_500 (env : Env) (s : db) (a : AtletaModel.t)
    (u : AtletaUpdate.t) (c : CategoriaIn.t) :
  wf s -> a ∈ atletas s -> AtletaUpdate.categoria u = Some (Some c) ->
  serve HTTP_200_OK (patch env (AtletaModel.id a) u) s =
  (Err HTTP_500_INTERNAL_SERVER_ERROR msg_interno, s).
Proof.
  intros Hwf Ha Hc.
  pose proof (first_key_unique _ _ _ _ (wf_atletas_id s Hwf) Ha eq_refl) as Hfind.
  unfold serve, patch, find_atleta. py_unfold. by rewrite Hfind, (setattrs_nested_categoria a u c Hc).
Qed.

End patch.

(** The payload [{"cpf": null}]. *)
Definition cpf_null : AtletaUpdate.t := AtletaUpdate.mk None (Some None) None None None None None None.

(** The payload [{"cpf": "12345678901"}], Joao's CPF. *)
Definition cpf_joao : AtletaUpdate.t :=
  AtletaUpdate.mk None (Some (Some "12345678901")) None None None None None None.

(** The payload [{"idade": n}]. *)
Definition idade_update (n : Z) : AtletaUpdate.t :=
  AtletaUpdate.mk None None (Some (Some n)) None None None None None.

(** The UPDATE of a row whose only change is [cpf] set to [None] writes
    that column alone. *)
Lemma changed_columns_cpf_null (a : AtletaModel.t) : changed_columns a a ["cpf"] = ["cpf"].
Proof. unfold changed_columns, column_changes. rewrite !bool_decide_neq_refl. reflexivity. Qed.

(** The UPDATE of a new age writes that column alone. *)
Lemma changed_columns_idade (a : AtletaModel.t) (n : Z) :
  n <> AtletaModel.idade a ->
  changed_columns a (AtletaModel.mk (AtletaModel.pk_id a) (AtletaModel.id a) (AtletaModel.nome a)
       (AtletaModel.cpf a) n (AtletaModel.peso a) (AtletaModel.altura a) (AtletaModel.sexo a)
       (AtletaModel.created_at a) (AtletaModel.categoria_id a) (AtletaModel.centro_treinamento_id a))
    [] = ["idade"].
Proof.
  intros Hn. unfold changed_columns, column_changes. cbn [AtletaModel.nome AtletaModel.cpf
    AtletaModel.idade AtletaModel.peso AtletaModel.altura AtletaModel.sexo].
  rewrite !bool_decide_neq_refl, bool_decide_eq_true_2 by congruence. reflexivity.
Qed.

(** SQLAlchemy's text for a name clash of an UPDATE that leaves the CPF as
    it was names no [cpf]: whichever other columns change, the [except]
    clause takes its generic duplicate branch. *)
Lemma patch_error_nome_clash (old new : AtletaModel.t) :
  AtletaModel.cpf new = AtletaModel.cpf old ->
  patch_error (IntegrityError (@integrity_message sqlalchemy_psycopg (UniqueViolation atletas_t "nome")
                 (Update atletas_t (changed_columns old new [])))) =
  HTTPException HTTP_303_SEE_OTHER msg_duplicado_patch.
Proof.
  intros Hc. unfold changed_columns, column_changes. rewrite Hc, bool_decide_neq_refl.
  repeat match goal with |- context [bool_decide (?x <> ?y)] => destruct (bool_decide (x <> y)) end;
    vm_compute; reflexivity.
Qed.

(** SQLAlchemy's text for a CPF clash of an UPDATE names the [cpf_key]
    index: the [except] clause takes its CPF branch, whose detail reads the
    expired object. *)
Lemma patch_error_cpf_clash (cols : list string) :
  patch_error (IntegrityError (@integrity_message sqlalchemy_psycopg (UniqueViolation atletas_t "cpf")
                 (Update atletas_t cols))) = expired_read.
Proof.
  unfold patch_error. cbn [integrity_message sqlalchemy_psycopg].
  rewrite !lower_app. replace (contains "cpf" _) with true; [done|].
  symmetry. apply contains_app_l. vm_compute. reflexivity.
Qed.

Section patch_findings.
Context `{Driver}.

(** C12: with SQLAlchemy's [str(e)], a [patch] that sets the CPF to [null]
    is refused by the NOT NULL constraint, and because the message names
    the [cpf] column the [except IntegrityError] clause formats its detail
    from [atleta.cpf]; the failed commit has expired that object, the read
    raises, and the client gets FastAPI's bare 500 instead of a 303 or a
    validation error. The store is left as it was. *)
Theorem patch_cpf_null_500 (env : Env) (s : db) (a : AtletaModel.t) :
  wf s -> a ∈ atletas s -> commit_fault env = None ->
  serve HTTP_200_OK (@patch sqlalchemy_psycopg env (AtletaModel.id a) cpf_null) s =
  (Err HTTP_500_INTERNAL_SERVER_ERROR "Internal Server Error", s).
Proof.
  intros Hwf Ha Hf.
  pose proof (first_key_unique _ _ _ _ (wf_atletas_id s Hwf) Ha eq_refl) as Hfind.
  pose proof (wf_atletas_idade s Hwf) as Hi. eapply list.Forall_forall in Hi; [|exact Ha].
  unfold serve, patch, find_atleta. py_unfold. rewrite Hfind. simpl.
  rewrite changed_columns_cpf_null. unfold update_atleta. rewrite Hf, Hi. simpl.
  rewrite decide_False by (intros []; by eapply list_elem_of_fmap_2'). reflexivity.
Qed.

(** C13: with SQLAlchemy's [str(e)], a [patch] of plain values that gives
    an athlete another athlete's CPF (and a name of no other athlete) is
    refused by the unique index on [cpf]; the [except IntegrityError]
    clause takes its CPF branch, whose detail reads [atleta.cpf] from the
    object the failed commit expired: the read raises, and the client gets
    FastAPI's bare 500 instead of the intended 303 "CPF already
    registered". The store is left as it was. *)
Theorem patch_duplicate_cpf_500 (env : Env) (s : db) (a : AtletaModel.t) (u : AtletaUpdate.t) :
  wf s -> a ∈ atletas s -> scalar_update u -> commit_fault env = None ->
  in_int32 (AtletaModel.idade (merge a u)) = true ->
  AtletaModel.nome (merge a u) ∉
    AtletaModel.nome <$> others AtletaModel.pk_id (AtletaModel.pk_id a) (atletas s) ->
  AtletaModel.cpf (merge a u) ∈
    AtletaModel.cpf <$> others AtletaModel.pk_id (AtletaModel.pk_id a) (atletas s) ->
  serve HTTP_200_OK (@patch sqlalchemy_psycopg env (AtletaModel.id a) u) s =
  (Err HTTP_500_INTERNAL_SERVER_ERROR "Internal Server Error", s).
Proof.
  intros Hwf Ha Hu Hf Hi Hn Hc.
  pose proof (first_key_unique _ _ _ _ (wf_atletas_id s Hwf) Ha eq_refl) as Hfind.
  pose proof (others_id_gone _ _ (wf_atletas_id s Hwf) Ha) as Hgone.
  unfold serve, patch, find_atleta. py_unfold. rewrite Hfind, (setattrs_merge a u Hu).
  unfold update_atleta. rewrite Hf. case_bool_decide as Hnil.
  - exfalso. rewrite (merge_unchanged a u Hnil) in Hc.
    apply (others_col_gone AtletaModel.cpf _ _ (wf_atletas_cpf s Hwf) Ha Hc).
  - rewrite Hi. simpl.
    rewrite decide_False by (intros []; by eapply list_elem_of_fmap_2').
    unfold atleta_violation.
    rewrite decide_False by (rewrite first_key_is_Some; exact Hgone).
    rewrite decide_False by (rewrite first_key_is_Some; exact Hn).
    rewrite decide_True by (by rewrite first_key_is_Some).
    match goal with |- context [patch_error (IntegrityError ?m)] =>
      rewrite (patch_error_cpf_clash _ : patch_error (IntegrityError m) = _) end.
    reflexivity.
Qed.

(** C14: with SQLAlchemy's [str(e)], a [patch] of plain values that keeps
    the athlete's CPF but gives it another athlete's name is refused by
    the unique index on [nome]; the UPDATE writes only the changed columns,
    so the message names no [cpf] and the client gets 303 with the generic
    duplicate message. The store is left as it was. *)
Theorem patch_nome_clash_303 (env : Env) (s : db) (a : AtletaModel.t) (u : AtletaUpdate.t) :
  wf s -> a ∈ atletas s -> scalar_update u -> commit_fault env = None ->
  AtletaModel.cpf (merge a u) = AtletaModel.cpf a ->
  in_int32 (AtletaModel.idade (merge a u)) = true ->
  AtletaModel.nome (merge a u) ∈
    AtletaModel.nome <$> others AtletaModel.pk_id (AtletaModel.pk_id a) (atletas s) ->
  serve HTTP_200_OK (@patch sqlalchemy_psycopg env (AtletaModel.id a) u) s =
  (Err HTTP_303_SEE_OTHER msg_duplicado_patch, s).
Proof.
  intros Hwf Ha Hu Hf Hc Hi Hn.
  pose proof (first_key_unique _ _ _ _ (wf_atletas_id s Hwf) Ha eq_refl) as Hfind.
  pose proof (others_id_gone _ _ (wf_atletas_id s Hwf) Ha) as Hgone.
  unfold serve, patch, find_atleta. py_unfold. rewrite Hfind, (setattrs_merge a u Hu).
  unfold update_atleta. rewrite Hf. case_bool_decide as Hnil.
  - exfalso. rewrite (merge_unchanged a u Hnil) in Hn.
    apply (others_col_gone AtletaModel.nome _ _ (wf_atletas_nome s Hwf) Ha Hn).
  - rewrite Hi. simpl.
    rewrite decide_False by (intros []; by eapply list_elem_of_fmap_2').
    unfold atleta_violation.
    rewrite decide_False by (rewrite first_key_is_Some; exact Hgone).
    rewrite decide_True by (by rewrite first_key_is_Some).
    match goal with |- context [patch_error (IntegrityError ?m)] =>
      rewrite (patch_error_nome_clash a (merge a u) Hc : patch_error (IntegrityError m) = _) end.
    reflexivity.
Qed.

(** C15: an age outside the 32-bit [INTEGER] column, sent by a [patch] of
    a stored athlete, makes the UPDATE fail with a [DataError] (not an
    [IntegrityError]), which [except Exception] answers with 500; the store
    is left as it was. *)
Theorem patch_idade_out_of_range (env : Env) (s : db) (a : AtletaModel.t) (n : Z) :
  wf s -> a ∈ atletas s -> commit_fault env = None -> in_int32 n = false ->
  serve HTTP_200_OK (patch env (AtletaModel.id a) (idade_update n)) s =
  (Err HTTP_500_INTERNAL_SERVER_ERROR msg_interno, s).
Proof.
  intros Hwf Ha Hf Hn.
  pose proof (first_key_unique _ _ _ _ (wf_atletas_id s Hwf) Ha eq_refl) as Hfind.
  pose proof (wf_atletas_idade s Hwf) as Hi. eapply list.Forall_forall in Hi; [|exact Ha].
  unfold serve, patch, find_atleta. py_unfold. rewrite Hfind. simpl.
  rewrite changed_columns_idade by congruence. unfold update_atleta. rewrite Hf.
  cbn [AtletaModel.idade]. rewrite Hn. reflexivity.
Qed.

End patch_findings.

Section invariant.
Context `{Driver} `{Validator}.

Lemma post_insert_wf (env : Env) (a : AtletaIn.t) cat ct : preserves wf (post_insert env a cat ct).
Proof. unfold post_insert. preserves_tac; eauto with workout. Qed.

Lemma post_wf (env : Env) (a : AtletaIn.t) : preserves wf (post env a).
Proof. unfold post, post_prechecks. preserves_tac; eauto using post_insert_wf with workout. Qed.

Lemma get_wf (id : string) : preserves wf (get id).
Proof. unfold get, find_atleta. preserves_tac. Qed.

Lemma query_wf (nome cpf : option string) : preserves wf (query nome cpf).
Proof. apply preserves_gets. Qed.

Lemma patch_wf (env : Env) (id : string) (u : AtletaUpdate.t) : preserves wf (patch env id u).
Proof. unfold patch, find_atleta. preserves_tac; eauto with workout. Qed.

Lemma delete_wf (env : Env) (id : string) : preserves wf (delete env id).
Proof. unfold delete, find_atleta. preserves_tac; eauto with workout. Qed.

End invariant.

#[export] Hint Resolve post_wf get_wf query_wf patch_wf delete_wf : workout.

Section query.
Context `{Driver} `{Validator}.

(** C4: listing with filters whose texts hold no [LIKE] wildcard or escape
    returns, in store order, the summaries of exactly the athletes whose
    name contains the [nome] text and whose CPF contains the [cpf] text,
    ignoring case, an absent or empty text filtering nothing; the store is
    not changed. *)
Theorem query_filters (nome cpf : option string) (s : db) :
  plain_filter nome -> plain_filter cpf ->
  query nome cpf s =
  (inr (atleta_list_out s <$>
          filter (fun a => filter_holds nome (AtletaModel.nome a) /\
                           filter_holds cpf (AtletaModel.cpf a)) (atletas s)),
   s).
Proof.
  intros Hn Hc. unfold query, gets. do 3 f_equal.
  apply list_filter_iff. intros a. unfold query_filter, filter_holds. rewrite andb_true_iff.
  destruct nome as [[|x n]|], cpf as [[|y c]|]; cbn [truthy plain_filter] in *;
    rewrite ?ilike_contains_pattern by done; intuition.
Qed.

(** C16: on a consistent store, the summary [query] gives of a stored
    athlete is its name with the names of the training-centre row and the
    category row its foreign keys designate; the empty-string fallback of
    the code is never taken. *)
Theorem atleta_list_out_fk (s : db) (a : AtletaModel.t) :
  wf s -> a ∈ atletas s ->
  exists (c : CategoriaModel.t) (t : CentroTreinamentoModel.t),
    c ∈ categorias s /\ CategoriaModel.pk_id c = AtletaModel.categoria_id a /\
    t ∈ centros_treinamento s /\
    CentroTreinamentoModel.pk_id t = AtletaModel.centro_treinamento_id a /\
    atleta_list_out s a =
    AtletaListOut.mk (AtletaModel.nome a) (CentroTreinamentoModel.nome t) (CategoriaModel.nome c).
Proof.
  intros Hwf Ha.
  pose proof (wf_atletas_fk s Hwf) as Hfk. eapply list.Forall_forall in Hfk; [|exact Ha].
  destruct Hfk as [(c & Hc & Hcin)%list_elem_of_fmap (t & Ht & Htin)%list_elem_of_fmap].
  exists c, t. split_and!; [done..|].
  destruct (wf_categorias_keyed s Hwf) as [Hcnd _], (wf_centros_keyed s Hwf) as [Htnd _].
  unfold atleta_list_out, categoria_of, centro_of.
  rewrite (first_key_unique _ _ _ _ Hcnd Hcin (eq_sym Hc)).
  by rewrite (first_key_unique _ _ _ _ Htnd Htin (eq_sym Ht)).
Qed.

End query.

Section underscore.
Context `{Driver} `{Validator}.

(** C17: the filter text is put into the pattern unescaped, so a [_] in it
    matches any one character: for a plain text [x], listing with the name
    filter [x_] returns, in store order, the summaries of exactly the
    athletes whose name contains [x] followed by some character, ignoring
    case (the name [Joao] for [J_]), not those whose name contains [x_]. *)
Theorem query_underscore (x : string) (s : db) :
  plain (lower x) = true ->
  query (Some (x +:+ "_")) None s =
  (inr (atleta_list_out s <$>
          filter (fun a => contains_then (lower x) (lower (AtletaModel.nome a)) = true) (atletas s)),
   s).
Proof.
  intros Hx. unfold query, gets. do 3 f_equal.
  apply list_filter_iff. intros a. unfold query_filter.
  replace (truthy (Some (x +:+ "_"))) with (Some (x +:+ "_")) by (by destruct x).
  rewrite ilike_contains_usc_pattern by done. cbn. by rewrite andb_true_r.
Qed.

End underscore.

Section findings.
Context `{Driver}.

(** The pre-checks of [post] only read the store. *)
Lemma post_prechecks_state `{Validator} (a : AtletaIn.t) (s : db) : (post_prechecks a s).2 = s.
Proof. unfold post_prechecks. py_unfold. by repeat case_match. Qed.

(** When [AtletaOut] cannot be built, [post] creates nothing: every request
    is answered by an error (500 once the checks pass), the store unchanged. *)
Lemma post_never_creates `{Validator} (env : Env) (a : AtletaIn.t) (s : db) :
  atleta_out_of (PyUUID (uuid4 env)) (PyDatetime (now_utc env)) a = None ->
  exists c d, serve HTTP_201_CREATED (post env a) s = (Err c d, s) /\ c <> HTTP_201_CREATED.
Proof.
  intros Hout. pose proof (post_prechecks_state a s) as Hs.
  unfold serve, post, bind.
  destruct (post_prechecks a s) as [[e|[cat ct]] s'] eqn:E; simpl in Hs; subst s'.
  - revert E. unfold post_prechecks. py_unfold.
    repeat case_match; intros; simplify_eq; eexists _, _; split; done.
  - unfold post_insert, try_except, raise. rewrite Hout. simpl. eexists _, _. split; done.
Qed.

(** C9: with a validator that, like pydantic 2, takes only a [str] for
    [AtletaOut.id], [post] never creates an athlete, whatever it does with
    the other fields: the [UUID] of [uuid4()] is refused, the
    [ValidationError] is caught by [except Exception], and every request
    is answered by an error (500 once the checks pass) leaving the store as
    it was. *)
Theorem post_uuid_id_never_creates `{Validator} (env : Env) (a : AtletaIn.t) (s : db) :
  validate_str (PyUUID (uuid4 env)) = None ->
  exists c d, serve HTTP_201_CREATED (post env a) s = (Err c d, s) /\ c <> HTTP_201_CREATED.
Proof. intros Hi. apply post_never_creates. unfold atleta_out_of. by rewrite Hi. Qed.

(** C8: whatever the validation of [str] fields, a validator that requires
    the [id] of a nested output model (as [CategoriaOut] and
    [CentroTreinamentoOut] declare it) refuses the [AtletaOut] that [post]
    builds from [atleta_in.model_dump()], whose [categoria] and
    [centro_treinamento] carry only a name: [post] then never creates an
    athlete and leaves the store as it was. *)
Theorem post_nested_id_never_creates `{Validator} (env : Env) (a : AtletaIn.t) (s : db) :
  validate_ref_id None = None ->
  exists c d, serve HTTP_201_CREATED (post env a) s = (Err c d, s) /\ c <> HTTP_201_CREATED.
Proof.
  intros Hr. apply post_never_creates. unfold atleta_out_of.
  destruct (validate_str _), (validate_str _); simpl; by rewrite ?Hr.
Qed.

End findings.

(** C7: with SQLAlchemy's [str(e)], which quotes the failed INSERT and so
    lists the [cpf] column, every [IntegrityError] of [post]'s insert (a
    duplicate name, id or foreign key included) is answered as a duplicate
    CPF: the name branch and the 400 branch of the [except] clause are
    unreachable. *)
Theorem post_error_always_cpf (a : AtletaIn.t) (v : violation) :
  post_error a (IntegrityError (@integrity_message sqlalchemy_psycopg v
                                  (Insert atletas_t atleta_insert_cols))) =
  HTTPException HTTP_303_SEE_OTHER (msg_cpf_existente (AtletaIn.cpf a)).
Proof.
  unfold post_error. cbn [integrity_message sqlalchemy_psycopg].
  rewrite !lower_app. replace (contains "cpf" _) with true; [done|].
  symmetry. apply contains_app. vm_compute. reflexivity.
Qed.

(** ** Witnesses *)

Lemma query_filters_witness :
  query (Some "jo") (Some "345") s1 = (inr [AtletaListOut.mk "Joao" "CT King" "Scale"], s1).
Proof.
  etransitivity; [apply (query_filters (Some "jo") (Some "345") s1); vm_compute; reflexivity|].
  vm_compute. reflexivity.
Defined.

(** [post_missing_categoria]: Ana's category RX does not exist. *)
Lemma post_missing_categoria_witness :
  ("RX" ∉ CategoriaModel.nome <$> categorias s1) /\
  serve HTTP_201_CREATED (@post sqlalchemy_psycopg coercing env2 ana_rx) s1 =
  (Err HTTP_400_BAD_REQUEST ("A categoria " +:+ "RX" +:+ " não foi encontrada."), s1).
Proof.
  split; [decide_by_eval|].
  apply (@post_missing_categoria sqlalchemy_psycopg coercing env2 ana_rx s1). decide_by_eval.
Defined.

(** [post_duplicate_cpf]: Joao's CPF again, under another name. *)
Lemma post_duplicate_cpf_witness :
  "12345678901" ∈ AtletaModel.cpf <$> atletas s1 /\
  serve HTTP_201_CREATED (@post sqlalchemy_psycopg coercing env2 joao_cpf_again) s1 =
  (Err HTTP_303_SEE_OTHER (msg_cpf_existente "12345678901"), s1).
Proof.
  split; [decide_by_eval|].
  apply (@post_duplicate_cpf sqlalchemy_psycopg coercing env2 joao_cpf_again s1); decide_by_eval.
Defined.

Lemma unknown_id_404_witness :
  ("a-0009" ∉ AtletaModel.id <$> atletas s1) /\
  serve HTTP_204_NO_CONTENT (delete env2 "a-0009") s1 =
  (Err HTTP_404_NOT_FOUND (msg_nao_encontrado "a-0009"), s1).
Proof.
  split; [decide_by_eval|].
  apply (@unknown_id_404 sqlalchemy_psycopg env2 "a-0009" idade_26 s1). decide_by_eval.
Defined.

Lemma patch_nested_categoria_500_witness :
  serve HTTP_200_OK (@patch sqlalchemy_psycopg env2 "a-0001" categoria_rx) s1 =
  (Err HTTP_500_INTERNAL_SERVER_ERROR msg_interno, s1).
Proof.
  apply (@patch_nested_categoria_500 sqlalchemy_psycopg env2 s1 joao_row categoria_rx
           (CategoriaIn.mk "RX")); first [decide_by_eval | reflexivity].
Defined.

Lemma patch_cpf_null_500_witness :
  serve HTTP_200_OK (@patch sqlalchemy_psycopg env2 "a-0001" cpf_null) s1 =
  (Err HTTP_500_INTERNAL_SERVER_ERROR "Internal Server Error", s1).
Proof.
  apply (patch_cpf_null_500 env2 s1 joao_row); first [decide_by_eval | reflexivity].
Defined.

(** Joao's age set to 3 000 000 000. *)
Lemma patch_idade_out_of_range_witness :
  in_int32 3000000000 = false /\
  serve HTTP_200_OK (@patch sqlalchemy_psycopg env2 "a-0001" (idade_update 3000000000)) s1 =
  (Err HTTP_500_INTERNAL_SERVER_ERROR msg_interno, s1).
Proof.
  split; [reflexivity|].
  apply (patch_idade_out_of_range env2 s1 joao_row); first [decide_by_eval | reflexivity].
Defined.

Lemma atleta_list_out_fk_witness :
  wf s1 /\
  exists (c : CategoriaModel.t) (t : CentroTreinamentoModel.t),
    c ∈ categorias s1 /\ CategoriaModel.pk_id c = AtletaModel.categoria_id joao_row /\
    t ∈ centros_treinamento s1 /\
    CentroTreinamentoModel.pk_id t = AtletaModel.centro_treinamento_id joao_row /\
    atleta_list_out s1 joao_row = AtletaListOut.mk "Joao" "CT King" "Scale".
Proof.
  assert (Hwf : wf s1) by decide_by_eval. split; [exact Hwf|].
  destruct (atleta_list_out_fk s1 joao_row Hwf) as (c & t & Hc & Hcpk & Ht & Htpk & Hl);
    [decide_by_eval|].
  exists c, t. split_and!; [done..|]. rewrite Hl.
  apply list_elem_of_singleton in Hc as ->. apply list_elem_of_singleton in Ht as ->.
  reflexivity.
Defined.

(** Listing with [nome=J_] returns Joao, whose name does not contain
    "j_". *)
Lemma query_underscore_witness :
  contains (lower "J_") (lower (AtletaModel.nome joao_row)) = false /\
  query (Some "J_") None s1 =
  (inr [AtletaListOut.mk "Joao" "CT King" "Scale"], s1).
Proof.
  split; [vm_compute; reflexivity|].
  change (Some "J_") with (Some ("J" +:+ "_")).
  rewrite (query_underscore "J" s1) by (vm_compute; reflexivity). vm_compute. reflexivity.
Defined.

(** A validator that coerces [str] fields as the handler expects but, like
    pydantic, requires the nested ids. *)
Definition coercing_strict : Validator :=
  {| validate_str := coerce_str; validate_ref_id := pydantic_v2_ref_id |}.

Lemma post_nested_id_never_creates_witness :
  exists c d, serve HTTP_201_CREATED (@post sqlalchemy_psycopg coercing_strict env1 joao) s0 =
              (Err c d, s0) /\ c <> HTTP_201_CREATED.
Proof. apply post_nested_id_never_creates. reflexivity. Defined.

(** A validator that, like pydantic 2, takes only a [str] for a [str]
    field, but fills the nested ids. *)
Definition str_strict : Validator :=
  {| validate_str := pydantic_v2_validate; validate_ref_id := coerce_ref_id |}.

Lemma post_uuid_id_never_creates_witness :
  exists c d, serve HTTP_201_CREATED (@post sqlalchemy_psycopg str_strict env1 joao) s0 =
              (Err c d, s0) /\ c <> HTTP_201_CREATED.
Proof. apply post_uuid_id_never_creates. reflexivity. Defined.

(** Maria given Joao's CPF: a bare 500. *)
Lemma patch_duplicate_cpf_500_witness :
  serve HTTP_200_OK (@patch sqlalchemy_psycopg env2 "a-0002" cpf_joao) s2 =
  (Err HTTP_500_INTERNAL_SERVER_ERROR "Internal Server Error", s2).
Proof.
  apply (patch_duplicate_cpf_500 env2 s2 maria_row cpf_joao);
    first [decide_by_eval | reflexivity | split_and!; first [discriminate | reflexivity]].
Defined.

(** Maria renamed Joao, her CPF sent unchanged: the generic 303. *)
Lemma patch_nome_clash_303_witness :
  serve HTTP_200_OK (@patch sqlalchemy_psycopg env2 "a-0002" nome_joao_cpf_maria) s2 =
  (Err HTTP_303_SEE_OTHER msg_duplicado_patch, s2).
Proof.
  apply (patch_nome_clash_303 env2 s2 maria_row nome_joao_cpf_maria);
    first [decide_by_eval | reflexivity | split_and!; first [discriminate | reflexivity]].
Defined.
