(* ===== verification/Responses.v ===== *)
(** * The response model of [get] and [patch]

    Both routes declare [response_model=AtletaOut] and return the ORM row:
    FastAPI validates the row against [AtletaOut] by its attributes
    ([serve_model] with [render_atleta]), after the handler, and after its
    commit. pydantic 2 refuses the [datetime] of [created_at] for the [str] field,
    so every successful [get] or [patch] is answered 500, the [patch]
    having committed. *)

From Stdlib Require Import ZArith.
From stdpp Require Import base list strings option.
From S2P Require Import Prelude Store Schemas AtletaController Fixtures AtletaTheory.

Open Scope workout_scope.

(** C11: with pydantic 2, a [get] of any stored id answers 500: the row is
    found, but [created_at] holds a [datetime] that the [str] field of
    [AtletaOut] refuses, and the [ResponseValidationError] escapes the
    route (spec section 6 lists 200 or 404). *)
Theorem get_pydantic_v2_500 (i : string) (s : db) :
  i ∈ AtletaModel.id <$> atletas s ->
  serve_model HTTP_200_OK (@render_atleta pydantic_v2) (get i) s =
  (Err HTTP_500_INTERNAL_SERVER_ERROR "Internal Server Error", s).
Proof.
  intros [x Hx]%first_key_is_Some. unfold serve_model, get, find_atleta. py_unfold.
  by rewrite Hx.
Qed.

(** C10: with pydantic 2, a [patch] of plain values that breaks no
    constraint commits the update and then answers 500: the rendering of
    the updated row fails after the commit, so the client is told of an
    error while the row has changed. *)
Theorem patch_pydantic_v2_500 `{Driver} (env : Env) (s : db) (a : AtletaModel.t) (u : AtletaUpdate.t) :
  wf s -> a ∈ atletas s -> scalar_update u -> commit_fault env = None ->
  in_int32 (AtletaModel.idade (merge a u)) = true ->
  AtletaModel.nome (merge a u) ∉
    AtletaModel.nome <$> others AtletaModel.pk_id (AtletaModel.pk_id a) (atletas s) ->
  AtletaModel.cpf (merge a u) ∉
    AtletaModel.cpf <$> others AtletaModel.pk_id (AtletaModel.pk_id a) (atletas s) ->
  serve_model HTTP_200_OK (@render_atleta pydantic_v2) (patch env (AtletaModel.id a) u) s =
  (Err HTTP_500_INTERNAL_SERVER_ERROR "Internal Server Error",
   set_atletas s (replace_row AtletaModel.pk_id (AtletaModel.pk_id a) (merge a u) (atletas s))
               (seq_atletas s)).
Proof. intros. unfold serve_model. by rewrite patch_ok. Qed.

(** ** Witnesses *)

Lemma get_pydantic_v2_500_witness :
  serve_model HTTP_200_OK (@render_atleta pydantic_v2) (get "a-0001") s1 =
  (Err HTTP_500_INTERNAL_SERVER_ERROR "Internal Server Error", s1).
Proof. apply get_pydantic_v2_500. decide_by_eval. Defined.

Lemma patch_pydantic_v2_500_witness :
  serve_model HTTP_200_OK (@render_atleta pydantic_v2) (@patch sqlalchemy_psycopg env2 "a-0001" idade_26) s1 =
  (Err HTTP_500_INTERNAL_SERVER_ERROR "Internal Server Error",
   set_atletas s1 [AtletaModel.mk 0 "a-0001" "Joao" "12345678901" 26 f75_5 f1_75 "M"
                                  "2024-05-01T10:00:00+00:00" 0 0] 1).
Proof.
  apply (patch_pydantic_v2_500 env2 s1 joao_row idade_26);
    first [decide_by_eval | reflexivity | split_and!; first [discriminate | reflexivity]].
Defined.
