(* ===== verification/Api.v ===== *)
(** * The API as a state machine over the store

    Every route of the three routers is a request. Each route's decorator
    gives the status code of a normal answer and, for [get] and [patch],
    the [response_model] that validates the returned row: [handle_*] is
    that decorator over its handler, at the FastAPI boundary ([respond],
    [respond_model]), returning the status sent and the committed state.
    [handle] selects the route of a request and [run] serves a sequence of
    requests one after the other. *)

From Stdlib Require Import ZArith.
From stdpp Require Import base list strings option.
From S2P Require Import Prelude Store Schemas AtletaController.
From S2P Require Import CentroController CategoriaController Fixtures AtletaTheory.

Open Scope workout_scope.

Inductive request :=
  | PostAtleta (env : Env) (a : AtletaIn.t)
  | QueryAtletas (nome cpf : option string)
  | GetAtleta (id : string)
  | PatchAtleta (env : Env) (id : string) (u : AtletaUpdate.t)
  | DeleteAtleta (env : Env) (id : string)
  | PostCentro (env : Env) (c : CentroTreinamentoIn.t)
  | QueryCentros
  | GetCentro (id : string)
  | PostCategoria (env : Env) (c : CategoriaIn.t)
  | QueryCategorias
  | GetCategoria (id : string).

(** The status code a handler's outcome is sent with, and the state. *)
Definition respond {A} (status : Z) (m : Py db A) (s : db) : Z * db :=
  let '(r, s') := serve status m s in (status_of r, s').

(** The same for a route with a [response_model] over the returned row. *)
Definition respond_model {A B} (status : Z) (render : db -> A -> option B) (m : Py db A) (s : db)
  : Z * db :=
  let '(r, s') := serve_model status render m s in (status_of r, s').

Section api.
Context `{Driver} `{Validator}.

(** [@router.post('/', status_code=status.HTTP_201_CREATED, ...)] of the
    athlete router. *)
Definition handle_atleta_post (env : Env) (a : AtletaIn.t) : db -> Z * db :=
  respond HTTP_201_CREATED (post env a).

(** [@router.get('/', status_code=status.HTTP_200_OK, ...)]. *)
Definition handle_atleta_query (nome cpf : option string) : db -> Z * db :=
  respond HTTP_200_OK (query nome cpf).

(** [@router.get('/{id}', status_code=status.HTTP_200_OK,
    response_model=AtletaOut)]. *)
Definition handle_atleta_get (id : string) : db -> Z * db :=
  respond_model HTTP_200_OK render_atleta (get id).

(** [@router.patch('/{id}', status_code=status.HTTP_200_OK,
    response_model=AtletaOut)]. *)
Definition handle_atleta_patch (env : Env) (id : string) (u : AtletaUpdate.t) : db -> Z * db :=
  respond_model HTTP_200_OK render_atleta (patch env id u).

(** [@router.delete('/{id}', status_code=status.HTTP_204_NO_CONTENT)]. *)
Definition handle_atleta_delete (env : Env) (id : string) : db -> Z * db :=
  respond HTTP_204_NO_CONTENT (delete env id).

(** The three routes of the training-centre router. *)
Definition handle_centro_post (env : Env) (c : CentroTreinamentoIn.t) : db -> Z * db :=
  respond HTTP_201_CREATED (centro_post env c).

Definition handle_centro_query : db -> Z * db := respond HTTP_200_OK centro_query.

Definition handle_centro_get (id : string) : db -> Z * db := respond HTTP_200_OK (centro_get id).

(** The category router, as the spec describes it. *)
Definition handle_categoria_post (env : Env) (c : CategoriaIn.t) : db -> Z * db :=
  respond HTTP_201_CREATED (categoria_post env c).

Definition handle_categoria_query : db -> Z * db := respond HTTP_200_OK categoria_query.

Definition handle_categoria_get (id : string) : db -> Z * db :=
  respond HTTP_200_OK (categoria_get id).

(** The route a request selects. *)
Definition handle (r : request) : db -> Z * db :=
  match r with
  | PostAtleta env a => handle_atleta_post env a
  | QueryAtletas nome cpf => handle_atleta_query nome cpf
  | GetAtleta id => handle_atleta_get id
  | PatchAtleta env id u => handle_atleta_patch env id u
  | DeleteAtleta env id => handle_atleta_delete env id
  | PostCentro env c => handle_centro_post env c
  | QueryCentros => handle_centro_query
  | GetCentro id => handle_centro_get id
  | PostCategoria env c => handle_categoria_post env c
  | QueryCategorias => handle_categoria_query
  | GetCategoria id => handle_categoria_get id
  end.

(** A sequence of requests, one after the other. *)
Fixpoint run (rs : list request) (s : db) : list Z * db :=
  match rs with
  | [] => ([], s)
  | r :: rs' =>
    let '(c, s1) := handle r s in
    let '(cs, s2) := run rs' s1 in
    (c :: cs, s2)
  end.

End api.

Section api_theory.
Context `{Driver} `{Validator}.

(** C3: on a consistent store, deleting a stored athlete (the commit not
    failing) answers 204 and removes exactly its row; a [get] of its id that
    follows answers 404. *)
Theorem delete_then_get (env : Env) (s : db) (a : AtletaModel.t) :
  wf s -> a ∈ atletas s -> commit_fault env = None ->
  run [DeleteAtleta env (AtletaModel.id a); GetAtleta (AtletaModel.id a)] s =
  ([HTTP_204_NO_CONTENT; HTTP_404_NOT_FOUND],
   set_atletas s (others AtletaModel.pk_id (AtletaModel.pk_id a) (atletas s)) (seq_atletas s)).
Proof.
  intros Hwf Ha Hf.
  pose proof (first_key_unique _ _ _ _ (wf_atletas_id s Hwf) Ha eq_refl) as Hfind.
  pose proof (others_id_gone _ _ (wf_atletas_id s Hwf) Ha) as Hgone%first_key_None.
  simpl. unfold handle_atleta_delete, handle_atleta_get, respond, respond_model, serve, serve_model, delete, get, find_atleta, delete_atleta.
  py_unfold.
  rewrite Hfind, Hf. simpl. by rewrite Hgone.
Qed.

End api_theory.

(** ** Witnesses *)

Lemma delete_then_get_witness :
  @run sqlalchemy_psycopg coercing [DeleteAtleta env2 "a-0001"; GetAtleta "a-0001"] s1 =
  ([HTTP_204_NO_CONTENT; HTTP_404_NOT_FOUND], set_atletas s1 [] 1).
Proof.
  apply (@delete_then_get sqlalchemy_psycopg coercing env2 s1 joao_row);
    first [decide_by_eval | reflexivity].
Defined.
