(* ===== verification/CentroTheory.v ===== *)
(** * Properties of the training-centre handlers

    The behaviour of [centro_post] on each outcome of its commit, the
    classification its [except IntegrityError] clause makes of SQLAlchemy's
    message, and the round trip of a [get] after a [post]. *)

From Stdlib Require Import ZArith.
From stdpp Require Import base list strings option.
From S2P Require Import Prelude Store Schemas AtletaController CentroController Fixtures.

Open Scope workout_scope.

(** ** The commit of a training centre *)

Lemma insert_centro_ok (c : CentroTreinamentoModel.t) (s : db) :
  CentroTreinamentoModel.id c ∉ CentroTreinamentoModel.id <$> centros_treinamento s ->
  CentroTreinamentoModel.nome c ∉ CentroTreinamentoModel.nome <$> centros_treinamento s ->
  forall `{Driver},
  insert_centro None c s =
  (inr (CentroTreinamentoModel.mk (seq_centros_treinamento s) (CentroTreinamentoModel.id c)
                                  (CentroTreinamentoModel.nome c)),
   set_centros s (centros_treinamento s ++
                  [CentroTreinamentoModel.mk (seq_centros_treinamento s) (CentroTreinamentoModel.id c)
                                             (CentroTreinamentoModel.nome c)])
               (S (seq_centros_treinamento s))).
Proof. intros Hi%first_key_None Hn%first_key_None ?. unfold insert_centro. by rewrite Hi, Hn. Qed.

(** A row whose id or name is taken is refused by one of the two unique
    indexes; the sequence value is spent. *)
Lemma insert_centro_refused `{Driver} (c : CentroTreinamentoModel.t) (s : db) :
  CentroTreinamentoModel.id c ∈ CentroTreinamentoModel.id <$> centros_treinamento s \/
  CentroTreinamentoModel.nome c ∈ CentroTreinamentoModel.nome <$> centros_treinamento s ->
  exists v, insert_centro None c s =
  (inl (IntegrityError (integrity_message v (Insert centros_treinamento_t centro_insert_cols))),
   set_centros s (centros_treinamento s) (S (seq_centros_treinamento s))).
Proof.
  intros Hin. unfold insert_centro.
  case_decide as Hi; [by eexists|]. case_decide as Hn; [by eexists|].
  rewrite !first_key_is_Some in Hi, Hn. tauto.
Qed.

(** SQLAlchemy's message for a refused centre insert quotes its column
    list, which names [nome]: the first branch of the [except] clause is
    taken whatever the constraint. *)
Lemma centro_post_error_sqlalchemy (c : CentroTreinamentoIn.t) (v : violation) :
  centro_post_error c (IntegrityError (@integrity_message sqlalchemy_psycopg v
                                         (Insert centros_treinamento_t centro_insert_cols))) =
  HTTPException HTTP_303_SEE_OTHER (msg_centro_nome_existente (CentroTreinamentoIn.nome c)).
Proof.
  unfold centro_post_error. cbn [integrity_message sqlalchemy_psycopg].
  rewrite !lower_app. replace (contains "nome" _) with true; [done|].
  symmetry. apply contains_app. vm_compute. reflexivity.
Qed.

Section centro.
Context `{Driver}.

Lemma centro_post_ok (env : Env) (c : CentroTreinamentoIn.t) (s : db) :
  commit_fault env = None ->
  uuid4 env ∉ CentroTreinamentoModel.id <$> centros_treinamento s ->
  CentroTreinamentoIn.nome c ∉ CentroTreinamentoModel.nome <$> centros_treinamento s ->
  centro_post env c s =
  (inr (CentroTreinamentoOut.mk (uuid4 env) (CentroTreinamentoIn.nome c)),
   set_centros s (centros_treinamento s ++
                  [CentroTreinamentoModel.mk (seq_centros_treinamento s) (uuid4 env)
                                             (CentroTreinamentoIn.nome c)])
               (S (seq_centros_treinamento s))).
Proof.
  intros Hf Hi Hn. unfold centro_post, try_except, bind. rewrite Hf.
  by rewrite (insert_centro_ok (CentroTreinamentoModel.mk 0 (uuid4 env) (CentroTreinamentoIn.nome c))).
Qed.

(** C18: a training centre with a new name, given a new id, and whose
    commit does not fail, is created: the answer is 201 with the generated
    id and the name, and the row is appended with the next primary key. *)
Theorem centro_post_creates (env : Env) (c : CentroTreinamentoIn.t) (s : db) :
  commit_fault env = None ->
  uuid4 env ∉ CentroTreinamentoModel.id <$> centros_treinamento s ->
  CentroTreinamentoIn.nome c ∉ CentroTreinamentoModel.nome <$> centros_treinamento s ->
  serve HTTP_201_CREATED (centro_post env c) s =
  (Ok HTTP_201_CREATED (CentroTreinamentoOut.mk (uuid4 env) (CentroTreinamentoIn.nome c)),
   set_centros s (centros_treinamento s ++
                  [CentroTreinamentoModel.mk (seq_centros_treinamento s) (uuid4 env)
                                             (CentroTreinamentoIn.nome c)])
               (S (seq_centros_treinamento s))).
Proof. intros Hf Hi Hn. unfold serve. by rewrite centro_post_ok. Qed.

(** C20: a [get] of the id a successful [post] answered with returns the
    same training centre (a round trip through the store). *)
Theorem centro_post_get_roundtrip (env : Env) (c : CentroTreinamentoIn.t) (s : db) :
  commit_fault env = None ->
  uuid4 env ∉ CentroTreinamentoModel.id <$> centros_treinamento s ->
  CentroTreinamentoIn.nome c ∉ CentroTreinamentoModel.nome <$> centros_treinamento s ->
  exists s' out, centro_post env c s = (inr out, s') /\
                 centro_get (CentroTreinamentoOut.id out) s' = (inr out, s').
Proof.
  intros Hf Hi Hn. rewrite centro_post_ok by done. eexists _, _. split; [done|].
  unfold centro_get. py_unfold. simpl.
  by rewrite first_app_None, first_singleton by (done || by apply first_key_None).
Qed.

End centro.

(** C19: with SQLAlchemy's [str(e)], a training centre refused by either
    unique index (a taken name, or a taken id) is answered 303 with the
    detail "a centre with this name exists": the "dados duplicados" and
    400 branches of the [except] clause are unreachable; no row is added
    and a sequence value is spent. *)
Theorem centro_post_refused_as_nome (env : Env) (c : CentroTreinamentoIn.t) (s : db) :
  commit_fault env = None ->
  uuid4 env ∈ CentroTreinamentoModel.id <$> centros_treinamento s \/
  CentroTreinamentoIn.nome c ∈ CentroTreinamentoModel.nome <$> centros_treinamento s ->
  serve HTTP_201_CREATED (@centro_post sqlalchemy_psycopg env c) s =
  (Err HTTP_303_SEE_OTHER (msg_centro_nome_existente (CentroTreinamentoIn.nome c)),
   set_centros s (centros_treinamento s) (S (seq_centros_treinamento s))).
Proof.
  intros Hf Hin. unfold serve, centro_post, try_except, bind. rewrite Hf.
  cbn [CentroTreinamentoOut.id CentroTreinamentoOut.nome].
  destruct (@insert_centro_refused sqlalchemy_psycopg (CentroTreinamentoModel.mk 0 (uuid4 env) (CentroTreinamentoIn.nome c))
              s Hin) as [v ->].
  unfold raise. by rewrite centro_post_error_sqlalchemy.
Qed.

(** ** Witnesses *)

Definition env_ct2 : Env := mkenv "t-0002" "2024-05-02T09:00:00+00:00" None.

Lemma centro_post_creates_witness :
  @serve _ HTTP_201_CREATED (@centro_post sqlalchemy_psycopg env_ct2 (CentroTreinamentoIn.mk "CT Queen")) s0 =
  (Ok HTTP_201_CREATED (CentroTreinamentoOut.mk "t-0002" "CT Queen"),
   set_centros s0 [ct_king; CentroTreinamentoModel.mk 1 "t-0002" "CT Queen"] 2).
Proof. apply (@centro_post_creates sqlalchemy_psycopg); decide_by_eval || reflexivity. Defined.

Lemma centro_post_refused_as_nome_witness :
  @serve _ HTTP_201_CREATED (@centro_post sqlalchemy_psycopg env_ct2 (CentroTreinamentoIn.mk "CT King")) s0 =
  (Err HTTP_303_SEE_OTHER (msg_centro_nome_existente "CT King"), set_centros s0 [ct_king] 2).
Proof. apply centro_post_refused_as_nome; [reflexivity|right; decide_by_eval]. Defined.

Lemma centro_post_get_roundtrip_witness :
  exists s' out,
    @centro_post sqlalchemy_psycopg env_ct2 (CentroTreinamentoIn.mk "CT Queen") s0 = (inr out, s') /\
    centro_get (CentroTreinamentoOut.id out) s' = (inr out, s').
Proof. apply (@centro_post_get_roundtrip sqlalchemy_psycopg); decide_by_eval || reflexivity. Defined.
