(* ===== verification/Routing.v ===== *)
(** * Routing: from an HTTP request to a handler

    Each router ([atleta/controller.py], [centro_treinamento/controller.py],
    [categorias/controller.py]) registers its routes with decorators: a
    method, a path (['/'] or ['/{id}']), a status code and the function
    whose parameters say what the request must carry ([id: UUID4] in the
    path, [Query(None)] in the query string, [Body(...)] in the body). A
    [route] is one decorator with its function: [route_call] validates the
    path parameter, the query and the body, and builds the [request] that
    [handle] serves, or fails, which FastAPI answers 422
    ([RequestValidationError]) before the handler runs.

    [dispatch] is Starlette's [Router]: the first route whose path and
    method match is called; if only a path matches, 405; if the path with
    its trailing slash removed or added matches, a 307 redirect; otherwise
    404. FastAPI's [APIRoute] does not add [HEAD] to a [GET] route.
    Paths are below the router's prefix (set in [routers.py], not under
    src/), which ends without a slash. [serve_http] composes the dispatch,
    the validation and [handle]. The theorems show what the router answers
    before any handler (422 for an id that is not a version-4 UUID, 405 for
    a method no route declares), that every accepted spelling of an id is
    served as its canonical text, and a [PATCH] through the whole stack. *)

From Stdlib Require Import ZArith Ascii.
From stdpp Require Import base list strings option.
From S2P Require Import Prelude Uuid Store Schemas Body AtletaController.
From S2P Require Import CentroController CategoriaController Fixtures AtletaTheory Api.

Open Scope workout_scope.

Definition HTTP_307_TEMPORARY_REDIRECT : Z := 307.
Definition HTTP_405_METHOD_NOT_ALLOWED : Z := 405.
Definition HTTP_422_UNPROCESSABLE_ENTITY : Z := 422.

Inductive method := GET | HEAD | POST | PUT | PATCH | DELETE | OPTIONS.

#[export] Instance method_eq_dec : EqDecision method.
Proof. solve_decision. Defined.

Inductive router := Atletas | CentrosTreinamento | Categorias.

(** A route's path below the prefix: ['/'] or ['/{id}']. *)
Inductive template := Root | IdParam.

#[export] Instance template_eq_dec : EqDecision template.
Proof. solve_decision. Defined.

(** A request as the router sees it: the path below the router's prefix,
    already percent-decoded, the query string's pairs in their order, and
    the body decoded as JSON ([None] when absent or not JSON). *)
Record http_request := mk_http {
  http_method : method;
  http_router : router;
  http_path : string;
  http_query : list (string * string);
  http_body : option json
}.

Record route := mk_route {
  route_methods : list method;
  route_path : template;
  route_status : Z;
  route_call : Env -> option string -> list (string * string) -> option json -> option request
}.

(** ** Parameters *)

(** [id: UUID4]: the segment read as a version-4 UUID; the handler gets
    the UUID, whose text is [str(id)]. *)
Definition path_uuid4 (seg : string) : option string := uuid_str <$> uuid4_validate seg.

(** [Query(None)]: the last value given for the key, [None] if none. *)
Definition query_param (k : string) (q : list (string * string)) : option string :=
  foldl (fun acc kv => if bool_decide (kv.1 = k) then Some kv.2 else acc) None q.

(** ** The routes *)

Section routes.
Context `{JsonLax}.

(** [@router.post('/', status_code=status.HTTP_201_CREATED,
    response_model=AtletaOut)] over [post(db_session, atleta_in: AtletaIn =
    Body(...))]. *)
Definition atleta_post_route : route :=
  mk_route [POST] Root HTTP_201_CREATED
    (fun env _ _ body => a ← body ≫= atleta_in_of_json; Some (PostAtleta env a)).

(** [@router.get('/', status_code=status.HTTP_200_OK,
    response_model=list[AtletaListOut])] over [query(db_session, nome: str =
    Query(None), cpf: str = Query(None))]. *)
Definition atleta_query_route : route :=
  mk_route [GET] Root HTTP_200_OK
    (fun _ _ q _ => Some (QueryAtletas (query_param "nome" q) (query_param "cpf" q))).

(** [@router.get('/{id}', status_code=status.HTTP_200_OK,
    response_model=AtletaOut)] over [get(id: UUID4, db_session)]. *)
Definition atleta_get_route : route :=
  mk_route [GET] IdParam HTTP_200_OK
    (fun _ seg _ _ => i ← seg ≫= path_uuid4; Some (GetAtleta i)).

(** [@router.patch('/{id}', status_code=status.HTTP_200_OK,
    response_model=AtletaOut)] over [patch(id: UUID4, db_session, atleta_up:
    AtletaUpdate = Body(...))]. *)
Definition atleta_patch_route : route :=
  mk_route [PATCH] IdParam HTTP_200_OK
    (fun env seg _ body =>
       i ← seg ≫= path_uuid4; u ← body ≫= atleta_update_of_json; Some (PatchAtleta env i u)).

(** [@router.delete('/{id}', status_code=status.HTTP_204_NO_CONTENT)] over
    [delete(id: UUID4, db_session)]. *)
Definition atleta_delete_route : route :=
  mk_route [DELETE] IdParam HTTP_204_NO_CONTENT
    (fun env seg _ _ => i ← seg ≫= path_uuid4; Some (DeleteAtleta env i)).

(** [router = APIRouter()] of [atleta/controller.py], in the order the
    decorators register the routes. *)
Definition atleta_routes : list route :=
  [atleta_post_route; atleta_query_route; atleta_get_route; atleta_patch_route; atleta_delete_route].

(** [@router.post('/', status_code=status.HTTP_201_CREATED,
    response_model=CentroTreinamentoOut)] over [post(db_session,
    centro_treinamento_in: CentroTreinamentoIn = Body(...))]. *)
Definition centro_post_route : route :=
  mk_route [POST] Root HTTP_201_CREATED
    (fun env _ _ body => c ← body ≫= centro_in_of_json; Some (PostCentro env c)).

(** [@router.get('/', status_code=status.HTTP_200_OK,
    response_model=list[CentroTreinamentoOut])] over [query(db_session)]. *)
Definition centro_query_route : route :=
  mk_route [GET] Root HTTP_200_OK (fun _ _ _ _ => Some QueryCentros).

(** [@router.get('/{id}', status_code=status.HTTP_200_OK,
    response_model=CentroTreinamentoOut)] over [get(id: UUID4, db_session)]. *)
Definition centro_get_route : route :=
  mk_route [GET] IdParam HTTP_200_OK
    (fun _ seg _ _ => i ← seg ≫= path_uuid4; Some (GetCentro i)).

Definition centro_routes : list route := [centro_post_route; centro_query_route; centro_get_route].

(** The category router, as spec section 4.4 describes it: create, list,
    get by id, in the shape of the centre's. *)
Definition categoria_post_route : route :=
  mk_route [POST] Root HTTP_201_CREATED
    (fun env _ _ body => c ← body ≫= categoria_in_of_json; Some (PostCategoria env c)).

Definition categoria_query_route : route :=
  mk_route [GET] Root HTTP_200_OK (fun _ _ _ _ => Some QueryCategorias).

Definition categoria_get_route : route :=
  mk_route [GET] IdParam HTTP_200_OK
    (fun _ seg _ _ => i ← seg ≫= path_uuid4; Some (GetCategoria i)).

Definition categoria_routes : list route :=
  [categoria_post_route; categoria_query_route; categoria_get_route].

Definition routes_of (r : router) : list route :=
  match r with
  | Atletas => atleta_routes
  | CentrosTreinamento => centro_routes
  | Categorias => categoria_routes
  end.

End routes.

(** ** Starlette's router *)

(** [[^/]*]: no slash in the text. *)
Fixpoint no_slash (s : string) : bool :=
  match s with
  | EmptyString => true
  | String c s' => bool_decide (c <> "/"%char) && no_slash s'
  end.

(** The compiled path: ['^/$'], or ['^/(?P<id>[^/]+)$'] with the segment. *)
Definition match_template (t : template) (p : string) : option (option string) :=
  match t with
  | Root => if bool_decide (p = "/") then Some None else None
  | IdParam =>
    match p with
    | String c seg =>
      if bool_decide (c = "/"%char /\ seg <> EmptyString /\ no_slash seg = true)
      then Some (Some seg) else None
    | EmptyString => None
    end
  end.

(** The first route whose path and method both match. *)
Fixpoint find_full (m : method) (p : string) (rs : list route) : option (route * option string) :=
  match rs with
  | [] => None
  | rt :: rs' =>
    match match_template (route_path rt) p with
    | Some prm => if bool_decide (m ∈ route_methods rt) then Some (rt, prm) else find_full m p rs'
    | None => find_full m p rs'
    end
  end.

(** Some route's path matches, whatever its methods. *)
Definition path_matches (p : string) (rs : list route) : bool :=
  existsb (fun rt => bool_decide (is_Some (match_template (route_path rt) p))) rs.

Fixpoint ends_with_slash (s : string) : bool :=
  match s with
  | EmptyString => false
  | String c EmptyString => bool_decide (c = "/"%char)
  | String _ s' => ends_with_slash s'
  end.

(** [str.rstrip("/")]. *)
Fixpoint rstrip_slash (s : string) : string :=
  match s with
  | EmptyString => EmptyString
  | String c s' =>
    let r := rstrip_slash s' in
    if bool_decide (r = EmptyString /\ c = "/"%char) then EmptyString else String c r
  end.

(** [redirect_slashes]: the path with its trailing slashes removed, or
    with one added. *)
Definition slash_variant (p : string) : string :=
  if ends_with_slash p then rstrip_slash p else p +:+ "/".

Inductive routing := Matched (rt : route) (prm : option string) | NotAllowed | Redirect | NotFound.

Definition dispatch (rs : list route) (m : method) (p : string) : routing :=
  match find_full m p rs with
  | Some (rt, prm) => Matched rt prm
  | None =>
    if path_matches p rs then NotAllowed
    else if path_matches (slash_variant p) rs then Redirect
    else NotFound
  end.

Section serve.
Context `{Driver} `{Validator} `{JsonLax}.

(** A request through the router, the validation of its parameters and
    the handler, with the environment of the handler's run. *)
Definition serve_http (env : Env) (q : http_request) (s : db) : Z * db :=
  match dispatch (routes_of (http_router q)) (http_method q) (http_path q) with
  | Matched rt prm =>
    match route_call rt env prm (http_query q) (http_body q) with
    | Some r => handle r s
    | None => (HTTP_422_UNPROCESSABLE_ENTITY, s)
    end
  | NotAllowed => (HTTP_405_METHOD_NOT_ALLOWED, s)
  | Redirect => (HTTP_307_TEMPORARY_REDIRECT, s)
  | NotFound => (HTTP_404_NOT_FOUND, s)
  end.

End serve.

(** ** The router on a path ['/' + segment] *)

Section segments.

Lemma ascii_lower_slash (c : ascii) : ascii_lower c = "/"%char <-> c = "/"%char.
Proof. split; [|by intros ->]. destruct c as [[][][][][][][][]]; done. Qed.

Lemma no_slash_app (a b : string) : no_slash (a +:+ b) = no_slash a && no_slash b.
Proof. induction a as [|c a IH]; [done|]. rewrite string_app_cons. simpl. by rewrite IH, andb_assoc. Qed.

Lemma no_slash_lower (t : string) : no_slash (lower t) = no_slash t.
Proof.
  induction t as [|c t IH]; [done|]. simpl. rewrite IH. f_equal.
  apply bool_decide_ext. by rewrite ascii_lower_slash.
Qed.

Lemma no_slash_hyphenate (i : nat) (u : uuid) :
  Forall (fun c => is_lower_hex c = true) u -> no_slash (hyphenate i u) = true.
Proof.
  revert i; induction u as [|c u IH]; intros i Hu; [done|].
  apply list.Forall_cons in Hu as [[Hx _]%is_lower_hex_inv Hu]. simpl.
  assert (c <> "/"%char) by (by intros ->).
  case_bool_decide; simpl; rewrite !bool_decide_eq_true_2 by done; simpl; by apply IH.
Qed.

Lemma no_slash_ends (s : string) : no_slash s = true -> ends_with_slash s = false.
Proof.
  induction s as [|c s IH]; [done|]. simpl. rewrite andb_true_iff, bool_decide_eq_true.
  intros [Hc Hs]. destruct s; [by rewrite bool_decide_eq_false_2|]. by apply IH.
Qed.

Lemma match_root_seg (seg : string) : seg <> EmptyString -> match_template Root ("/" +:+ seg) = None.
Proof.
  intros Hseg. rewrite string_app_cons, string_app_nil_l. simpl.
  rewrite bool_decide_eq_false_2; [done|]. by intros [= ->].
Qed.

Lemma match_id_seg (seg : string) :
  seg <> EmptyString -> no_slash seg = true -> match_template IdParam ("/" +:+ seg) = Some (Some seg).
Proof. intros. rewrite string_app_cons, string_app_nil_l. simpl. by rewrite bool_decide_eq_true_2. Qed.

Lemma match_id_seg_slash (seg : string) : match_template IdParam ("/" +:+ (seg +:+ "/")) = None.
Proof.
  rewrite string_app_cons, string_app_nil_l. simpl.
  rewrite bool_decide_eq_false_2; [done|]. intros (_ & _ & Hn).
  by rewrite no_slash_app, andb_false_r in Hn.
Qed.

End segments.

(** The first route of ['/{id}'] with the method. *)
Fixpoint find_id (m : method) (rs : list route) : option route :=
  match rs with
  | [] => None
  | rt :: rs' => if bool_decide (route_path rt = IdParam /\ m ∈ route_methods rt) then Some rt else find_id m rs'
  end.

Definition has_id_route (rs : list route) : bool :=
  existsb (fun rt => bool_decide (route_path rt = IdParam)) rs.


Section dispatch_seg.
Context (seg : string) (Hne : seg <> EmptyString) (Hns : no_slash seg = true).

Lemma find_full_seg (m : method) (rs : list route) :
  find_full m ("/" +:+ seg) rs = (fun rt => (rt, Some seg)) <$> find_id m rs.
Proof.
  induction rs as [|rt rs IH]; [done|]. simpl.
  destruct (route_path rt); [rewrite match_root_seg by done | rewrite match_id_seg by done];
    repeat case_bool_decide; naive_solver.
Qed.

Lemma path_matches_seg (rs : list route) : path_matches ("/" +:+ seg) rs = has_id_route rs.
Proof.
  induction rs as [|rt rs IH]; [done|]. unfold path_matches, has_id_route in *. simpl. rewrite IH. f_equal.
  apply bool_decide_ext. destruct (route_path rt);
    [rewrite match_root_seg by done | rewrite match_id_seg by done]; split; intros; try done; by eexists.
Qed.

Lemma path_matches_seg_slash (rs : list route) : path_matches ("/" +:+ (seg +:+ "/")) rs = false.
Proof.
  induction rs as [|rt rs IH]; [done|]. unfold path_matches in *. simpl. rewrite IH, orb_false_r.
  apply bool_decide_eq_false_2. destruct (route_path rt).
  - rewrite match_root_seg; [by intros []|]. intros Hs. apply Hne. by destruct seg.
  - rewrite match_id_seg_slash. by intros [].
Qed.

Lemma slash_variant_seg : slash_variant ("/" +:+ seg) = "/" +:+ (seg +:+ "/").
Proof.
  unfold slash_variant. rewrite string_app_cons, string_app_nil_l. destruct seg as [|c r] eqn:E; [congruence|].
  change (ends_with_slash (String "/" (String c r))) with (ends_with_slash (String c r)).
  rewrite no_slash_ends by done. by rewrite string_app_cons.
Qed.

(** On ['/' + segment] the router calls the first route of ['/{id}'] with
    the method, or answers 405 if ['/{id}'] has routes, 404 if not; a
    segment never redirects. *)
Lemma dispatch_seg (rs : list route) (m : method) :
  dispatch rs m ("/" +:+ seg) =
  match find_id m rs with
  | Some rt => Matched rt (Some seg)
  | None => if has_id_route rs then NotAllowed else NotFound
  end.
Proof.
  unfold dispatch. rewrite find_full_seg. destruct (find_id m rs); [done|]. simpl.
  rewrite path_matches_seg, slash_variant_seg, path_matches_seg_slash. by destruct (has_id_route rs).
Qed.

End dispatch_seg.

(** ** The [UUID4] parameter *)

Lemma no_slash_spellings (u : uuid) (t seg : string) :
  uuid_wf u -> lower t = uuid_str u -> seg ∈ ["{" +:+ t +:+ "}"; urn_prefix +:+ t; t] ->
  seg <> EmptyString /\ no_slash seg = true.
Proof.
  intros Hwf Ht Hseg.
  assert (no_slash t = true) as Hn by (rewrite <- no_slash_lower, Ht; apply no_slash_hyphenate, Hwf).
  assert (t <> EmptyString) as Hne.
  { intros ->. pose proof (uuid_str_length u Hwf) as Hl. rewrite <- Ht in Hl. discriminate. }
  rewrite !elem_of_cons, elem_of_nil in Hseg. destruct Hseg as [->|[->|[->|[]]]].
  - rewrite string_app_cons, string_app_nil_l. simpl. by rewrite no_slash_app, Hn.
  - unfold urn_prefix. rewrite !string_app_cons, string_app_nil_l. by simpl.
  - done.
Qed.

Lemma path_uuid4_spellings (u : uuid) (t seg : string) :
  uuid_wf u -> uuid_version u = Some "4"%char -> lower t = uuid_str u ->
  seg ∈ ["{" +:+ t +:+ "}"; urn_prefix +:+ t; t] -> path_uuid4 seg = Some (uuid_str u).
Proof.
  intros Hwf Hv Ht Hseg. unfold path_uuid4, uuid4_validate.
  rewrite (uuid_parse_spellings u t seg Hwf Ht Hseg). simpl. by rewrite bool_decide_eq_true_2.
Qed.

Lemma no_slash_uuid_hex (u : uuid) :
  Forall (fun c => is_lower_hex c = true) u -> no_slash (uuid_hex u) = true.
Proof.
  induction u as [|c u IH]; intros Hu; [done|].
  apply list.Forall_cons in Hu as [[Hx _]%is_lower_hex_inv Hu]. simpl.
  assert (c <> "/"%char) by (by intros ->).
  rewrite bool_decide_eq_true_2 by done. by apply IH.
Qed.

(** Every spelling of an id the [UUID4] parameter accepts is a segment
    of the path ['/{id}'] and is read as the UUID's text: the hyphenated
    form in any mix of cases, bare, in braces or after [urn:uuid:], and the
    32 digits alone. *)
Definition uuid_spelling (u : uuid) (t seg : string) : Prop :=
  (lower t = uuid_str u /\ seg ∈ ["{" +:+ t +:+ "}"; urn_prefix +:+ t; t]) \/
  lower seg = uuid_hex u.

Lemma uuid_spelling_seg (u : uuid) (t seg : string) :
  uuid_wf u -> uuid_version u = Some "4"%char -> uuid_spelling u t seg ->
  seg <> EmptyString /\ no_slash seg = true /\ path_uuid4 seg = Some (uuid_str u).
Proof.
  intros Hwf Hv [[Ht Hseg]|Hh].
  - destruct (no_slash_spellings u t seg Hwf Ht Hseg) as [Hne Hns].
    split_and!; [done|done|by apply path_uuid4_spellings with t].
  - split_and!.
    + intros ->. pose proof (f_equal String.length Hh) as Hl.
      rewrite uuid_hex_length, (proj1 Hwf) in Hl. discriminate.
    + rewrite <- no_slash_lower, Hh. apply no_slash_uuid_hex, Hwf.
    + unfold path_uuid4, uuid4_validate. rewrite (uuid_parse_hex_spelling u seg Hwf Hh). simpl.
      by rewrite bool_decide_eq_true_2.
Qed.

Lemma has_id_route_routes_of `{JsonLax} (r : router) : has_id_route (routes_of r) = true.
Proof. by destruct r. Qed.

(** The route of ['/{id}'] each method reaches. *)
Lemma find_id_routes_of `{JsonLax} (r : router) (m : method) :
  find_id m (routes_of r) =
  match r, m with
  | Atletas, GET => Some atleta_get_route
  | Atletas, PATCH => Some atleta_patch_route
  | Atletas, DELETE => Some atleta_delete_route
  | CentrosTreinamento, GET => Some centro_get_route
  | Categorias, GET => Some categoria_get_route
  | _, _ => None
  end.
Proof. by destruct r, m. Qed.

(** ** What the router answers *)

Section http.
Context `{Driver} `{Validator} `{JsonLax}.

(** C21: a path segment that is not a version-4 UUID, sent to a route of
    ['/{id}'] ([GET], [PATCH] or [DELETE] of an athlete, [GET] of a centre
    or a category), is answered 422 by the validation of [id: UUID4]
    before the handler runs: the store is unchanged, and no row is read,
    updated or deleted, whatever the query and the body. *)
Theorem bad_id_422 (env : Env) (r : router) (m : method) (seg : string)
    (q : list (string * string)) (b : option json) (s : db) :
  (r = Atletas /\ m ∈ [GET; PATCH; DELETE]) \/ m = GET ->
  seg <> EmptyString -> no_slash seg = true -> uuid4_validate seg = None ->
  serve_http env (mk_http m r ("/" +:+ seg) q b) s = (HTTP_422_UNPROCESSABLE_ENTITY, s).
Proof.
  intros Hm Hne Hns Hv. unfold serve_http. cbn [http_router http_method http_path http_query http_body].
  rewrite dispatch_seg, find_id_routes_of by done. rewrite !elem_of_cons, elem_of_nil in Hm.
  destruct Hm as [[-> [->|[->|[->|[]]]]]| ->]; [..|destruct r]; cbn -[uuid4_validate]; unfold path_uuid4; by rewrite Hv.
Qed.

(** C24: a method that no route of ['/{id}'] of the router declares is
    answered 405 before the path parameter is even read, and the store is
    unchanged: [HEAD], [PUT], [POST] or [OPTIONS] on an athlete, anything
    but [GET] on a centre or a category (spec section 6: [PATCH] and
    [DELETE] are the athlete's only; FastAPI does not add [HEAD] to a
    [GET] route). *)
Theorem method_not_allowed_405 (env : Env) (r : router) (m : method) (seg : string)
    (q : list (string * string)) (b : option json) (s : db) :
  (r = Atletas /\ m ∈ [HEAD; PUT; POST; OPTIONS]) \/ (r <> Atletas /\ m <> GET) ->
  seg <> EmptyString -> no_slash seg = true ->
  serve_http env (mk_http m r ("/" +:+ seg) q b) s = (HTTP_405_METHOD_NOT_ALLOWED, s).
Proof.
  intros Hm Hne Hns. unfold serve_http. cbn [http_router http_method http_path http_query http_body].
  rewrite dispatch_seg, find_id_routes_of, has_id_route_routes_of by done.
  rewrite !elem_of_cons, elem_of_nil in Hm.
  destruct Hm as [[-> [->|[->|[->|[->|[]]]]]]|[Hr Hm]]; [done..|].
  by destruct r, m.
Qed.

(** C22: every spelling of an id that the [UUID4] parameter accepts (the
    hyphenated form in any mix of cases, bare, in braces or after
    [urn:uuid:], and the 32 digits without hyphens) reaches the route with
    the UUID's text, so each request is served exactly as the one with the
    id's canonical text: same status, same store. *)
Theorem id_spellings_same_response (env : Env) (r : router) (m : method) (u : uuid) (t seg : string)
    (q : list (string * string)) (b : option json) (s : db) :
  uuid_wf u -> uuid_version u = Some "4"%char ->
  (lower t = uuid_str u /\ seg ∈ ["{" +:+ t +:+ "}"; urn_prefix +:+ t; t]) \/
  lower seg = uuid_hex u ->
  serve_http env (mk_http m r ("/" +:+ seg) q b) s =
  serve_http env (mk_http m r ("/" +:+ uuid_str u) q b) s.
Proof.
  intros Hwf Hv Hseg.
  assert (uuid_spelling u (uuid_str u) (uuid_str u)) as Hc
    by (left; split; [apply lower_uuid_str, Hwf|rewrite !elem_of_cons; tauto]).
  destruct (uuid_spelling_seg u t seg Hwf Hv Hseg) as (Hne & Hns & Hp).
  destruct (uuid_spelling_seg u _ _ Hwf Hv Hc) as (Hne' & Hns' & Hp').
  unfold serve_http. cbn [http_router http_method http_path http_query http_body].
  rewrite (dispatch_seg seg Hne Hns), (dispatch_seg _ Hne' Hns'), find_id_routes_of.
  destruct r, m; cbn -[path_uuid4]; by rewrite ?Hp, ?Hp'.
Qed.

End http.

(** ** Through the router to the handlers *)

Section http_handlers.
Context `{Driver} `{JsonLax} `{!JsonLaxLaws}.

(** C23: with pydantic 2, [PATCH] of a stored athlete's id, in any
    spelling the [UUID4] parameter accepts, with the body [{"idade": n}]
    for an [n] that fits the column, commits the new age and then answers
    500: the row is replaced in place by the same row with only its age
    changed, while the response model refuses the updated row. *)
Theorem http_patch_idade_500 (env : Env) (s : db) (a : AtletaModel.t) (u : uuid) (t seg : string)
    (q : list (string * string)) (n : Z) :
  wf s -> a ∈ atletas s -> AtletaModel.id a = uuid_str u -> uuid_wf u ->
  uuid_version u = Some "4"%char ->
  (lower t = uuid_str u /\ seg ∈ ["{" +:+ t +:+ "}"; urn_prefix +:+ t; t]) \/
  lower seg = uuid_hex u ->
  commit_fault env = None -> in_int32 n = true ->
  @serve_http _ pydantic_v2 _ env
    (mk_http PATCH Atletas ("/" +:+ seg) q (Some (JObj [("idade", JInt n)]))) s =
  (HTTP_500_INTERNAL_SERVER_ERROR,
   set_atletas s
     (replace_row AtletaModel.pk_id (AtletaModel.pk_id a)
        (AtletaModel.mk (AtletaModel.pk_id a) (AtletaModel.id a) (AtletaModel.nome a)
           (AtletaModel.cpf a) n (AtletaModel.peso a) (AtletaModel.altura a) (AtletaModel.sexo a)
           (AtletaModel.created_at a) (AtletaModel.categoria_id a)
           (AtletaModel.centro_treinamento_id a))
        (atletas s))
     (seq_atletas s)).
Proof.
  intros Hwf Ha Hid Hu Hv Hseg Hf Hn.
  destruct (uuid_spelling_seg u t seg Hu Hv Hseg) as (Hne & Hns & Hp).
  unfold serve_http. cbn [http_router http_method http_path http_query http_body].
  rewrite (dispatch_seg seg Hne Hns), find_id_routes_of. cbn -[path_uuid4 atleta_update_of_json].
  rewrite Hp, <- Hid.
  change (Some (JObj [("idade", JInt n)]) ≫= atleta_update_of_json)
    with (atleta_update_of_json (JObj [("idade", JInt n)])).
  rewrite atleta_update_of_json_idade. cbn [handle mbind option_bind].
  unfold handle_atleta_patch, respond_model, serve_model.
  rewrite (patch_ok env s a); [|done|done|split_and!; done|done|done| |].
  - unfold render_atleta. by rewrite atleta_out_from_attributes_pydantic_v2.
  - cbn [merge AtletaModel.nome upd_or]. apply (others_col_gone AtletaModel.nome); [apply wf_atletas_nome, Hwf|done].
  - cbn [merge AtletaModel.cpf upd_or]. apply (others_col_gone AtletaModel.cpf); [apply wf_atletas_cpf, Hwf|done].
Qed.

End http_handlers.

(** ** Witnesses *)

(** A version-4 UUID, its text in upper case, and a version-1 one. *)
Definition joao_uuid : uuid := String.list_ascii_of_string "936e630a8fd94b1ea7b34e0d0c8d35a4".
Definition joao_id_upper : string := "936E630A-8FD9-4B1E-A7B3-4E0D0C8D35A4".
Definition uuid_v1 : string := "936e630a-8fd9-1b1e-a7b3-4e0d0c8d35a4".

(** Joao, stored under that UUID's text. *)
Definition joao_uuid_row : AtletaModel.t :=
  AtletaModel.mk 0 (uuid_str joao_uuid) "Joao" "12345678901" 25 f75_5 f1_75 "M"
                 "2024-05-01T10:00:00+00:00" 0 0.

Definition s_uuid : db := mkdb [cat_scale] [ct_king] [joao_uuid_row] 1 1 1.


Lemma bad_id_422_witness :
  @serve_http sqlalchemy_psycopg coercing strict_json env1
    (mk_http DELETE Atletas ("/" +:+ uuid_v1) [] None) s_uuid =
  (HTTP_422_UNPROCESSABLE_ENTITY, s_uuid).
Proof. apply bad_id_422; [left; split; [done|decide_by_eval]|done|reflexivity|reflexivity]. Defined.

Lemma method_not_allowed_405_witness :
  @serve_http sqlalchemy_psycopg coercing strict_json env1
    (mk_http PATCH CentrosTreinamento ("/" +:+ uuid_v1) [] None) s_uuid =
  (HTTP_405_METHOD_NOT_ALLOWED, s_uuid).
Proof. apply method_not_allowed_405; [right; split; discriminate|done|reflexivity]. Defined.

Lemma id_spellings_same_response_witness :
  @serve_http sqlalchemy_psycopg coercing strict_json env1
    (mk_http GET Atletas ("/" +:+ ("{" +:+ joao_id_upper +:+ "}")) [] None) s_uuid =
  @serve_http sqlalchemy_psycopg coercing strict_json env1
    (mk_http GET Atletas ("/" +:+ uuid_str joao_uuid) [] None) s_uuid.
Proof.
  apply (id_spellings_same_response env1 Atletas GET joao_uuid joao_id_upper);
    [decide_by_eval|reflexivity|left; split; [reflexivity|decide_by_eval]].
Defined.

(** Joao's id as its 32 upper-case digits. *)
Definition joao_hex_upper : string := "936E630A8FD94B1EA7B34E0D0C8D35A4".

Lemma http_patch_idade_500_witness :
  @serve_http sqlalchemy_psycopg pydantic_v2 strict_json env1
    (mk_http PATCH Atletas ("/" +:+ joao_hex_upper) [] (Some (JObj [("idade", JInt 26)]))) s_uuid =
  (HTTP_500_INTERNAL_SERVER_ERROR,
   set_atletas s_uuid
     [AtletaModel.mk 0 (uuid_str joao_uuid) "Joao" "12345678901" 26 f75_5 f1_75 "M"
                     "2024-05-01T10:00:00+00:00" 0 0] 1).
Proof.
  rewrite (http_patch_idade_500 env1 s_uuid joao_uuid_row joao_uuid "" joao_hex_upper [] 26);
    [reflexivity|..]; first [decide_by_eval | reflexivity | right; reflexivity].
Defined.
